(** * Procurement daily pipeline (dags/pipeline.py): embedding and properties

    The pipeline is an Airflow DAG of eight Python tasks.  Tasks 5, 6 and 7
    send one SQL statement each to Trino and post-process the fetched rows in
    Python; task 8 assembles a summary from the XCom store.

    Embedding choices.
    - A table is a list of records; a SELECT is a function on such lists,
      written with the relational operators of section [Sql] below.
    - The order in which the engine returns rows is only constrained by
      ORDER BY, and ROW_NUMBER() only by its window ORDER BY: both are
      relations (any sorted permutation is an answer).
    - BIGINT values are integers of [Z].  VARCHAR columns of the Hive tables
      that the statements CAST to BIGINT are represented by the value of the
      cast.  The engine checks BIGINT arithmetic and casts: when one fails the
      statement fails and the task writes nothing, so every row the engine
      returns is a row of the model.
    - DOUBLE values are IEEE 754 binary64 numbers, [spec_float] with
      precision 53 and maximal exponent 1024.
    - Files, the XCom store and the task logs are components of an explicit
      [World] threaded through the tasks; a task is a function from the world
      to a new world and an outcome.
    - Wall-clock values (the timestamps of log files and of the summary) are
      left out. *)

From Stdlib Require Import ZArith Ascii Floats.SpecFloat.
From stdpp Require Import base tactics option list numbers strings pretty gmap sorting.

Local Open Scope Z_scope.

(** ** DOUBLE arithmetic (binary64) *)
Module Double.

Definition prec : Z := 53.
Definition emax : Z := 1024.

Definition double := spec_float.

#[global] Instance double_eq_dec : EqDecision spec_float.
Proof. solve_decision. Defined.

(** CAST(z AS DOUBLE): round to nearest, ties to even. *)
Definition of_bigint (z : Z) : double := binary_normalize prec emax z 0 false.

Definition div : double -> double -> double := SFdiv prec emax.
Definition mul : double -> double -> double := SFmul prec emax.
Definition add : double -> double -> double := SFadd prec emax.
Definition ltb : double -> double -> bool := SFltb.
Definition leb : double -> double -> bool := SFleb.

Definition is_nan (x : double) : bool :=
  match x with S754_nan => true | _ => false end.

(** CEILING(x): the least integer not below [x]; zeros, infinities and NaN
    are returned unchanged, and a negative fraction above -1 gives -0. *)
Definition ceiling (x : double) : double :=
  match x with
  | S754_finite s m e =>
      if 0 <=? e then x
      else
        let d := 2 ^ (- e) in
        let q := Z.pos m / d in
        let r := Z.pos m mod d in
        if s then binary_normalize prec emax (- q) 0 true
        else binary_normalize prec emax (if r =? 0 then q else q + 1) 0 false
  | _ => x
  end.

(** GREATEST(x, y) on DOUBLE: the engine rejects a NaN argument, otherwise
    keeps the first argument unless the second is greater. *)
Definition greatest (x y : double) : option double :=
  if is_nan x || is_nan y then None
  else Some (if ltb x y then y else x).

(** CAST of a DECIMAL with two fractional digits, held as its unscaled
    value: the unscaled value as a DOUBLE divided by 100. *)
Definition of_decimal2 (unscaled : Z) : double :=
  div (of_bigint unscaled) (of_bigint 100).

(** The integer a DOUBLE stands for, when it stands for one. *)
Definition integer_value (x : double) : option Z :=
  match x with
  | S754_zero _ => Some 0
  | S754_finite s m e =>
      if 0 <=? e then Some (cond_Zopp s (Z.pos m * 2 ^ e))
      else if Z.pos m mod 2 ^ (- e) =? 0
           then Some (cond_Zopp s (Z.pos m / 2 ^ (- e)))
           else None
  | _ => None
  end.

End Double.

(** ** Relational operators *)
Section Sql.
Context {A B K : Type}.

(** FROM l JOIN r ON on *)
Definition inner_join (on : A -> B -> bool) (l : list A) (r : list B)
  : list (A * B) :=
  a ← l; (λ b, (a, b)) <$> List.filter (on a) r.

(** FROM l CROSS JOIN r *)
Definition cross_join (l : list A) (r : list B) : list (A * B) :=
  a ← l; (λ b, (a, b)) <$> r.

(** FROM l LEFT JOIN r ON on: a row of [l] without partner is kept once,
    with NULL for the columns of [r]. *)
Definition left_join (on : A -> B -> bool) (l : list A) (r : list B)
  : list (A * option B) :=
  a ← l;
  match List.filter (on a) r with
  | [] => [(a, None)]
  | bs => (λ b, (a, Some b)) <$> bs
  end.

(** GROUP BY key: one group per distinct key, holding the rows with it. *)
Definition group_by `{EqDecision K} (key : A -> K) (rows : list A)
  : list (K * list A) :=
  (λ k, (k, filter (λ r, key r = k) rows)) <$> remove_dups (key <$> rows).

(** ORDER BY: [out] is an answer for rows [rows] when it holds the same rows
    and every row stands in relation [before] to all rows after it. *)
Definition order_by (before : A -> A -> Prop) (rows out : list A) : Prop :=
  rows ≡ₚ out ∧ StronglySorted before out.

(** ROW_NUMBER() OVER (PARTITION BY part): the rows in the order the window
    sorted them, each with its position among the rows of its partition. *)
Fixpoint row_number_from `{EqDecision K} (part : A -> K)
    (seen : list A) (rows : list A) : list (A * Z) :=
  match rows with
  | [] => []
  | r :: rows' =>
      (r, 1 + Z.of_nat (length (filter (λ r', part r' = part r) seen)))
        :: row_number_from part (r :: seen) rows'
  end.

Definition row_number `{EqDecision K} (part : A -> K) (rows : list A)
  : list (A * Z) :=
  row_number_from part [] rows.

(** The test "of partition [s] and numbered 1" on a numbered row. *)
Definition first_of `{EqDecision K} (part : A -> K) (s : K) (xk : A * Z) : bool :=
  bool_decide (part xk.1 = s) && bool_decide (xk.2 = 1).

End Sql.

Definition sum_bigint (l : list Z) : Z := foldr Z.add 0 l.

(** COALESCE(x, d) *)
Definition coalesce {A} (x : option A) (d : A) : A := default d x.

(** MAX over VARCHAR values (NULL on no rows). *)
Definition max_varchar (l : list string) : option string :=
  match l with
  | [] => None
  | s :: l' => Some (foldl (λ m x, if String.ltb m x then x else m) s l')
  end.

(** ** Dates *)
Record Date := { year : Z; month : Z; day : Z }.

#[global] Instance Date_eq_dec : EqDecision Date.
Proof. solve_decision. Defined.

(** Day number of a civil date and back (proleptic Gregorian calendar, day 0
    is 1970-01-01), as DATE_ADD needs them. *)
Definition days_from_civil (d : Date) : Z :=
  let y := if month d <=? 2 then year d - 1 else year d in
  let era := y / 400 in
  let yoe := y - era * 400 in
  let mp := (month d + 9) mod 12 in
  let doy := (153 * mp + 2) / 5 + day d - 1 in
  let doe := yoe * 365 + yoe / 4 - yoe / 100 + doy in
  era * 146097 + doe - 719468.

Definition civil_from_days (z : Z) : Date :=
  let z := z + 719468 in
  let era := z / 146097 in
  let doe := z - era * 146097 in
  let yoe := (doe - doe / 1460 + doe / 36524 - doe / 146096) / 365 in
  let doy := doe - (365 * yoe + yoe / 4 - yoe / 100) in
  let mp := (5 * doy + 2) / 153 in
  let d := doy - (153 * mp + 2) / 5 + 1 in
  let m := if mp <? 10 then mp + 3 else mp - 9 in
  let y := yoe + era * 400 in
  {| year := if m <=? 2 then y + 1 else y; month := m; day := d |}.

(** DATE_ADD('day', n, d) *)
Definition date_add_days (n : Z) (d : Date) : Date :=
  civil_from_days (days_from_civil d + n).

(** ** Tables

    The declarations of the PostgreSQL and Cassandra tables are not part of
    the sources; the columns are those the statements read.  Identifiers and
    quantities are integers, codes and names are text, [sp_unit_price] is a
    DECIMAL with two fractional digits held as its unscaled value (4500 for
    45.00).  Columns the statements pass through COALESCE are nullable. *)

(** hive.procurement.orders, one row per line of orders.csv *)
Record OrderLine := {
  o_order_id : string;
  o_supplier_id : string;
  o_sku_id : Z;          (* CAST(o.sku_id AS BIGINT) *)
  o_quantity : Z;        (* CAST(o.quantity AS BIGINT) *)
  o_warehouse_id : Z;    (* CAST(o.warehouse_id AS BIGINT) *)
  o_order_date : string
}.

(** hive.procurement.stock *)
Record StockEntry := {
  st_warehouse_id : string;
  st_sku_id : string;
  st_current_stock : string
}.

(** postgresql.public.products *)
Record Product := {
  p_sku_id : Z;
  p_sku_code : string;
  p_name : string;
  p_category : string
}.

(** postgresql.public.warehouses *)
Record Warehouse := {
  w_warehouse_id : Z;
  w_warehouse_code : string;
  w_name : string;
  w_city : string
}.

(** postgresql.public.safety_stock: the global entries *)
Record SafetyStock := {
  ss_sku_id : Z;
  ss_safety_stock_qty : option Z
}.

(** postgresql.public.safety_stock_by_warehouse *)
Record SafetyStockByWarehouse := {
  ssw_sku_id : Z;
  ssw_warehouse_id : Z;
  ssw_safety_stock_qty : option Z
}.

(** cassandra.procurement.inventory_snapshots *)
Record InventorySnapshot := {
  inv_sku_code : string;
  inv_snapshot_date : Date;
  inv_warehouse_code : string;
  inv_available_qty : option Z;
  inv_reserved_qty : option Z
}.

(** postgresql.public.supplier_products *)
Record SupplierProduct := {
  sp_supplier_id : Z;
  sp_sku_id : Z;
  sp_pack_size : Z;
  sp_min_order_qty : Z;
  sp_lead_time_days : Z;
  sp_unit_price : Z;
  sp_currency : string;
  sp_is_active : bool
}.

(** postgresql.public.suppliers *)
Record Supplier := {
  s_supplier_id : Z;
  s_supplier_code : string;
  s_name : string;
  s_is_active : bool
}.

#[global] Instance OrderLine_eq_dec : EqDecision OrderLine.
Proof. solve_decision. Defined.
#[global] Instance StockEntry_eq_dec : EqDecision StockEntry.
Proof. solve_decision. Defined.
#[global] Instance Product_eq_dec : EqDecision Product.
Proof. solve_decision. Defined.
#[global] Instance Warehouse_eq_dec : EqDecision Warehouse.
Proof. solve_decision. Defined.
#[global] Instance InventorySnapshot_eq_dec : EqDecision InventorySnapshot.
Proof. solve_decision. Defined.
#[global] Instance SupplierProduct_eq_dec : EqDecision SupplierProduct.
Proof. solve_decision. Defined.
#[global] Instance Supplier_eq_dec : EqDecision Supplier.
Proof. solve_decision. Defined.

(** The reference data in PostgreSQL. *)
Record Catalog := {
  products : list Product;
  warehouses : list Warehouse;
  safety_stock : list SafetyStock;
  safety_stock_by_warehouse : list SafetyStockByWarehouse;
  supplier_products : list SupplierProduct;
  suppliers : list Supplier
}.

(** What a statement sees through the three Trino catalogs. *)
Record Db := {
  orders : list OrderLine;
  catalog : Catalog;
  inventory_snapshots : list InventorySnapshot
}.

(** ** Result rows *)

(** The eight grouping columns shared by the three statements. *)
Record DemandKey := {
  sku_id : Z;
  sku_code : string;
  product_name : string;
  category : string;
  warehouse_id : Z;
  warehouse_code : string;
  warehouse_name : string;
  city : string
}.

#[global] Instance DemandKey_eq_dec : EqDecision DemandKey.
Proof. solve_decision. Defined.

(** A row of aggregate_sql. *)
Record AggregatedDemand := {
  agg_key : DemandKey;
  total_quantity : Z;
  order_count : Z;
  order_date : option string
}.

(** A row of the CTE aggregated_orders of tasks 6 and 7. *)
Record AggregatedOrder := {
  ao_key : DemandKey;
  ao_total_quantity : Z
}.

(** A row of the CTE safety_stock_combined. *)
Record SafetyStockCombined := {
  ssc_sku_id : Z;
  ssc_warehouse_id : Z;
  ssc_safety_stock_qty : Z
}.

(** A row of net_demand_sql. *)
Record NetDemandSql := {
  nd_key : DemandKey;
  aggregated_orders_qty : Z;   (* column aggregated_orders *)
  safety_stock_qty : Z;        (* column safety_stock *)
  available_stock : Z;
  reserved_stock : Z;
  effective_stock : Z;
  net_demand : Z
}.

(** A row of the CTE ranked_suppliers. *)
Record RankedSupplier := {
  rs_supplier_id : Z;
  rs_supplier_code : string;
  rs_supplier_name : string;
  rs_sku_id : Z;
  rs_pack_size : Z;
  rs_min_order_qty : Z;
  rs_lead_time_days : Z;
  rs_unit_price : Z;
  rs_currency : string;
  price_rank : Z
}.

(** A row of supplier_orders_sql. *)
Record SupplierOrderSql := {
  so_key : DemandKey;
  so_supplier_id : Z;
  so_supplier_code : string;
  so_supplier_name : string;
  so_net_demand : Z;
  so_pack_size : Z;
  so_min_order_qty : Z;
  so_unit_price : Z;
  so_currency : string;
  so_lead_time_days : Z;
  order_quantity : Double.double;
  total_cost : Double.double;
  expected_delivery_date : Date
}.

#[global] Instance AggregatedDemand_eq_dec : EqDecision AggregatedDemand.
Proof. solve_decision. Defined.
#[global] Instance NetDemandSql_eq_dec : EqDecision NetDemandSql.
Proof. solve_decision. Defined.
#[global] Instance SupplierOrderSql_eq_dec : EqDecision SupplierOrderSql.
Proof. solve_decision. Defined.

(** ** The SQL statements *)

(** orders o JOIN products p ON CAST(o.sku_id AS BIGINT) = p.sku_id
             JOIN warehouses w ON CAST(o.warehouse_id AS BIGINT) = w.warehouse_id *)
Definition joined_orders (db : Db) : list (OrderLine * Product * Warehouse) :=
  inner_join (λ op w, bool_decide (o_warehouse_id op.1 = w_warehouse_id w))
    (inner_join (λ o p, bool_decide (o_sku_id o = p_sku_id p))
       (orders db) (products (catalog db)))
    (warehouses (catalog db)).

(** The GROUP BY columns of a joined line. *)
Definition demand_key (opw : OrderLine * Product * Warehouse) : DemandKey :=
  let '(o, p, w) := opw in
  {| sku_id := o_sku_id o;
     sku_code := p_sku_code p;
     product_name := p_name p;
     category := p_category p;
     warehouse_id := o_warehouse_id o;
     warehouse_code := w_warehouse_code w;
     warehouse_name := w_name w;
     city := w_city w |}.

Definition order_groups (db : Db)
  : list (DemandKey * list (OrderLine * Product * Warehouse)) :=
  group_by demand_key (joined_orders db).

Definition group_quantity (g : list (OrderLine * Product * Warehouse)) : Z :=
  sum_bigint ((λ opw, o_quantity opw.1.1) <$> g).

(** aggregate_sql before its ORDER BY. *)
Definition aggregate_rows (db : Db) : list AggregatedDemand :=
  (λ kg, {| agg_key := kg.1;
            total_quantity := group_quantity kg.2;
            order_count := Z.of_nat (length kg.2);
            order_date := max_varchar ((λ opw, o_order_date opw.1.1) <$> kg.2) |})
    <$> order_groups db.

(** ORDER BY total_quantity DESC *)
Definition by_total_quantity_desc (x y : AggregatedDemand) : Prop :=
  total_quantity y <= total_quantity x.

(** The answers the engine may give to aggregate_sql. *)
Definition aggregate_sql (db : Db) (out : list AggregatedDemand) : Prop :=
  order_by by_total_quantity_desc (aggregate_rows db) out.

(** CTE aggregated_orders *)
Definition aggregated_orders (db : Db) : list AggregatedOrder :=
  (λ kg, {| ao_key := kg.1; ao_total_quantity := group_quantity kg.2 |})
    <$> order_groups db.

(** CTE safety_stock_combined: the global entries, crossed with the
    warehouses, each with the per-warehouse entry of its SKU and warehouse
    when there is one. *)
Definition safety_stock_combined (cat : Catalog) : list SafetyStockCombined :=
  (λ row, let '(ss, w, ssw) := row in
     {| ssc_sku_id := coalesce (ssw_sku_id <$> ssw) (ss_sku_id ss);
        ssc_warehouse_id := coalesce (ssw_warehouse_id <$> ssw) (w_warehouse_id w);
        ssc_safety_stock_qty :=
          coalesce (ssw ≫= ssw_safety_stock_qty)
            (coalesce (ss_safety_stock_qty ss) 0) |})
    <$> left_join
          (λ ssw' ssw, bool_decide (ss_sku_id ssw'.1 = ssw_sku_id ssw)
                       && bool_decide (w_warehouse_id ssw'.2 = ssw_warehouse_id ssw))
          (cross_join (safety_stock cat) (warehouses cat))
          (safety_stock_by_warehouse cat).

(** CTE inventory_data: the snapshots of the calculation date. *)
Definition inventory_data (db : Db) (date : Date) : list InventorySnapshot :=
  List.filter (λ inv, bool_decide (inv_snapshot_date inv = date))
    (inventory_snapshots db).

(** aggregated_orders ao
      LEFT JOIN safety_stock_combined ss
        ON ao.sku_id = ss.sku_id AND ao.warehouse_id = ss.warehouse_id
      LEFT JOIN inventory_data inv
        ON ao.sku_code = inv.sku_code AND ao.warehouse_code = inv.warehouse_code *)
Definition net_demand_joined (db : Db) (date : Date)
  : list (AggregatedOrder * option SafetyStockCombined * option InventorySnapshot) :=
  left_join
    (λ aoss inv, bool_decide (sku_code (ao_key aoss.1) = inv_sku_code inv)
                 && bool_decide (warehouse_code (ao_key aoss.1) = inv_warehouse_code inv))
    (left_join
       (λ ao ss, bool_decide (sku_id (ao_key ao) = ssc_sku_id ss)
                 && bool_decide (warehouse_id (ao_key ao) = ssc_warehouse_id ss))
       (aggregated_orders db) (safety_stock_combined (catalog db)))
    (inventory_data db date).

(** The select list of net_demand_sql on one joined row. *)
Definition net_demand_row
    (row : AggregatedOrder * option SafetyStockCombined * option InventorySnapshot)
  : NetDemandSql :=
  let '(ao, ss, inv) := row in
  let safety := coalesce (ssc_safety_stock_qty <$> ss) 0 in
  let available := coalesce (inv ≫= inv_available_qty) 0 in
  let reserved := coalesce (inv ≫= inv_reserved_qty) 0 in
  {| nd_key := ao_key ao;
     aggregated_orders_qty := ao_total_quantity ao;
     safety_stock_qty := safety;
     available_stock := available;
     reserved_stock := reserved;
     effective_stock := available - reserved;
     net_demand :=
       Z.max 0 (ao_total_quantity ao + safety - (available - reserved)) |}.

(** net_demand_sql before its ORDER BY; the CTE net_demand_calc of task 7 is
    the same rows, of which it keeps the key and net_demand. *)
Definition net_demand_rows (db : Db) (date : Date) : list NetDemandSql :=
  net_demand_row <$> net_demand_joined db date.

(** ORDER BY net_demand DESC *)
Definition by_net_demand_desc (x y : NetDemandSql) : Prop :=
  net_demand y <= net_demand x.

(** The answers the engine may give to net_demand_sql. *)
Definition net_demand_sql (db : Db) (date : Date) (out : list NetDemandSql) : Prop :=
  order_by by_net_demand_desc (net_demand_rows db date) out.

(** supplier_products sp JOIN suppliers s ON sp.supplier_id = s.supplier_id
    WHERE sp.is_active = TRUE AND s.is_active = TRUE *)
Definition active_offers (cat : Catalog) : list (SupplierProduct * Supplier) :=
  List.filter (λ sps, sp_is_active sps.1 && s_is_active sps.2)
    (inner_join (λ sp s, bool_decide (sp_supplier_id sp = s_supplier_id s))
       (supplier_products cat) (suppliers cat)).

(** The window ORDER BY sp.unit_price ASC *)
Definition by_unit_price_asc (x y : SupplierProduct * Supplier) : Prop :=
  sp_unit_price x.1 <= sp_unit_price y.1.

(** The orders in which the window of ranked_suppliers may see the offers. *)
Definition window_order (cat : Catalog) (sorted : list (SupplierProduct * Supplier))
  : Prop :=
  order_by by_unit_price_asc (active_offers cat) sorted.

(** The select list of ranked_suppliers on an offer with its row number. *)
Definition ranked_of (sp : SupplierProduct) (s : Supplier) (k : Z) : RankedSupplier :=
  {| rs_supplier_id := sp_supplier_id sp;
     rs_supplier_code := s_supplier_code s;
     rs_supplier_name := s_name s;
     rs_sku_id := sp_sku_id sp;
     rs_pack_size := sp_pack_size sp;
     rs_min_order_qty := sp_min_order_qty sp;
     rs_lead_time_days := sp_lead_time_days sp;
     rs_unit_price := sp_unit_price sp;
     rs_currency := sp_currency sp;
     price_rank := k |}.

(** CTE ranked_suppliers, from the offers as the window sorted them. *)
Definition ranked_suppliers (sorted : list (SupplierProduct * Supplier))
  : list RankedSupplier :=
  (λ spsk, ranked_of spsk.1.1 spsk.1.2 spsk.2)
    <$> row_number (λ sps, sp_sku_id sps.1) sorted.

(** CEILING(CAST(nd.net_demand AS DOUBLE) / rs.pack_size) * rs.pack_size *)
Definition rounded_to_packs (nd pack : Z) : Double.double :=
  Double.mul
    (Double.ceiling (Double.div (Double.of_bigint nd) (Double.of_bigint pack)))
    (Double.of_bigint pack).

(** GREATEST(rs.min_order_qty, CEILING(...) * rs.pack_size) *)
Definition order_quantity_of (nd pack min_qty : Z) : option Double.double :=
  Double.greatest (Double.of_bigint min_qty) (rounded_to_packs nd pack).

(** net_demand_calc nd JOIN ranked_suppliers rs
      ON nd.sku_id = rs.sku_id AND rs.price_rank = 1
    WHERE nd.net_demand > 0 *)
Definition supplier_orders_joined (db : Db) (date : Date)
    (sorted : list (SupplierProduct * Supplier))
  : list (NetDemandSql * RankedSupplier) :=
  List.filter (λ ndrs, 0 <? net_demand ndrs.1)
    (inner_join
       (λ nd rs, bool_decide (sku_id (nd_key nd) = rs_sku_id rs)
                 && bool_decide (price_rank rs = 1))
       (net_demand_rows db date) (ranked_suppliers sorted)).

(** The select list of supplier_orders_sql on one joined row; no row when
    GREATEST rejects its arguments. *)
Definition supplier_order_row (date : Date) (ndrs : NetDemandSql * RankedSupplier)
  : option SupplierOrderSql :=
  let '(nd, rs) := ndrs in
  q ← order_quantity_of (net_demand nd) (rs_pack_size rs) (rs_min_order_qty rs);
  Some {| so_key := nd_key nd;
          so_supplier_id := rs_supplier_id rs;
          so_supplier_code := rs_supplier_code rs;
          so_supplier_name := rs_supplier_name rs;
          so_net_demand := net_demand nd;
          so_pack_size := rs_pack_size rs;
          so_min_order_qty := rs_min_order_qty rs;
          so_unit_price := rs_unit_price rs;
          so_currency := rs_currency rs;
          so_lead_time_days := rs_lead_time_days rs;
          order_quantity := q;
          total_cost := Double.mul q (Double.of_decimal2 (rs_unit_price rs));
          expected_delivery_date := date_add_days (rs_lead_time_days rs) date |}.

(** supplier_orders_sql before its ORDER BY, for one order of the window;
    [None] when the statement fails on some row. *)
Definition supplier_order_rows (db : Db) (date : Date)
    (sorted : list (SupplierProduct * Supplier))
  : option (list SupplierOrderSql) :=
  mapM (supplier_order_row date) (supplier_orders_joined db date sorted).

(** ORDER BY total_cost DESC *)
Definition by_total_cost_desc (x y : SupplierOrderSql) : Prop :=
  Double.ltb (total_cost x) (total_cost y) = false.

(** The answers the engine may give to supplier_orders_sql: rows, or a
    failure of the statement. *)
Definition supplier_orders_sql (db : Db) (date : Date)
    (answer : option (list SupplierOrderSql)) : Prop :=
  ∃ sorted, window_order (catalog db) sorted ∧
    match supplier_order_rows db date sorted with
    | None => answer = None
    | Some rows => ∃ out, answer = Some out ∧ order_by by_total_cost_desc rows out
    end.

(** ** Python values and formatting *)

Inductive PyVal :=
  | PyInt (z : Z)
  | PyFloat (x : Double.double)
  | PyStr (s : string).

#[global] Instance PyVal_eq_dec : EqDecision PyVal.
Proof. solve_decision. Defined.

(** [v or 0], with [None] for a missing value. *)
Definition or_0 (v : option PyVal) : PyVal :=
  match v with
  | None => PyInt 0
  | Some (PyInt 0) => PyInt 0
  | Some (PyFloat (S754_zero _)) => PyInt 0
  | Some (PyStr EmptyString) => PyInt 0
  | Some v => v
  end.

(** str.zfill / the 0w of a format specification: zeros on the left up to
    width [w], nothing cut. *)
Fixpoint zeros (n : nat) : string :=
  match n with O => "" | S n' => String "0"%char (zeros n') end.

Definition zfill (w : nat) (s : string) : string :=
  zeros (w - String.length s) +:+ s.

(** f"{i:05d}" *)
Definition format_05d (i : Z) : string := zfill 5 (pretty i).

(** s.replace(old, new) for a non-empty [old]; [skip] counts the characters
    of a match still to be passed over. *)
Fixpoint replace_from (old new : string) (skip : nat) (s : string) : string :=
  match s with
  | EmptyString => EmptyString
  | String c s' =>
      match skip with
      | S k => replace_from old new k s'
      | O =>
          if String.prefix old s
          then new +:+ replace_from old new (String.length old - 1) s'
          else String c (replace_from old new 0 s')
      end
  end.

Definition str_replace (old new s : string) : string := replace_from old new 0 s.

(** execution_date.strftime("%d-%m-%Y"), the DATE_FORMAT of the module *)
Definition strftime_dmy (d : Date) : string :=
  zfill 2 (pretty (day d)) +:+ "-" +:+ zfill 2 (pretty (month d)) +:+ "-"
    +:+ zfill 4 (pretty (year d)).

(** execution_date.strftime("%Y-%m-%d") *)
Definition strftime_iso (d : Date) : string :=
  zfill 4 (pretty (year d)) +:+ "-" +:+ zfill 2 (pretty (month d)) +:+ "-"
    +:+ zfill 2 (pretty (day d)).

(** ** Configuration *)
Definition BASE_DATA_PATH : string := "/opt/airflow/data".
Definition RAW_PATH : string := BASE_DATA_PATH +:+ "/raw".
Definition TEMP_PATH : string := BASE_DATA_PATH +:+ "/temp".
Definition HDFS_BASE_PATH : string := "/procurement".
Definition HDFS_RAW_PATH : string := HDFS_BASE_PATH +:+ "/raw".
Definition HDFS_PROCESSED_PATH : string := HDFS_BASE_PATH +:+ "/processed".
Definition HDFS_OUTPUT_PATH : string := HDFS_BASE_PATH +:+ "/output".
Definition HDFS_LOGS_PATH : string := HDFS_BASE_PATH +:+ "/logs".

(** ** Rows as the tasks write them *)

(** A row of net_demand_sql with the key calculation_date added. *)
Record NetDemandRow := {
  nd_sql : NetDemandSql;
  calculation_date : string
}.

(** A row of supplier_orders_sql with the keys order_id, order_date and
    status added. *)
Record SupplierOrderLine := {
  so_sql : SupplierOrderSql;
  order_id : string;
  so_order_date : string;    (* key order_date *)
  status : string
}.

(** The summary of task 8 (its timestamp left out). *)
Record Summary := {
  sm_execution_date : string;
  sm_status : string;
  sm_orders_count : PyVal;           (* hive_tables.orders_count *)
  sm_stock_count : PyVal;            (* hive_tables.stock_count *)
  sm_snapshots_inserted : PyVal;     (* cassandra.snapshots_inserted *)
  sm_aggregation_combinations : PyVal;
  sm_net_demand_combinations : PyVal;
  sm_items_with_demand : PyVal;
  sm_total_quantity : PyVal;         (* net_demand.total_quantity *)
  sm_orders_generated : PyVal;
  sm_total_cost : PyVal
}.

#[global] Instance NetDemandRow_eq_dec : EqDecision NetDemandRow.
Proof. solve_decision. Defined.
#[global] Instance SupplierOrderLine_eq_dec : EqDecision SupplierOrderLine.
Proof. solve_decision. Defined.
#[global] Instance Summary_eq_dec : EqDecision Summary.
Proof. solve_decision. Defined.

(** ** The world of a DAG run *)

(** A file, by what it holds. *)
Inductive File :=
  | OrdersCsv (rows : list OrderLine)
  | StockJson (rows : list StockEntry)
  | StockCsv (rows : list StockEntry)
  | SnapshotJson (rows : list InventorySnapshot)
  | AggregatedJson (rows : list AggregatedDemand)
  | AggregatedCsv (rows : list AggregatedDemand)
  | NetDemandJson (rows : list NetDemandRow)
  | NetDemandCsv (rows : list NetDemandRow)
  | SupplierOrdersJson (rows : list SupplierOrderLine)
  | SupplierOrdersCsv (rows : list SupplierOrderLine)
  | SummaryJson (s : Summary).

#[global] Instance File_eq_dec : EqDecision File.
Proof. solve_decision. Defined.

(** An entry written by log_task_execution or log_exception. *)
Record LogEntry := {
  log_task_name : string;
  log_execution_date : string;
  log_status : string;
  log_details : list (string * PyVal)
}.

Record World := {
  local_files : gmap string File;
  hdfs_files : gmap string File;
  cassandra_table : list InventorySnapshot;
  hive_orders : option string;     (* external_location of table orders *)
  hive_stock : option string;      (* external_location of table stock *)
  xcom : gmap (string * string) PyVal;
  task_logs : list LogEntry;
  exception_logs : list LogEntry
}.

(** A Python computation on the world: a value, or an exception raised. *)
Definition Py (A : Type) : Type := World -> World * option A.

#[global] Instance Py_ret : MRet Py := λ A x w, (w, Some x).
#[global] Instance Py_bind : MBind Py := λ A B f m w,
  match m w with
  | (w', Some x) => f x w'
  | (w', None) => (w', None)
  end.

Definition raise {A} : Py A := λ w, (w, None).

Definition modify (f : World -> World) : Py unit := λ w, (f w, Some tt).

Definition read {A} (f : World -> A) : Py A := λ w, (w, Some (f w)).

(** The value fetched for a statement, the exception of the driver when the
    statement failed. *)
Definition fetchall {A} (answer : option A) : Py A :=
  match answer with
  | Some rows => mret rows
  | None => raise
  end.

(** open(path, 'w') and a dump of [f]; the directory was made before. *)
Definition write_local (path : string) (f : File) : Py unit :=
  modify (λ w, {| local_files := <[path := f]> (local_files w);
                  hdfs_files := hdfs_files w;
                  cassandra_table := cassandra_table w;
                  hive_orders := hive_orders w;
                  hive_stock := hive_stock w;
                  xcom := xcom w;
                  task_logs := task_logs w;
                  exception_logs := exception_logs w |}).

(** hdfs_hook.load_file(source, destination, overwrite=True) on an HDFS that
    accepts the upload: the local file is copied, an exception when there is
    no such local file.  [load_file_to] below is the call on an HDFS that
    may refuse. *)
Definition load_file (source destination : string) : Py unit :=
  f ← read (λ w, local_files w !! source);
  match f with
  | Some f =>
      modify (λ w, {| local_files := local_files w;
                      hdfs_files := <[destination := f]> (hdfs_files w);
                      cassandra_table := cassandra_table w;
                      hive_orders := hive_orders w;
                      hive_stock := hive_stock w;
                      xcom := xcom w;
                      task_logs := task_logs w;
                      exception_logs := exception_logs w |})
  | None => raise
  end.

(** ti.xcom_push(key, value) of the task instance [ti] *)
Definition xcom_push (ti key : string) (v : PyVal) : Py unit :=
  modify (λ w, {| local_files := local_files w;
                  hdfs_files := hdfs_files w;
                  cassandra_table := cassandra_table w;
                  hive_orders := hive_orders w;
                  hive_stock := hive_stock w;
                  xcom := <[(ti, key) := v]> (xcom w);
                  task_logs := task_logs w;
                  exception_logs := exception_logs w |}).

(** ti.xcom_pull(task_ids, key): [None] when nothing was pushed. *)
Definition xcom_pull (task_ids key : string) : Py (option PyVal) :=
  read (λ w, xcom w !! (task_ids, key)).

(** log_task_execution when the upload of the log file is accepted: one
    entry; it never raises.  [log_task_execution_to] below covers the upload
    that fails. *)
Definition log_task_execution (task_name execution_date status : string)
    (details : list (string * PyVal)) : Py unit :=
  modify (λ w, {| local_files := local_files w;
                  hdfs_files := hdfs_files w;
                  cassandra_table := cassandra_table w;
                  hive_orders := hive_orders w;
                  hive_stock := hive_stock w;
                  xcom := xcom w;
                  task_logs :=
                    task_logs w ++ [ {| log_task_name := task_name;
                                        log_execution_date := execution_date;
                                        log_status := status;
                                        log_details := details |} ];
                  exception_logs := exception_logs w |}).

(** log_exception when the upload of the log file is accepted: one entry,
    then AirflowException.  [log_exception_to] below covers the upload that
    fails. *)
Definition log_exception {A} (task_name execution_date : string)
    (additional_info : list (string * PyVal)) : Py A :=
  modify (λ w, {| local_files := local_files w;
                  hdfs_files := hdfs_files w;
                  cassandra_table := cassandra_table w;
                  hive_orders := hive_orders w;
                  hive_stock := hive_stock w;
                  xcom := xcom w;
                  task_logs := task_logs w;
                  exception_logs :=
                    exception_logs w ++ [ {| log_task_name := task_name;
                                             log_execution_date := execution_date;
                                             log_status := "exception";
                                             log_details := additional_info |} ] |});;
  raise.

(** try: body  except Exception as e: log_exception(...) *)
Definition try_except {A} (body : Py A) (handler : Py A) : Py A := λ w,
  match body w with
  | (w', Some x) => (w', Some x)
  | (w', None) => handler w'
  end.

(** json.load of a local file of the expected kind. *)
Definition load_local {A} (path : string) (kind : File -> option A) : Py A :=
  f ← read (λ w, local_files w !! path);
  match f ≫= kind with
  | Some x => mret x
  | None => raise
  end.

(** Modelled from the spec: the declaration of inventory_snapshots is not part
    of the sources; the spec keeps one snapshot per (sku_code, warehouse_code,
    date), so an INSERT replaces the row with the same three values. *)
Definition cassandra_insert (s : InventorySnapshot) (tbl : list InventorySnapshot)
  : list InventorySnapshot :=
  s :: List.filter
         (λ r, negb (bool_decide (inv_sku_code r = inv_sku_code s)
                     && bool_decide (inv_snapshot_date r = inv_snapshot_date s)
                     && bool_decide (inv_warehouse_code r = inv_warehouse_code s)))
         tbl.

Definition session_execute (s : InventorySnapshot) : Py unit :=
  modify (λ w, {| local_files := local_files w;
                  hdfs_files := hdfs_files w;
                  cassandra_table := cassandra_insert s (cassandra_table w);
                  hive_orders := hive_orders w;
                  hive_stock := hive_stock w;
                  xcom := xcom w;
                  task_logs := task_logs w;
                  exception_logs := exception_logs w |}).

(** DROP TABLE IF EXISTS and CREATE TABLE of orders and stock over the two
    HDFS directories. *)
Definition create_tables (orders_dir stock_dir : string) : Py unit :=
  modify (λ w, {| local_files := local_files w;
                  hdfs_files := hdfs_files w;
                  cassandra_table := cassandra_table w;
                  hive_orders := Some orders_dir;
                  hive_stock := Some stock_dir;
                  xcom := xcom w;
                  task_logs := task_logs w;
                  exception_logs := exception_logs w |}).

(** The rows of the external tables: the lines of the file the pipeline
    keeps in the directory. *)
Definition orders_table (w : World) : option (list OrderLine) :=
  dir ← hive_orders w;
  Some match hdfs_files w !! (dir +:+ "/orders.csv") with
       | Some (OrdersCsv rows) => rows
       | _ => []
       end.

Definition stock_table (w : World) : option (list StockEntry) :=
  dir ← hive_stock w;
  Some match hdfs_files w !! (dir +:+ "/stock.csv") with
       | Some (StockCsv rows) => rows
       | _ => []
       end.

(** ** The tasks

    [ti] is the task_id under which the DAG registers the callable, the key
    of its XCom entries.  The byte size that task 1 logs is left out. *)

Definition load_orders_to_hdfs (ti : string) (date : Date) : Py unit :=
  let date_str := strftime_dmy date in
  let date_str_iso := strftime_iso date in
  try_except
    (let orders_file := RAW_PATH +:+ "/orders/" +:+ date_str +:+ "/orders.csv" in
     present ← read (λ w, local_files w !! orders_file);
     (if present is Some _ then mret () else raise);;
     let hdfs_orders_path :=
       HDFS_RAW_PATH +:+ "/orders/" +:+ date_str +:+ "/orders.csv" in
     load_file orders_file hdfs_orders_path;;
     log_task_execution "load_orders_to_hdfs" date_str "success"
       [("hdfs_path", PyStr hdfs_orders_path)];;
     xcom_push ti "hdfs_orders_path" (PyStr hdfs_orders_path);;
     xcom_push ti "date_str" (PyStr date_str);;
     xcom_push ti "date_str_iso" (PyStr date_str_iso))
    (log_exception "load_orders_to_hdfs" date_str
       [("stage", PyStr "hdfs_orders_upload")]).

Definition load_stock_to_hdfs (ti : string) (date : Date) : Py unit :=
  let date_str := strftime_dmy date in
  try_except
    (let stock_file := RAW_PATH +:+ "/stock/" +:+ date_str +:+ "/stock.json" in
     stock_data ← load_local stock_file
                    (λ f, match f with StockJson rows => Some rows | _ => None end);
     let stock_csv_file := str_replace ".json" ".csv" stock_file in
     write_local stock_csv_file (StockCsv stock_data);;
     let hdfs_stock_path :=
       HDFS_RAW_PATH +:+ "/stock/" +:+ date_str +:+ "/stock.csv" in
     load_file stock_csv_file hdfs_stock_path;;
     log_task_execution "load_stock_to_hdfs" date_str "success"
       [("hdfs_path", PyStr hdfs_stock_path);
        ("record_count", PyInt (Z.of_nat (length stock_data)))];;
     xcom_push ti "hdfs_stock_path" (PyStr hdfs_stock_path))
    (log_exception "load_stock_to_hdfs" date_str
       [("stage", PyStr "hdfs_stock_upload")]).

Definition store_snapshots_to_cassandra (ti : string) (date : Date) : Py unit :=
  let date_str := strftime_dmy date in
  try_except
    (let snapshots_file :=
       RAW_PATH +:+ "/snapshots/" +:+ date_str +:+ "/snapshot.json" in
     snapshots ← load_local snapshots_file
                   (λ f, match f with SnapshotJson rows => Some rows | _ => None end);
     foldr (λ s k, session_execute s;; k) (mret ()) snapshots;;
     log_task_execution "store_snapshots_to_cassandra" date_str "success"
       [("inserted_count", PyInt (Z.of_nat (length snapshots)))];;
     xcom_push ti "cassandra_inserted_count" (PyInt (Z.of_nat (length snapshots))))
    (log_exception "store_snapshots_to_cassandra" date_str
       [("stage", PyStr "cassandra_insert")]).

Definition create_hive_tables (ti : string) (date : Date) : Py unit :=
  let date_str := strftime_dmy date in
  try_except
    (create_tables (HDFS_RAW_PATH +:+ "/orders/" +:+ date_str)
                   (HDFS_RAW_PATH +:+ "/stock/" +:+ date_str);;
     orders_rows ← read orders_table;
     orders_count ← fetchall (Z.of_nat ∘ length <$> orders_rows);
     stock_rows ← read stock_table;
     stock_count ← fetchall (Z.of_nat ∘ length <$> stock_rows);
     log_task_execution "create_hive_tables" date_str "success"
       [("orders_count", PyInt orders_count); ("stock_count", PyInt stock_count)];;
     xcom_push ti "orders_count" (PyInt orders_count);;
     xcom_push ti "stock_count" (PyInt stock_count);;
     xcom_push ti "date_str" (PyStr date_str);;
     xcom_push ti "date_str_iso" (PyStr (strftime_iso date)))
    (log_exception "create_hive_tables" date_str
       [("stage", PyStr "hive_table_creation")]).

(** Task 5.  [answer] is what cursor.execute and fetchall give for
    aggregate_sql. *)
Definition aggregate_orders_with_trino (ti : string) (date : Date)
    (answer : option (list AggregatedDemand)) : Py unit :=
  let date_str := strftime_dmy date in
  try_except
    (aggregated_orders ← fetchall answer;
     let temp_dir := TEMP_PATH +:+ "/aggregated_orders/" +:+ date_str in
     let temp_json := temp_dir +:+ "/aggregated_orders.json" in
     write_local temp_json (AggregatedJson aggregated_orders);;
     let temp_csv := temp_dir +:+ "/aggregated_orders.csv" in
     (if aggregated_orders is [] then mret ()
      else write_local temp_csv (AggregatedCsv aggregated_orders));;
     let hdfs_json_path :=
       HDFS_PROCESSED_PATH +:+ "/aggregated_orders/" +:+ date_str
         +:+ "/aggregated_orders.json" in
     let hdfs_csv_path :=
       HDFS_PROCESSED_PATH +:+ "/aggregated_orders/" +:+ date_str
         +:+ "/aggregated_orders.csv" in
     load_file temp_json hdfs_json_path;;
     load_file temp_csv hdfs_csv_path;;
     let count := PyInt (Z.of_nat (length aggregated_orders)) in
     log_task_execution "aggregate_orders_with_trino" date_str "success"
       [("aggregated_count", count);
        ("hdfs_json_path", PyStr hdfs_json_path);
        ("hdfs_csv_path", PyStr hdfs_csv_path)];;
     xcom_push ti "aggregated_orders_file" (PyStr hdfs_json_path);;
     xcom_push ti "aggregated_orders_count" count)
    (log_exception "aggregate_orders_with_trino" date_str
       [("stage", PyStr "aggregation")]).

(** Task 6.  [answer] is what the engine gives for net_demand_sql. *)
Definition calculate_net_demand_with_trino (ti : string) (date : Date)
    (answer : option (list NetDemandSql)) : Py unit :=
  let date_str := strftime_dmy date in
  try_except
    (rows ← fetchall answer;
     let net_demand_results :=
       (λ r, {| nd_sql := r; calculation_date := date_str |}) <$> rows in
     let temp_dir := TEMP_PATH +:+ "/net_demand/" +:+ date_str in
     let temp_json := temp_dir +:+ "/net_demand.json" in
     write_local temp_json (NetDemandJson net_demand_results);;
     let temp_csv := temp_dir +:+ "/net_demand.csv" in
     (if net_demand_results is [] then mret ()
      else write_local temp_csv (NetDemandCsv net_demand_results));;
     let hdfs_json_path :=
       HDFS_PROCESSED_PATH +:+ "/net_demand/" +:+ date_str +:+ "/net_demand.json" in
     let hdfs_csv_path :=
       HDFS_PROCESSED_PATH +:+ "/net_demand/" +:+ date_str +:+ "/net_demand.csv" in
     load_file temp_json hdfs_json_path;;
     load_file temp_csv hdfs_csv_path;;
     let total_net_demand :=
       PyInt (sum_bigint ((λ r, net_demand (nd_sql r)) <$> net_demand_results)) in
     let items_with_demand :=
       PyInt (Z.of_nat (length (List.filter (λ r, 0 <? net_demand (nd_sql r))
                                  net_demand_results))) in
     let count := PyInt (Z.of_nat (length net_demand_results)) in
     log_task_execution "calculate_net_demand_with_trino" date_str "success"
       [("total_combinations", count);
        ("items_with_demand", items_with_demand);
        ("total_net_demand", total_net_demand);
        ("hdfs_json_path", PyStr hdfs_json_path);
        ("hdfs_csv_path", PyStr hdfs_csv_path)];;
     xcom_push ti "net_demand_file" (PyStr hdfs_json_path);;
     xcom_push ti "net_demand_count" count;;
     xcom_push ti "total_net_demand" total_net_demand;;
     xcom_push ti "items_with_demand" items_with_demand)
    (log_exception "calculate_net_demand_with_trino" date_str
       [("stage", PyStr "net_demand_calculation")]).

(** The loop of task 7 over enumerate(rows, 1): [i] is the number of the
    first row. *)
Fixpoint assemble_orders (date_str_iso : string) (i : Z)
    (rows : list SupplierOrderSql) : list SupplierOrderLine :=
  match rows with
  | [] => []
  | row :: rows' =>
      {| so_sql := row;
         order_id := "PO-" +:+ str_replace "-" "" date_str_iso +:+ "-"
                       +:+ format_05d i;
         so_order_date := date_str_iso;
         status := "PENDING" |}
        :: assemble_orders date_str_iso (i + 1) rows'
  end.

(** sum(float(o['total_cost']) for o in supplier_orders): the integer 0 with
    the costs added one after the other. *)
Definition sum_total_cost (l : list SupplierOrderLine) : PyVal :=
  match l with
  | [] => PyInt 0
  | _ => PyFloat (foldl (λ acc o, Double.add acc (total_cost (so_sql o)))
                    (Double.of_bigint 0) l)
  end.

(** Task 7.  [answer] is what the engine gives for supplier_orders_sql. *)
Definition generate_supplier_orders_with_trino (ti : string) (date : Date)
    (answer : option (list SupplierOrderSql)) : Py unit :=
  let date_str := strftime_dmy date in
  let date_str_iso := strftime_iso date in
  try_except
    (rows ← fetchall answer;
     let supplier_orders := assemble_orders date_str_iso 1 rows in
     let temp_dir := TEMP_PATH +:+ "/supplier_orders/" +:+ date_str in
     let temp_json := temp_dir +:+ "/supplier_orders.json" in
     write_local temp_json (SupplierOrdersJson supplier_orders);;
     let temp_csv := temp_dir +:+ "/supplier_orders.csv" in
     (if supplier_orders is [] then mret ()
      else write_local temp_csv (SupplierOrdersCsv supplier_orders));;
     let hdfs_json_path :=
       HDFS_OUTPUT_PATH +:+ "/supplier_orders/" +:+ date_str
         +:+ "/supplier_orders.json" in
     let hdfs_csv_path :=
       HDFS_OUTPUT_PATH +:+ "/supplier_orders/" +:+ date_str
         +:+ "/supplier_orders.csv" in
     load_file temp_json hdfs_json_path;;
     load_file temp_csv hdfs_csv_path;;
     let total := sum_total_cost supplier_orders in
     let count := PyInt (Z.of_nat (length supplier_orders)) in
     log_task_execution "generate_supplier_orders_with_trino" date_str "success"
       [("orders_generated", count);
        ("total_cost", total);
        ("hdfs_json_path", PyStr hdfs_json_path);
        ("hdfs_csv_path", PyStr hdfs_csv_path)];;
     xcom_push ti "supplier_orders_file" (PyStr hdfs_json_path);;
     xcom_push ti "supplier_orders_count" count;;
     xcom_push ti "total_procurement_cost" total)
    (log_exception "generate_supplier_orders_with_trino" date_str
       [("stage", PyStr "supplier_order_generation")]).

(** The dictionary [summary] of task 8. *)
Definition build_summary (date_str : string) : Py Summary :=
  orders_count ← xcom_pull "create_hive_tables" "orders_count";
  stock_count ← xcom_pull "create_hive_tables" "stock_count";
  snapshots_inserted ← xcom_pull "store_snapshots" "cassandra_inserted_count";
  combinations ← xcom_pull "aggregate_orders" "aggregated_orders_count";
  nd_combinations ← xcom_pull "calculate_net_demand" "net_demand_count";
  items_with_demand ← xcom_pull "calculate_net_demand" "items_with_demand";
  total_quantity ← xcom_pull "calculate_net_demand" "total_net_demand";
  orders_generated ← xcom_pull "generate_supplier_orders" "supplier_orders_count";
  total ← xcom_pull "generate_supplier_orders" "total_procurement_cost";
  mret {| sm_execution_date := date_str;
          sm_status := "completed";
          sm_orders_count := or_0 orders_count;
          sm_stock_count := or_0 stock_count;
          sm_snapshots_inserted := or_0 snapshots_inserted;
          sm_aggregation_combinations := or_0 combinations;
          sm_net_demand_combinations := or_0 nd_combinations;
          sm_items_with_demand := or_0 items_with_demand;
          sm_total_quantity := or_0 total_quantity;
          sm_orders_generated := or_0 orders_generated;
          sm_total_cost := or_0 total |}.

(** An int or a float. *)
Definition numeric (v : PyVal) : bool :=
  match v with
  | PyStr _ => false
  | _ => true
  end.

(** f"{v:,.2f}": a number is formatted, a string raises ValueError. *)
Definition format_2f (v : PyVal) : Py unit :=
  if numeric v then mret () else raise.

(** Task 8.  Of the lines it logs after the upload, the one that formats
    total_cost with ':,.2f' can raise. *)
Definition generate_pipeline_summary (ti : string) (date : Date) : Py unit :=
  let date_str := strftime_dmy date in
  try_except
    (summary ← build_summary date_str;
     let temp_summary :=
       TEMP_PATH +:+ "/pipeline_summary" +:+ "/summary_" +:+ date_str +:+ ".json" in
     write_local temp_summary (SummaryJson summary);;
     let hdfs_summary_path :=
       HDFS_LOGS_PATH +:+ "/summaries/summary_" +:+ date_str +:+ ".json" in
     load_file temp_summary hdfs_summary_path;;
     format_2f (sm_total_cost summary))
    (log_exception "generate_pipeline_summary" date_str
       [("stage", PyStr "summary_generation")]).

(** ** The DAG

    The eight tasks form one chain.  Here a task instance is given one
    attempt and every upload is accepted; the DAG with the retries of
    default_args, in an environment that may refuse uploads, is [dag_run_in]
    below. *)

Inductive TaskState := success | failed | upstream_failed.

#[global] Instance TaskState_eq_dec : EqDecision TaskState.
Proof. solve_decision. Defined.

Inductive TriggerRule := all_success | all_done.

(** One task of the chain: whether it is triggered, given the state of the
    task before it, and the state it ends in. *)
Definition run_task (rule : TriggerRule) (upstream : TaskState)
    (callable : Py unit) (w : World) : World * TaskState :=
  match rule, upstream with
  | all_success, (failed | upstream_failed) => (w, upstream_failed)
  | _, _ =>
      match callable w with
      | (w', Some _) => (w', success)
      | (w', None) => (w', failed)
      end
  end.

(** What the engine answers to the three statements of a run. *)
Record Answers := {
  aggregate_answer : option (list AggregatedDemand);
  net_demand_answer : option (list NetDemandSql);
  supplier_orders_answer : option (list SupplierOrderSql)
}.

Record DagRun := {
  before_aggregate : World;         (* the world task 5 starts in *)
  before_net_demand : World;        (* the world task 6 starts in *)
  before_supplier_orders : World;   (* the world task 7 starts in *)
  final : World;
  load_orders_state : TaskState;
  load_stock_state : TaskState;
  store_snapshots_state : TaskState;
  create_hive_tables_state : TaskState;
  aggregate_orders_state : TaskState;
  calculate_net_demand_state : TaskState;
  generate_supplier_orders_state : TaskState;
  generate_summary_state : TaskState
}.

(** load_orders >> load_stock >> store_snapshots >> create_hive_tables
    >> aggregate_orders >> calculate_net_demand >> generate_supplier_orders
    >> generate_summary, the last with trigger_rule='all_done'. *)
Definition dag_run (date : Date) (ans : Answers) (w0 : World) : DagRun :=
  let '(w1, s1) :=
    run_task all_success success (load_orders_to_hdfs "load_orders" date) w0 in
  let '(w2, s2) :=
    run_task all_success s1 (load_stock_to_hdfs "load_stock" date) w1 in
  let '(w3, s3) :=
    run_task all_success s2 (store_snapshots_to_cassandra "store_snapshots" date) w2 in
  let '(w4, s4) :=
    run_task all_success s3 (create_hive_tables "create_hive_tables" date) w3 in
  let '(w5, s5) :=
    run_task all_success s4
      (aggregate_orders_with_trino "aggregate_orders" date (aggregate_answer ans)) w4 in
  let '(w6, s6) :=
    run_task all_success s5
      (calculate_net_demand_with_trino "calculate_net_demand" date
         (net_demand_answer ans)) w5 in
  let '(w7, s7) :=
    run_task all_success s6
      (generate_supplier_orders_with_trino "generate_supplier_orders" date
         (supplier_orders_answer ans)) w6 in
  let '(w8, s8) :=
    run_task all_done s7 (generate_pipeline_summary "generate_summary" date) w7 in
  {| before_aggregate := w4;
     before_net_demand := w5;
     before_supplier_orders := w6;
     final := w8;
     load_orders_state := s1;
     load_stock_state := s2;
     store_snapshots_state := s3;
     create_hive_tables_state := s4;
     aggregate_orders_state := s5;
     calculate_net_demand_state := s6;
     generate_supplier_orders_state := s7;
     generate_summary_state := s8 |}.

(** ** The tasks when HDFS may not answer

    The uploads of the tasks go to WebHDFS and can fail for reasons the
    tasks do not control.  [Hdfs] says, for one attempt of a task, which
    destinations accept an upload and whether the upload of the log file is
    accepted.  The callables above are the callables below when every upload
    is accepted ([answering]). *)

Record Hdfs := {
  accepts : string -> bool;     (* load_file to this destination succeeds *)
  accepts_log : bool            (* the upload of a log file succeeds *)
}.

Definition answering : Hdfs := {| accepts := λ _, true; accepts_log := true |}.

Definition silent : Hdfs := {| accepts := λ _, false; accepts_log := false |}.

(** hdfs_hook.load_file: an exception when there is no such local file or
    when HDFS does not accept the upload. *)
Definition load_file_to (h : Hdfs) (source destination : string) : Py unit :=
  if accepts h destination then load_file source destination else raise.

(** log_task_execution: its own try/except swallows a failed upload of the
    log file; nothing is written then. *)
Definition log_task_execution_to (h : Hdfs) (task_name execution_date status : string)
    (details : list (string * PyVal)) : Py unit :=
  if accepts_log h then log_task_execution task_name execution_date status details
  else mret ().

(** log_exception: its own try/except swallows a failed upload of the log
    file; it raises AirflowException in both cases. *)
Definition log_exception_to {A} (h : Hdfs) (task_name execution_date : string)
    (additional_info : list (string * PyVal)) : Py A :=
  if accepts_log h then log_exception task_name execution_date additional_info
  else raise.

Definition load_orders_to_hdfs_on (h : Hdfs) (ti : string) (date : Date) : Py unit :=
  let date_str := strftime_dmy date in
  let date_str_iso := strftime_iso date in
  try_except
    (let orders_file := RAW_PATH +:+ "/orders/" +:+ date_str +:+ "/orders.csv" in
     present ← read (λ w, local_files w !! orders_file);
     (if present is Some _ then mret () else raise);;
     let hdfs_orders_path :=
       HDFS_RAW_PATH +:+ "/orders/" +:+ date_str +:+ "/orders.csv" in
     load_file_to h orders_file hdfs_orders_path;;
     log_task_execution_to h "load_orders_to_hdfs" date_str "success"
       [("hdfs_path", PyStr hdfs_orders_path)];;
     xcom_push ti "hdfs_orders_path" (PyStr hdfs_orders_path);;
     xcom_push ti "date_str" (PyStr date_str);;
     xcom_push ti "date_str_iso" (PyStr date_str_iso))
    (log_exception_to h "load_orders_to_hdfs" date_str
       [("stage", PyStr "hdfs_orders_upload")]).

Definition load_stock_to_hdfs_on (h : Hdfs) (ti : string) (date : Date) : Py unit :=
  let date_str := strftime_dmy date in
  try_except
    (let stock_file := RAW_PATH +:+ "/stock/" +:+ date_str +:+ "/stock.json" in
     stock_data ← load_local stock_file
                    (λ f, match f with StockJson rows => Some rows | _ => None end);
     let stock_csv_file := str_replace ".json" ".csv" stock_file in
     write_local stock_csv_file (StockCsv stock_data);;
     let hdfs_stock_path :=
       HDFS_RAW_PATH +:+ "/stock/" +:+ date_str +:+ "/stock.csv" in
     load_file_to h stock_csv_file hdfs_stock_path;;
     log_task_execution_to h "load_stock_to_hdfs" date_str "success"
       [("hdfs_path", PyStr hdfs_stock_path);
        ("record_count", PyInt (Z.of_nat (length stock_data)))];;
     xcom_push ti "hdfs_stock_path" (PyStr hdfs_stock_path))
    (log_exception_to h "load_stock_to_hdfs" date_str
       [("stage", PyStr "hdfs_stock_upload")]).

Definition store_snapshots_to_cassandra_on (h : Hdfs) (ti : string) (date : Date) : Py unit :=
  let date_str := strftime_dmy date in
  try_except
    (let snapshots_file :=
       RAW_PATH +:+ "/snapshots/" +:+ date_str +:+ "/snapshot.json" in
     snapshots ← load_local snapshots_file
                   (λ f, match f with SnapshotJson rows => Some rows | _ => None end);
     foldr (λ s k, session_execute s;; k) (mret ()) snapshots;;
     log_task_execution_to h "store_snapshots_to_cassandra" date_str "success"
       [("inserted_count", PyInt (Z.of_nat (length snapshots)))];;
     xcom_push ti "cassandra_inserted_count" (PyInt (Z.of_nat (length snapshots))))
    (log_exception_to h "store_snapshots_to_cassandra" date_str
       [("stage", PyStr "cassandra_insert")]).

Definition create_hive_tables_on (h : Hdfs) (ti : string) (date : Date) : Py unit :=
  let date_str := strftime_dmy date in
  try_except
    (create_tables (HDFS_RAW_PATH +:+ "/orders/" +:+ date_str)
                   (HDFS_RAW_PATH +:+ "/stock/" +:+ date_str);;
     orders_rows ← read orders_table;
     orders_count ← fetchall (Z.of_nat ∘ length <$> orders_rows);
     stock_rows ← read stock_table;
     stock_count ← fetchall (Z.of_nat ∘ length <$> stock_rows);
     log_task_execution_to h "create_hive_tables" date_str "success"
       [("orders_count", PyInt orders_count); ("stock_count", PyInt stock_count)];;
     xcom_push ti "orders_count" (PyInt orders_count);;
     xcom_push ti "stock_count" (PyInt stock_count);;
     xcom_push ti "date_str" (PyStr date_str);;
     xcom_push ti "date_str_iso" (PyStr (strftime_iso date)))
    (log_exception_to h "create_hive_tables" date_str
       [("stage", PyStr "hive_table_creation")]).

Definition aggregate_orders_with_trino_on (h : Hdfs) (ti : string) (date : Date)
    (answer : option (list AggregatedDemand)) : Py unit :=
  let date_str := strftime_dmy date in
  try_except
    (aggregated_orders ← fetchall answer;
     let temp_dir := TEMP_PATH +:+ "/aggregated_orders/" +:+ date_str in
     let temp_json := temp_dir +:+ "/aggregated_orders.json" in
     write_local temp_json (AggregatedJson aggregated_orders);;
     let temp_csv := temp_dir +:+ "/aggregated_orders.csv" in
     (if aggregated_orders is [] then mret ()
      else write_local temp_csv (AggregatedCsv aggregated_orders));;
     let hdfs_json_path :=
       HDFS_PROCESSED_PATH +:+ "/aggregated_orders/" +:+ date_str
         +:+ "/aggregated_orders.json" in
     let hdfs_csv_path :=
       HDFS_PROCESSED_PATH +:+ "/aggregated_orders/" +:+ date_str
         +:+ "/aggregated_orders.csv" in
     load_file_to h temp_json hdfs_json_path;;
     load_file_to h temp_csv hdfs_csv_path;;
     let count := PyInt (Z.of_nat (length aggregated_orders)) in
     log_task_execution_to h "aggregate_orders_with_trino" date_str "success"
       [("aggregated_count", count);
        ("hdfs_json_path", PyStr hdfs_json_path);
        ("hdfs_csv_path", PyStr hdfs_csv_path)];;
     xcom_push ti "aggregated_orders_file" (PyStr hdfs_json_path);;
     xcom_push ti "aggregated_orders_count" count)
    (log_exception_to h "aggregate_orders_with_trino" date_str
       [("stage", PyStr "aggregation")]).

Definition calculate_net_demand_with_trino_on (h : Hdfs) (ti : string) (date : Date)
    (answer : option (list NetDemandSql)) : Py unit :=
  let date_str := strftime_dmy date in
  try_except
    (rows ← fetchall answer;
     let net_demand_results :=
       (λ r, {| nd_sql := r; calculation_date := date_str |}) <$> rows in
     let temp_dir := TEMP_PATH +:+ "/net_demand/" +:+ date_str in
     let temp_json := temp_dir +:+ "/net_demand.json" in
     write_local temp_json (NetDemandJson net_demand_results);;
     let temp_csv := temp_dir +:+ "/net_demand.csv" in
     (if net_demand_results is [] then mret ()
      else write_local temp_csv (NetDemandCsv net_demand_results));;
     let hdfs_json_path :=
       HDFS_PROCESSED_PATH +:+ "/net_demand/" +:+ date_str +:+ "/net_demand.json" in
     let hdfs_csv_path :=
       HDFS_PROCESSED_PATH +:+ "/net_demand/" +:+ date_str +:+ "/net_demand.csv" in
     load_file_to h temp_json hdfs_json_path;;
     load_file_to h temp_csv hdfs_csv_path;;
     let total_net_demand :=
       PyInt (sum_bigint ((λ r, net_demand (nd_sql r)) <$> net_demand_results)) in
     let items_with_demand :=
       PyInt (Z.of_nat (length (List.filter (λ r, 0 <? net_demand (nd_sql r))
                                  net_demand_results))) in
     let count := PyInt (Z.of_nat (length net_demand_results)) in
     log_task_execution_to h "calculate_net_demand_with_trino" date_str "success"
       [("total_combinations", count);
        ("items_with_demand", items_with_demand);
        ("total_net_demand", total_net_demand);
        ("hdfs_json_path", PyStr hdfs_json_path);
        ("hdfs_csv_path", PyStr hdfs_csv_path)];;
     xcom_push ti "net_demand_file" (PyStr hdfs_json_path);;
     xcom_push ti "net_demand_count" count;;
     xcom_push ti "total_net_demand" total_net_demand;;
     xcom_push ti "items_with_demand" items_with_demand)
    (log_exception_to h "calculate_net_demand_with_trino" date_str
       [("stage", PyStr "net_demand_calculation")]).

Definition generate_supplier_orders_with_trino_on (h : Hdfs) (ti : string) (date : Date)
    (answer : option (list SupplierOrderSql)) : Py unit :=
  let date_str := strftime_dmy date in
  let date_str_iso := strftime_iso date in
  try_except
    (rows ← fetchall answer;
     let supplier_orders := assemble_orders date_str_iso 1 rows in
     let temp_dir := TEMP_PATH +:+ "/supplier_orders/" +:+ date_str in
     let temp_json := temp_dir +:+ "/supplier_orders.json" in
     write_local temp_json (SupplierOrdersJson supplier_orders);;
     let temp_csv := temp_dir +:+ "/supplier_orders.csv" in
     (if supplier_orders is [] then mret ()
      else write_local temp_csv (SupplierOrdersCsv supplier_orders));;
     let hdfs_json_path :=
       HDFS_OUTPUT_PATH +:+ "/supplier_orders/" +:+ date_str
         +:+ "/supplier_orders.json" in
     let hdfs_csv_path :=
       HDFS_OUTPUT_PATH +:+ "/supplier_orders/" +:+ date_str
         +:+ "/supplier_orders.csv" in
     load_file_to h temp_json hdfs_json_path;;
     load_file_to h temp_csv hdfs_csv_path;;
     let total := sum_total_cost supplier_orders in
     let count := PyInt (Z.of_nat (length supplier_orders)) in
     log_task_execution_to h "generate_supplier_orders_with_trino" date_str "success"
       [("orders_generated", count);
        ("total_cost", total);
        ("hdfs_json_path", PyStr hdfs_json_path);
        ("hdfs_csv_path", PyStr hdfs_csv_path)];;
     xcom_push ti "supplier_orders_file" (PyStr hdfs_json_path);;
     xcom_push ti "supplier_orders_count" count;;
     xcom_push ti "total_procurement_cost" total)
    (log_exception_to h "generate_supplier_orders_with_trino" date_str
       [("stage", PyStr "supplier_order_generation")]).

Definition generate_pipeline_summary_on (h : Hdfs) (ti : string) (date : Date) : Py unit :=
  let date_str := strftime_dmy date in
  try_except
    (summary ← build_summary date_str;
     let temp_summary :=
       TEMP_PATH +:+ "/pipeline_summary" +:+ "/summary_" +:+ date_str +:+ ".json" in
     write_local temp_summary (SummaryJson summary);;
     let hdfs_summary_path :=
       HDFS_LOGS_PATH +:+ "/summaries/summary_" +:+ date_str +:+ ".json" in
     load_file_to h temp_summary hdfs_summary_path;;
     format_2f (sm_total_cost summary))
    (log_exception_to h "generate_pipeline_summary" date_str
       [("stage", PyStr "summary_generation")]).

(** ** The DAG with its retries

    default_args gives every task retries = 2: a task instance whose
    callable raises is run again, on the world the failed attempt left, until
    an attempt returns or three attempts have failed. *)

Definition default_retries : nat := 2.

(** The attempts of one task instance from attempt number [k] on, with [n]
    retries left; [callable k] is the callable in the environment of attempt
    [k]. *)
Fixpoint attempts (n k : nat) (callable : nat -> Py unit) (w : World)
  : World * TaskState :=
  match callable k w with
  | (w', Some _) => (w', success)
  | (w', None) =>
      match n with
      | O => (w', failed)
      | S n' => attempts n' (S k) callable w'
      end
  end.

Definition run_task_in (retries : nat) (rule : TriggerRule) (upstream : TaskState)
    (callable : nat -> Py unit) (w : World) : World * TaskState :=
  match rule, upstream with
  | all_success, (failed | upstream_failed) => (w, upstream_failed)
  | _, _ => attempts retries 0 callable w
  end.

(** What HDFS accepts during a run: for every task_id and attempt. *)
Definition Env : Type := string -> nat -> Hdfs.

Definition dag_run_in (retries : nat) (env : Env) (date : Date) (ans : Answers)
    (w0 : World) : DagRun :=
  let '(w1, s1) :=
    run_task_in retries all_success success
      (λ k, load_orders_to_hdfs_on (env "load_orders" k) "load_orders" date) w0 in
  let '(w2, s2) :=
    run_task_in retries all_success s1
      (λ k, load_stock_to_hdfs_on (env "load_stock" k) "load_stock" date) w1 in
  let '(w3, s3) :=
    run_task_in retries all_success s2
      (λ k, store_snapshots_to_cassandra_on (env "store_snapshots" k)
              "store_snapshots" date) w2 in
  let '(w4, s4) :=
    run_task_in retries all_success s3
      (λ k, create_hive_tables_on (env "create_hive_tables" k)
              "create_hive_tables" date) w3 in
  let '(w5, s5) :=
    run_task_in retries all_success s4
      (λ k, aggregate_orders_with_trino_on (env "aggregate_orders" k)
              "aggregate_orders" date (aggregate_answer ans)) w4 in
  let '(w6, s6) :=
    run_task_in retries all_success s5
      (λ k, calculate_net_demand_with_trino_on (env "calculate_net_demand" k)
              "calculate_net_demand" date (net_demand_answer ans)) w5 in
  let '(w7, s7) :=
    run_task_in retries all_success s6
      (λ k, generate_supplier_orders_with_trino_on (env "generate_supplier_orders" k)
              "generate_supplier_orders" date (supplier_orders_answer ans)) w6 in
  let '(w8, s8) :=
    run_task_in retries all_done s7
      (λ k, generate_pipeline_summary_on (env "generate_summary" k)
              "generate_summary" date) w7 in
  {| before_aggregate := w4;
     before_net_demand := w5;
     before_supplier_orders := w6;
     final := w8;
     load_orders_state := s1;
     load_stock_state := s2;
     store_snapshots_state := s3;
     create_hive_tables_state := s4;
     aggregate_orders_state := s5;
     calculate_net_demand_state := s6;
     generate_supplier_orders_state := s7;
     generate_summary_state := s8 |}.

(** The run of the DAG: the default retries. *)
Definition pipeline_run (env : Env) (date : Date) (ans : Answers) (w0 : World)
  : DagRun :=
  dag_run_in default_retries env date ans w0.

(** The tables a statement sees in world [w]; none while the Hive table
    orders does not exist. *)
Definition visible_db (cat : Catalog) (w : World) : option Db :=
  rows ← orders_table w;
  Some {| orders := rows; catalog := cat; inventory_snapshots := cassandra_table w |}.

(** [answer] is an answer of the engine in world [w] to a statement whose
    answers on a database are given by [stmt]. *)
Definition answers_in {A} (cat : Catalog) (w : World)
    (stmt : Db -> option A -> Prop) (answer : option A) : Prop :=
  match visible_db cat w with
  | Some db => stmt db answer
  | None => answer = None
  end.

(** The answers [ans] are answers of the engine in the run they lead to. *)
Definition engine_answers (cat : Catalog) (date : Date) (ans : Answers)
    (w0 : World) : Prop :=
  let r := dag_run date ans w0 in
  answers_in cat (before_aggregate r)
    (λ db a, ∃ out, a = Some out ∧ aggregate_sql db out) (aggregate_answer ans)
  ∧ answers_in cat (before_net_demand r)
      (λ db a, ∃ out, a = Some out ∧ net_demand_sql db date out)
      (net_demand_answer ans)
  ∧ answers_in cat (before_supplier_orders r)
      (λ db a, supplier_orders_sql db date a) (supplier_orders_answer ans).

(** The results of a run: the files in HDFS under processed/ and output/. *)
Definition hdfs_aggregated_json (date : Date) (w : World) : option File :=
  hdfs_files w !! (HDFS_PROCESSED_PATH +:+ "/aggregated_orders/" +:+ strftime_dmy date
                     +:+ "/aggregated_orders.json").
Definition hdfs_aggregated_csv (date : Date) (w : World) : option File :=
  hdfs_files w !! (HDFS_PROCESSED_PATH +:+ "/aggregated_orders/" +:+ strftime_dmy date
                     +:+ "/aggregated_orders.csv").
Definition hdfs_net_demand_json (date : Date) (w : World) : option File :=
  hdfs_files w !! (HDFS_PROCESSED_PATH +:+ "/net_demand/" +:+ strftime_dmy date
                     +:+ "/net_demand.json").
Definition hdfs_net_demand_csv (date : Date) (w : World) : option File :=
  hdfs_files w !! (HDFS_PROCESSED_PATH +:+ "/net_demand/" +:+ strftime_dmy date
                     +:+ "/net_demand.csv").
Definition hdfs_supplier_orders_json (date : Date) (w : World) : option File :=
  hdfs_files w !! (HDFS_OUTPUT_PATH +:+ "/supplier_orders/" +:+ strftime_dmy date
                     +:+ "/supplier_orders.json").
Definition hdfs_supplier_orders_csv (date : Date) (w : World) : option File :=
  hdfs_files w !! (HDFS_OUTPUT_PATH +:+ "/supplier_orders/" +:+ strftime_dmy date
                     +:+ "/supplier_orders.csv").
Definition hdfs_summary (date : Date) (w : World) : option File :=
  hdfs_files w !! (HDFS_LOGS_PATH +:+ "/summaries/summary_" +:+ strftime_dmy date
                     +:+ ".json").

(** The numbers a run reports: the fields of the summary and the details of
    the task logs. *)
Definition summary_metrics (s : Summary) : list PyVal :=
  [ sm_orders_count s; sm_stock_count s; sm_snapshots_inserted s;
    sm_aggregation_combinations s; sm_net_demand_combinations s;
    sm_items_with_demand s; sm_total_quantity s; sm_orders_generated s;
    sm_total_cost s ].

Definition logged_metrics (w : World) : list PyVal :=
  l ← task_logs w; snd <$> log_details l.

(** All of it: the summary in HDFS, the logs and the XCom entries. *)
Definition reported_metrics (date : Date) (w : World) : list PyVal :=
  match hdfs_summary date w with
  | Some (SummaryJson s) => summary_metrics s
  | _ => []
  end ++ logged_metrics w ++ (snd <$> map_to_list (xcom w)).

(** The integer [n] is among the numbers reported. *)
Definition reports (date : Date) (w : World) (n : Z) : Prop :=
  PyInt n ∈ reported_metrics date w ∨ PyFloat (Double.of_bigint n) ∈ reported_metrics date w.

(** A world before the first run for a date: the three raw files on the
    local disk, nothing else. *)
Definition fresh_world (date : Date) (orders_csv : list OrderLine)
    (stock_json : list StockEntry) (snapshot_json : list InventorySnapshot)
  : World :=
  {| local_files :=
       <[RAW_PATH +:+ "/orders/" +:+ strftime_dmy date +:+ "/orders.csv"
           := OrdersCsv orders_csv]>
       (<[RAW_PATH +:+ "/stock/" +:+ strftime_dmy date +:+ "/stock.json"
           := StockJson stock_json]>
       (<[RAW_PATH +:+ "/snapshots/" +:+ strftime_dmy date +:+ "/snapshot.json"
           := SnapshotJson snapshot_json]> ∅));
     hdfs_files := ∅;
     cassandra_table := [];
     hive_orders := None;
     hive_stock := None;
     xcom := ∅;
     task_logs := [];
     exception_logs := [] |}.

(** ** The safety-stock resolution as the specification words it

    The per-warehouse entry of the pair when there is one, otherwise the
    global entry of the SKU when there is one, otherwise 0. *)
Definition safety_stock_spec (cat : Catalog) (sku wh : Z) : Z :=
  match List.filter (λ e, bool_decide (ssw_sku_id e = sku)
                          && bool_decide (ssw_warehouse_id e = wh))
          (safety_stock_by_warehouse cat) with
  | e :: _ => coalesce (ssw_safety_stock_qty e) 0
  | [] =>
      match List.filter (λ e, bool_decide (ss_sku_id e = sku)) (safety_stock cat) with
      | e :: _ => coalesce (ss_safety_stock_qty e) 0
      | [] => 0
      end
  end.

(** ** Notions used in the statements about runs *)

(** A callable registered as [ti] changes the XCom store under the keys of
    [ti] only, and leaves it as it was when it raises. *)
Definition xcom_discipline (ti : string) (c : Py unit) : Prop :=
  ∀ w, (∀ k, k.1 ≠ ti → xcom (c w).1 !! k = xcom w !! k)
       ∧ ((c w).2 = None → xcom (c w).1 = xcom w).

(** The summary as a function of the XCom store. *)
Definition summary_of (date_str : string) (x : gmap (string * string) PyVal)
  : Summary :=
  {| sm_execution_date := date_str;
     sm_status := "completed";
     sm_orders_count := or_0 (x !! ("create_hive_tables", "orders_count"));
     sm_stock_count := or_0 (x !! ("create_hive_tables", "stock_count"));
     sm_snapshots_inserted :=
       or_0 (x !! ("store_snapshots", "cassandra_inserted_count"));
     sm_aggregation_combinations :=
       or_0 (x !! ("aggregate_orders", "aggregated_orders_count"));
     sm_net_demand_combinations :=
       or_0 (x !! ("calculate_net_demand", "net_demand_count"));
     sm_items_with_demand :=
       or_0 (x !! ("calculate_net_demand", "items_with_demand"));
     sm_total_quantity :=
       or_0 (x !! ("calculate_net_demand", "total_net_demand"));
     sm_orders_generated :=
       or_0 (x !! ("generate_supplier_orders", "supplier_orders_count"));
     sm_total_cost :=
       or_0 (x !! ("generate_supplier_orders", "total_procurement_cost")) |}.

(** The answers of a run hold no tie: no two aggregated rows with the same
    total_quantity, no two net-demand rows with the same net_demand, no two
    order lines of which neither has the smaller total_cost, and in the
    catalog no two active offers of one SKU at the same price. *)
Definition tie_free (cat : Catalog) (ans : Answers) : Prop :=
  (∀ out, aggregate_answer ans = Some out →
     ∀ x y, x ∈ out → y ∈ out → total_quantity x = total_quantity y → x = y)
  ∧ (∀ out, net_demand_answer ans = Some out →
       ∀ x y, x ∈ out → y ∈ out → net_demand x = net_demand y → x = y)
  ∧ (∀ x y, x ∈ active_offers cat → y ∈ active_offers cat →
       sp_sku_id x.1 = sp_sku_id y.1 → sp_unit_price x.1 = sp_unit_price y.1 →
       x = y)
  ∧ (∀ out, supplier_orders_answer ans = Some out →
       ∀ x y, x ∈ out → y ∈ out →
         by_total_cost_desc x y → by_total_cost_desc y x → x = y).

(** ** Dates and numerals in the words of the specification *)

(** A date of Python's datetime. *)
Definition valid_date (d : Date) : Prop :=
  1 <= year d <= 9999 ∧ 1 <= month d <= 12 ∧ 1 <= day d <= 31.

(** The date formatted YYYYMMDD. *)
Definition yyyymmdd (d : Date) : string :=
  zfill 4 (pretty (year d)) +:+ zfill 2 (pretty (month d)) +:+ zfill 2 (pretty (day d)).

(** The [n] low decimal digits of [x], most significant first, before [acc]. *)
Fixpoint fixed_digits (n : nat) (x : N) (acc : string) : string :=
  match n with
  | O => acc
  | S n' => fixed_digits n' (x `div` 10)%N (String (pretty_N_char (x `mod` 10)%N) acc)
  end.

(** ** Integers as DOUBLE values, and whole packs *)

(** The binary64 number of an integer of at most 53 bits: the integer
    itself, with its leading bit moved to position 52. *)
Definition exact_double (z : Z) : Double.double :=
  match z with
  | 0 => S754_zero false
  | _ => S754_finite (z <? 0)
           (Z.to_pos (Z.abs z * 2 ^ (52 - Z.log2 (Z.abs z))))
           (Z.log2 (Z.abs z) - 52)
  end.

(** The number of packs of [pack] units that cover [nd] units. *)
Definition whole_packs (nd pack : Z) : Z := (nd + pack - 1) / pack.

(** ** The two counts the specification asks a run to report *)

(** An order line has its product and its warehouse in the reference data. *)
Definition has_reference (cat : Catalog) (o : OrderLine) : bool :=
  existsb (λ p, bool_decide (o_sku_id o = p_sku_id p)) (products cat)
  && existsb (λ w, bool_decide (o_warehouse_id o = w_warehouse_id w)) (warehouses cat).

(** The number of order lines without a matching product or warehouse. *)
Definition unmatched_lines (db : Db) : Z :=
  Z.of_nat (length (List.filter (λ o, negb (has_reference (catalog db) o)) (orders db))).

Definition has_active_offer (cat : Catalog) (sku : Z) : bool :=
  existsb (λ sps, bool_decide (sp_sku_id sps.1 = sku)) (active_offers cat).

(** The number of active offers with a pack_size or a unit_price that is
    not positive. *)
Definition invalid_offers (cat : Catalog) : Z :=
  Z.of_nat (length (List.filter
                      (λ sps, (sp_pack_size sps.1 <=? 0) || (sp_unit_price sps.1 <=? 0))
                      (active_offers cat))).

(** A net-demand row with a positive net demand and no active offer for its
    SKU. *)
Definition unsupplied (cat : Catalog) (nd : NetDemandSql) : bool :=
  (0 <? net_demand nd) && negb (has_active_offer cat (sku_id (nd_key nd))).

(** The number of such rows. *)
Definition unsupplied_demand (db : Db) (date : Date) : Z :=
  Z.of_nat (length (List.filter (unsupplied (catalog db)) (net_demand_rows db date))).

(** ** Scenarios

    The reference data and the orders of the worked examples: SKU 1 is
    ordered twice (40 and 10) and SKU 2 once (12) for warehouse 1; SKU 1 has a
    global safety stock of 20, a snapshot with 30 available and 5 reserved,
    and two active offers, at 10.00 (packs of 5, minimum 10) and at 9.50
    (packs of 10, minimum 20); SKU 2 has none of these. *)
Module Scenario.

Definition date : Date := {| year := 2026; month := 1; day := 15 |}.

Definition product (id : Z) (code : string) : Product :=
  {| p_sku_id := id; p_sku_code := code; p_name := "item"; p_category := "office" |}.

Definition warehouse (id : Z) (code : string) : Warehouse :=
  {| w_warehouse_id := id; w_warehouse_code := code; w_name := "depot";
     w_city := "Rabat" |}.

Definition order (sku wh qty : Z) : OrderLine :=
  {| o_order_id := "ORD"; o_supplier_id := "1"; o_sku_id := sku;
     o_quantity := qty; o_warehouse_id := wh; o_order_date := "2026-01-15" |}.

Definition offer (supplier sku pack min_qty price : Z) : SupplierProduct :=
  {| sp_supplier_id := supplier; sp_sku_id := sku; sp_pack_size := pack;
     sp_min_order_qty := min_qty; sp_lead_time_days := 2;
     sp_unit_price := price; sp_currency := "MAD"; sp_is_active := true |}.

Definition supplier (id : Z) : Supplier :=
  {| s_supplier_id := id; s_supplier_code := "SUP"; s_name := "supplier";
     s_is_active := true |}.

Definition key (sku : Z) (code : string) : DemandKey :=
  {| sku_id := sku; sku_code := code; product_name := "item";
     category := "office"; warehouse_id := 1; warehouse_code := "WH001";
     warehouse_name := "depot"; city := "Rabat" |}.

Definition cat : Catalog :=
  {| products := [product 1 "PROD001"; product 2 "PROD002"];
     warehouses := [warehouse 1 "WH001"];
     safety_stock := [ {| ss_sku_id := 1; ss_safety_stock_qty := Some 20 |} ];
     safety_stock_by_warehouse := [];
     supplier_products := [offer 1 1 5 10 1000; offer 2 1 10 20 950];
     suppliers := [supplier 1; supplier 2] |}.

Definition snapshots : list InventorySnapshot :=
  [ {| inv_sku_code := "PROD001"; inv_snapshot_date := date;
       inv_warehouse_code := "WH001"; inv_available_qty := Some 30;
       inv_reserved_qty := Some 5 |} ].

Definition db : Db :=
  {| orders := [order 1 1 40; order 1 1 10; order 2 1 12];
     catalog := cat;
     inventory_snapshots := snapshots |}.

Definition net_demand_1 : NetDemandSql :=
  {| nd_key := key 1 "PROD001"; aggregated_orders_qty := 50;
     safety_stock_qty := 20; available_stock := 30; reserved_stock := 5;
     effective_stock := 25; net_demand := 45 |}.

Definition net_demand_2 : NetDemandSql :=
  {| nd_key := key 2 "PROD002"; aggregated_orders_qty := 12;
     safety_stock_qty := 0; available_stock := 0; reserved_stock := 0;
     effective_stock := 0; net_demand := 12 |}.

(** SKU 1 with a per-warehouse safety stock of 30 for warehouse 1 and no
    global entry, ordered once (40). *)
Definition cat_per_warehouse_only : Catalog :=
  {| products := [product 1 "PROD001"];
     warehouses := [warehouse 1 "WH001"];
     safety_stock := [];
     safety_stock_by_warehouse :=
       [ {| ssw_sku_id := 1; ssw_warehouse_id := 1;
            ssw_safety_stock_qty := Some 30 |} ];
     supplier_products := [];
     suppliers := [] |}.

Definition db_per_warehouse_only : Db :=
  {| orders := [order 1 1 40];
     catalog := cat_per_warehouse_only;
     inventory_snapshots := [] |}.

Definition net_demand_per_warehouse_only : NetDemandSql :=
  {| nd_key := key 1 "PROD001"; aggregated_orders_qty := 40;
     safety_stock_qty := 0; available_stock := 0; reserved_stock := 0;
     effective_stock := 0; net_demand := 40 |}.

(** The catalog with a third active offer for SKU 1, in packs of -5 at the
    price -1.00, and two active offers for SKU 2, one in packs of 0 and one
    at the price 0.00. *)
Definition cat_invalid_offer : Catalog :=
  {| products := products cat;
     warehouses := warehouses cat;
     safety_stock := safety_stock cat;
     safety_stock_by_warehouse := [];
     supplier_products :=
       [offer 1 1 5 10 1000; offer 2 1 10 20 950; offer 3 2 0 0 500;
        offer 3 2 5 1 0; offer 3 1 (-5) 0 (-100)];
     suppliers := [supplier 1; supplier 2; supplier 3] |}.

Definition db_invalid_offer : Db :=
  {| orders := [order 1 1 40; order 1 1 10];
     catalog := cat_invalid_offer;
     inventory_snapshots := snapshots |}.

Definition window_invalid_offer : list (SupplierProduct * Supplier) :=
  [ (offer 3 1 (-5) 0 (-100), supplier 3);
    (offer 3 2 5 1 0, supplier 3);
    (offer 3 2 0 0 500, supplier 3);
    (offer 2 1 10 20 950, supplier 2);
    (offer 1 1 5 10 1000, supplier 1) ].

Definition ranked_invalid_offer : RankedSupplier :=
  ranked_of (offer 3 1 (-5) 0 (-100)) (supplier 3) 1.

Definition line_invalid_offer : SupplierOrderSql :=
  {| so_key := key 1 "PROD001";
     so_supplier_id := 3; so_supplier_code := "SUP";
     so_supplier_name := "supplier";
     so_net_demand := 45; so_pack_size := -5; so_min_order_qty := 0;
     so_unit_price := -100; so_currency := "MAD"; so_lead_time_days := 2;
     order_quantity := Double.of_bigint 45;
     total_cost := Double.of_bigint (-45);
     expected_delivery_date := {| year := 2026; month := 1; day := 17 |} |}.

(** The catalog with SKUs 3 and 4 added, and ten order lines: five for SKUs
   1 to 4 in warehouse 1, five with an unknown SKU (8, 9) or an unknown
   warehouse (9).  SKUs 2, 3 and 4 have no offer. *)
Definition gaps_cat : Catalog :=
  {| products := [product 1 "PROD001"; product 2 "PROD002";
                  product 3 "PROD003"; product 4 "PROD004"];
     warehouses := warehouses cat;
     safety_stock := safety_stock cat;
     safety_stock_by_warehouse := [];
     supplier_products := supplier_products cat;
     suppliers := suppliers cat |}.

Definition gaps_orders : list OrderLine :=
  [order 1 1 40; order 1 1 10; order 2 1 12; order 3 1 7; order 4 1 9;
   order 9 1 5; order 1 9 7; order 9 9 1; order 8 1 2; order 8 1 3].

Definition gaps_db : Db :=
  {| orders := gaps_orders; catalog := gaps_cat; inventory_snapshots := snapshots |}.

Definition gaps_world : World := fresh_world date gaps_orders [] snapshots.

Definition agg (sku : Z) (code : string) (qty count : Z) : AggregatedDemand :=
  {| agg_key := key sku code; total_quantity := qty; order_count := count;
     order_date := Some "2026-01-15" |}.

Definition nd (sku : Z) (code : string) (qty : Z) : NetDemandSql :=
  {| nd_key := key sku code; aggregated_orders_qty := qty;
     safety_stock_qty := 0; available_stock := 0; reserved_stock := 0;
     effective_stock := 0; net_demand := qty |}.

(** The order line of SKU 1: the offer at 9.50, 50 units, 475.00. *)
Definition line_1 : SupplierOrderSql :=
  {| so_key := key 1 "PROD001";
     so_supplier_id := 2; so_supplier_code := "SUP";
     so_supplier_name := "supplier";
     so_net_demand := 45; so_pack_size := 10; so_min_order_qty := 20;
     so_unit_price := 950; so_currency := "MAD"; so_lead_time_days := 2;
     order_quantity := Double.of_bigint 50;
     total_cost := Double.of_bigint 475;
     expected_delivery_date := {| year := 2026; month := 1; day := 17 |} |}.

Definition window : list (SupplierProduct * Supplier) :=
  [ (offer 2 1 10 20 950, supplier 2); (offer 1 1 5 10 1000, supplier 1) ].

Definition gaps_answers : Answers :=
  {| aggregate_answer :=
       Some [agg 1 "PROD001" 50 2; agg 2 "PROD002" 12 1;
             agg 4 "PROD004" 9 1; agg 3 "PROD003" 7 1];
     net_demand_answer :=
       Some [net_demand_1; net_demand_2; nd 4 "PROD004" 9; nd 3 "PROD003" 7];
     supplier_orders_answer := Some [line_1] |}.

(** No order line at all for the date. *)
Definition empty_world : World := fresh_world date [] [] snapshots.

Definition empty_answers : Answers :=
  {| aggregate_answer := Some [];
     net_demand_answer := Some [];
     supplier_orders_answer := Some [] |}.

(** SKUs 1 and 2 ordered 10 each, both offered at 10.00 in packs of 5. *)
Definition tie_cat : Catalog :=
  {| products := products cat;
     warehouses := warehouses cat;
     safety_stock := [];
     safety_stock_by_warehouse := [];
     supplier_products := [offer 1 1 5 10 1000; offer 1 2 5 10 1000];
     suppliers := [supplier 1] |}.

Definition tie_world : World := fresh_world date [order 1 1 10; order 2 1 10] [] [].

Definition tie_line (sku : Z) (code : string) : SupplierOrderSql :=
  {| so_key := key sku code;
     so_supplier_id := 1; so_supplier_code := "SUP";
     so_supplier_name := "supplier";
     so_net_demand := 10; so_pack_size := 5; so_min_order_qty := 10;
     so_unit_price := 1000; so_currency := "MAD"; so_lead_time_days := 2;
     order_quantity := Double.of_bigint 10;
     total_cost := Double.of_bigint 100;
     expected_delivery_date := {| year := 2026; month := 1; day := 17 |} |}.

Definition tie_answers_1 : Answers :=
  {| aggregate_answer := Some [agg 1 "PROD001" 10 1; agg 2 "PROD002" 10 1];
     net_demand_answer := Some [nd 1 "PROD001" 10; nd 2 "PROD002" 10];
     supplier_orders_answer := Some [tie_line 1 "PROD001"; tie_line 2 "PROD002"] |}.

Definition tie_answers_2 : Answers :=
  {| aggregate_answer := Some [agg 2 "PROD002" 10 1; agg 1 "PROD001" 10 1];
     net_demand_answer := Some [nd 2 "PROD002" 10; nd 1 "PROD001" 10];
     supplier_orders_answer := Some [tie_line 2 "PROD002"; tie_line 1 "PROD001"] |}.

(** The catalog with a single offer for SKU 1, in packs of 5 with a minimum
    order of 48: the net demand 45 is a whole number of packs, below the
    minimum. *)
Definition cat_large_minimum : Catalog :=
  {| products := products cat;
     warehouses := warehouses cat;
     safety_stock := safety_stock cat;
     safety_stock_by_warehouse := [];
     supplier_products := [offer 1 1 5 48 1000];
     suppliers := [supplier 1] |}.

Definition db_large_minimum : Db :=
  {| orders := [order 1 1 40; order 1 1 10];
     catalog := cat_large_minimum;
     inventory_snapshots := snapshots |}.

Definition window_large_minimum : list (SupplierProduct * Supplier) :=
  [ (offer 1 1 5 48 1000, supplier 1) ].

Definition line_large_minimum : SupplierOrderSql :=
  {| so_key := key 1 "PROD001";
     so_supplier_id := 1; so_supplier_code := "SUP";
     so_supplier_name := "supplier";
     so_net_demand := 45; so_pack_size := 5; so_min_order_qty := 48;
     so_unit_price := 1000; so_currency := "MAD"; so_lead_time_days := 2;
     order_quantity := Double.of_bigint 48;
     total_cost := Double.of_bigint 480;
     expected_delivery_date := {| year := 2026; month := 1; day := 17 |} |}.

(** The run on the orders of SKU 1 with the catalog of the three offers
    that have a pack_size or a unit_price that is not positive. *)
Definition invalid_offer_world : World :=
  fresh_world date [order 1 1 40; order 1 1 10] [] snapshots.

Definition invalid_offer_answers : Answers :=
  {| aggregate_answer := Some [agg 1 "PROD001" 50 2];
     net_demand_answer := Some [net_demand_1];
     supplier_orders_answer := Some [line_invalid_offer] |}.

End Scenario.

(** ** Further notions about runs *)

(** The callable changes no file of [hdfs_files] other than those at
    [paths].  What log_task_execution and log_exception write is not a file
    of [hdfs_files]: it is an entry of [task_logs] or [exception_logs]. *)
Definition hdfs_writes (paths : list string) (c : Py unit) : Prop :=
  ∀ w p, p ∉ paths → hdfs_files (c w).1 !! p = hdfs_files w !! p.

(** The data files a run for [date] writes in HDFS. *)
Definition hdfs_outputs (date : Date) : list string :=
  [HDFS_RAW_PATH +:+ "/orders/" +:+ strftime_dmy date +:+ "/orders.csv";
   HDFS_RAW_PATH +:+ "/stock/" +:+ strftime_dmy date +:+ "/stock.csv";
   HDFS_PROCESSED_PATH +:+ "/aggregated_orders/" +:+ strftime_dmy date
     +:+ "/aggregated_orders.json";
   HDFS_PROCESSED_PATH +:+ "/aggregated_orders/" +:+ strftime_dmy date
     +:+ "/aggregated_orders.csv";
   HDFS_PROCESSED_PATH +:+ "/net_demand/" +:+ strftime_dmy date +:+ "/net_demand.json";
   HDFS_PROCESSED_PATH +:+ "/net_demand/" +:+ strftime_dmy date +:+ "/net_demand.csv";
   HDFS_OUTPUT_PATH +:+ "/supplier_orders/" +:+ strftime_dmy date
     +:+ "/supplier_orders.json";
   HDFS_OUTPUT_PATH +:+ "/supplier_orders/" +:+ strftime_dmy date
     +:+ "/supplier_orders.csv";
   HDFS_LOGS_PATH +:+ "/summaries/summary_" +:+ strftime_dmy date +:+ ".json"].

(** The task ids under which the DAG registers the callables that push to
    the XCom store. *)
Definition pushing_tasks : list string :=
  ["load_orders"; "load_stock"; "store_snapshots"; "create_hive_tables";
   "aggregate_orders"; "calculate_net_demand"; "generate_supplier_orders"].

(** A world with no file at all. *)
Definition bare_world : World :=
  {| local_files := ∅; hdfs_files := ∅; cassandra_table := [];
     hive_orders := None; hive_stock := None; xcom := ∅;
     task_logs := []; exception_logs := [] |}.

(** The summary file of the run for [date]. *)
Definition summary_path (date : Date) : string :=
  HDFS_LOGS_PATH +:+ "/summaries/summary_" +:+ strftime_dmy date +:+ ".json".

(** The total cost of the summary is a number in every run that starts
    with a number, or nothing, under the key of task 7. *)
Definition total_cost_numeric (w : World) : Prop :=
  numeric (or_0 (xcom w !! ("generate_supplier_orders", "total_procurement_cost")))
  = true.

(** The entry log_exception leaves for a failed attempt of task 1. *)
Definition orders_exception (date : Date) : LogEntry :=
  {| log_task_name := "load_orders_to_hdfs";
     log_execution_date := strftime_dmy date;
     log_status := "exception";
     log_details := [("stage", PyStr "hdfs_orders_upload")] |}.

(** What a call of one of the tasks 1 to 7 leaves in the logs, on an HDFS
    [h]: on success no exception entry, and one task entry of status
    success under the name of the task when the upload of the log file is
    accepted, none otherwise; on failure no task entry, and one exception
    entry under the name of the task when the upload of the log file is
    accepted, none otherwise. *)
Definition logs_its_outcome (h : Hdfs) (name : string) (c : Py unit) : Prop :=
  ∀ w,
    match (c w).2 with
    | Some _ =>
        exception_logs (c w).1 = exception_logs w
        ∧ if accepts_log h
          then ∃ e, task_logs (c w).1 = task_logs w ++ [e]
                    ∧ log_task_name e = name ∧ log_status e = "success"
          else task_logs (c w).1 = task_logs w
    | None =>
        task_logs (c w).1 = task_logs w
        ∧ if accepts_log h
          then ∃ e, exception_logs (c w).1 = exception_logs w ++ [e]
                    ∧ log_task_name e = name ∧ log_status e = "exception"
          else exception_logs (c w).1 = exception_logs w
    end.

(** * Properties *)

(** ** The relational operators *)
Lemma elem_of_bool_filter {T} (f : T -> bool) (l : list T) x :
  x ∈ List.filter f l ↔ x ∈ l ∧ f x = true.
Proof. rewrite !list_elem_of_In. apply filter_In. Qed.

Section SqlFacts.
Context {A B K : Type}.
Implicit Types (l : list A) (r : list B).

Lemma elem_of_inner_join (on : A -> B -> bool) l r a b :
  (a, b) ∈ inner_join on l r ↔ a ∈ l ∧ b ∈ r ∧ on a b = true.
Proof.
  unfold inner_join. rewrite list_elem_of_bind. split.
  - intros (a' & Hin & Ha'). apply list_elem_of_fmap in Hin as (b' & Heq & Hb').
    simplify_eq. apply elem_of_bool_filter in Hb'. tauto.
  - intros (Ha & Hb & Hon). exists a. split; [|done].
    apply list_elem_of_fmap. exists b. split; [done|].
    apply elem_of_bool_filter. done.
Qed.

Lemma elem_of_cross_join l r a b :
  (a, b) ∈ cross_join l r ↔ a ∈ l ∧ b ∈ r.
Proof.
  unfold cross_join. rewrite list_elem_of_bind. split.
  - intros (a' & Hin & Ha'). apply list_elem_of_fmap in Hin as (b' & Heq & Hb').
    by simplify_eq.
  - intros [Ha Hb]. exists a. split; [|done]. apply list_elem_of_fmap. eauto.
Qed.

Lemma elem_of_left_join (on : A -> B -> bool) l r a ob :
  (a, ob) ∈ left_join on l r ↔
    a ∈ l ∧ match ob with
            | Some b => b ∈ r ∧ on a b = true
            | None => ∀ b, b ∈ r → on a b = false
            end.
Proof.
  unfold left_join. rewrite list_elem_of_bind. split.
  - intros (a' & Hin & Ha').
    destruct (List.filter (on a') r) as [|b0 bs] eqn:Hf.
    + apply list_elem_of_singleton in Hin. injection Hin as <- ->.
      split; [done|].
      intros b Hb. destruct (on a b) eqn:Hon; [|done].
      assert (b ∈ List.filter (on a) r) as Hbf
        by (apply elem_of_bool_filter; done).
      rewrite Hf in Hbf. by apply elem_of_nil in Hbf.
    + apply list_elem_of_fmap in Hin as (b' & Heq & Hb').
      injection Heq as <- ->.
      split; [done|]. rewrite <- Hf in Hb'.
      by apply elem_of_bool_filter in Hb'.
  - intros [Ha Hob]. exists a. split; [|done].
    destruct ob as [b|].
    + destruct Hob as [Hb Hon].
      assert (b ∈ List.filter (on a) r) as Hbf
        by (apply elem_of_bool_filter; done).
      destruct (List.filter (on a) r) as [|b0 bs] eqn:Hf.
      * by apply elem_of_nil in Hbf.
      * apply list_elem_of_fmap. eauto.
    + destruct (List.filter (on a) r) as [|b0 bs] eqn:Hf.
      * apply list_elem_of_singleton. done.
      * assert (b0 ∈ List.filter (on a) r) as Hbf
          by (rewrite Hf; apply elem_of_cons; auto).
        apply elem_of_bool_filter in Hbf as [Hb0 Hon].
        rewrite (Hob b0 Hb0) in Hon. done.
Qed.

(** A left join keeps every row of its left operand. *)
Lemma left_join_keeps (on : A -> B -> bool) l r a :
  a ∈ l → ∃ ob, (a, ob) ∈ left_join on l r.
Proof.
  intros Ha. destruct (List.filter (on a) r) as [|b0 bs] eqn:Hf.
  - exists None. apply elem_of_left_join. split; [done|].
    intros b Hb. destruct (on a b) eqn:Hon; [|done].
    assert (b ∈ List.filter (on a) r) as Hbf
      by (apply elem_of_bool_filter; done).
    rewrite Hf in Hbf. by apply elem_of_nil in Hbf.
  - exists (Some b0). apply elem_of_left_join. split; [done|].
    assert (b0 ∈ List.filter (on a) r) as Hbf
      by (rewrite Hf; apply elem_of_cons; auto).
    by apply elem_of_bool_filter in Hbf.
Qed.

Lemma elem_of_group_by `{EqDecision K} (key : A -> K) l k g :
  (k, g) ∈ group_by key l ↔
    (∃ x, x ∈ l ∧ key x = k) ∧ g = filter (λ x, key x = k) l.
Proof.
  unfold group_by. rewrite list_elem_of_fmap. split.
  - intros (k' & Heq & Hk'). simplify_eq. split; [|done].
    apply elem_of_remove_dups, list_elem_of_fmap in Hk' as (x & -> & Hx). eauto.
  - intros [(x & Hx & <-) ->]. exists (key x). split; [done|].
    apply elem_of_remove_dups, list_elem_of_fmap. eauto.
Qed.

Lemma group_by_keys_NoDup `{EqDecision K} (key : A -> K) l :
  NoDup (fst <$> group_by key l).
Proof.
  unfold group_by. rewrite <- list_fmap_compose.
  assert (∀ ks : list K,
    (fst ∘ (λ k, (k, filter (λ x, key x = k) l))) <$> ks = ks) as ->.
  { induction ks as [|k ks IH]; simpl; [done|by f_equal]. }
  apply NoDup_remove_dups.
Qed.

Lemma order_by_elem_of (before : A -> A -> Prop) l out x :
  order_by before l out → (x ∈ out ↔ x ∈ l).
Proof. intros [Hp _]. by rewrite Hp. Qed.

Lemma order_by_length (before : A -> A -> Prop) l out :
  order_by before l out → length out = length l.
Proof. intros [Hp _]. by rewrite Hp. Qed.

(** With a [before] that no two different rows satisfy both ways, ORDER BY
    has one answer. *)
Lemma order_by_unique (before : A -> A -> Prop) l out1 out2 :
  (∀ x y, x ∈ l → y ∈ l → before x y → before y x → x = y) →
  order_by before l out1 → order_by before l out2 → out1 = out2.
Proof.
  intros Hanti [Hp1 Hs1] [Hp2 Hs2].
  assert (out1 ≡ₚ out2) as Hp by (by rewrite <- Hp1).
  assert (∀ x y, x ∈ out1 → y ∈ out1 → before x y → before y x → x = y) as Ha.
  { intros x y Hx Hy. apply Hanti; by rewrite Hp1. }
  clear Hanti Hp1 Hp2 l.
  revert out2 Hs2 Hp. induction Hs1 as [|x out1 Hs1 IH Hx]; intros out2 Hs2 Hp.
  - by apply Permutation_nil_l in Hp.
  - destruct out2 as [|y out2]; [by apply Permutation_nil_r in Hp|].
    apply StronglySorted_inv in Hs2 as [Hs2 Hy].
    assert (x = y) as ->.
    { assert (x ∈ y :: out2) as Hxin by (rewrite <- Hp; apply elem_of_cons; auto).
      assert (y ∈ x :: out1) as Hyin by (rewrite Hp; apply elem_of_cons; auto).
      apply elem_of_cons in Hxin as [->|Hxin]; [done|].
      apply elem_of_cons in Hyin as [->|Hyin]; [done|].
      apply Ha.
      - apply elem_of_cons; auto.
      - apply elem_of_cons; auto.
      - rewrite Forall_forall in Hx. auto.
      - rewrite Forall_forall in Hy. auto. }
    f_equal. apply IH; [|done|by apply (inj (cons y))].
    intros x' y' Hx' Hy'. apply Ha; apply elem_of_cons; auto.
Qed.

Lemma row_number_from_sound `{EqDecision K} (part : A -> K) seen l x k :
  (x, k) ∈ row_number_from part seen l → x ∈ l.
Proof.
  revert seen. induction l as [|y l IH]; intros seen; simpl.
  - intros H. by apply elem_of_nil in H.
  - intros H. apply elem_of_cons in H as [H|H].
    + injection H as -> _. apply elem_of_cons; auto.
    + apply elem_of_cons. right. by apply (IH (y :: seen)).
Qed.

Lemma row_number_from_complete `{EqDecision K} (part : A -> K) seen l x :
  x ∈ l → ∃ k, (x, k) ∈ row_number_from part seen l.
Proof.
  revert seen. induction l as [|y l IH]; intros seen Hx; simpl.
  - by apply elem_of_nil in Hx.
  - apply elem_of_cons in Hx as [->|Hx].
    + eexists. apply elem_of_cons. left. reflexivity.
    + destruct (IH (y :: seen) Hx) as [k Hk]. exists k.
      apply elem_of_cons. by right.
Qed.

(** The row numbered 1 in its partition stands before every row of the
    partition. *)
Lemma row_number_from_first `{EqDecision K} (part : A -> K)
    (before : A -> A -> Prop) `{!Reflexive before} seen l x :
  StronglySorted before l →
  (x, 1) ∈ row_number_from part seen l →
  (∀ y, y ∈ seen → part y ≠ part x)
  ∧ (∀ y, y ∈ l → part y = part x → before x y).
Proof.
  revert seen. induction l as [|z l IH]; intros seen Hs; simpl.
  - intros H. by apply elem_of_nil in H.
  - apply StronglySorted_inv in Hs as [Hs Hz].
    intros H. apply elem_of_cons in H as [H|H].
    + injection H as -> Hlen.
      assert (filter (λ y, part y = part z) seen = []) as Hnil.
      { apply length_zero_iff_nil. lia. }
      split.
      * intros y Hy Hpart.
        assert (y ∈ filter (λ y', part y' = part z) seen) as Hin
          by (by apply list_elem_of_filter).
        rewrite Hnil in Hin. by apply elem_of_nil in Hin.
      * intros y Hy _. apply elem_of_cons in Hy as [->|Hy]; [done|].
        rewrite Forall_forall in Hz. auto.
    + destruct (IH (z :: seen) Hs H) as [Hseen Hl]. split.
      * intros y Hy. apply Hseen, elem_of_cons. auto.
      * intros y Hy Hpart. apply elem_of_cons in Hy as [->|Hy]; [|auto].
        exfalso. apply (Hseen z); [apply elem_of_cons; auto|done].
Qed.

Lemma row_number_from_first_seen `{EqDecision K} (part : A -> K) seen l s :
  (∃ y, y ∈ seen ∧ part y = s) →
  List.filter (first_of part s) (row_number_from part seen l) = [].
Proof.
  revert seen. induction l as [|x l IH]; intros seen (y & Hy & Hpart); [done|].
  simpl. rewrite IH by (exists y; split; [apply elem_of_cons; auto|done]).
  unfold first_of at 1. simpl.
  destruct (bool_decide (part x = s)) eqn:Hx; simpl; [|done].
  apply bool_decide_eq_true in Hx.
  assert (y ∈ filter (λ y', part y' = part x) seen) as Hin
    by (apply list_elem_of_filter; split; [congruence|done]).
  destruct (filter (λ y', part y' = part x) seen) as [|z zs];
    [by apply elem_of_nil in Hin|].
  simpl. rewrite bool_decide_eq_false_2 by lia. done.
Qed.

Lemma row_number_from_first_none `{EqDecision K} (part : A -> K) seen l s :
  (∀ x, x ∈ l → part x ≠ s) →
  List.filter (first_of part s) (row_number_from part seen l) = [].
Proof.
  revert seen. induction l as [|x l IH]; intros seen Hl; [done|].
  simpl. rewrite IH by (intros y Hy; apply Hl, elem_of_cons; auto).
  unfold first_of at 1. simpl.
  rewrite bool_decide_eq_false_2; [done|]. apply Hl, elem_of_cons. auto.
Qed.

(** A partition with a row has exactly one row numbered 1. *)
Lemma row_number_from_first_one `{EqDecision K} (part : A -> K) seen l s :
  (∀ y, y ∈ seen → part y ≠ s) →
  (∃ x, x ∈ l ∧ part x = s) →
  length (List.filter (first_of part s) (row_number_from part seen l)) = 1%nat.
Proof.
  revert seen. induction l as [|x l IH]; intros seen Hseen (y & Hy & Hpart).
  - by apply elem_of_nil in Hy.
  - simpl. unfold first_of at 1. simpl.
    destruct (decide (part x = s)) as [Hx|Hx].
    + rewrite bool_decide_eq_true_2 by done.
      assert (filter (λ y', part y' = part x) seen = []) as ->.
      { destruct (filter (λ y', part y' = part x) seen) as [|z zs] eqn:Hf; [done|].
        assert (z ∈ filter (λ y', part y' = part x) seen) as Hz
          by (rewrite Hf; apply elem_of_cons; auto).
        apply list_elem_of_filter in Hz as [Hz1 Hz2].
        exfalso. apply (Hseen z Hz2). congruence. }
      simpl. rewrite row_number_from_first_seen; [done|].
      exists x. split; [apply elem_of_cons; auto|done].
    + rewrite bool_decide_eq_false_2 by done. simpl. apply IH.
      * intros z Hz. apply elem_of_cons in Hz as [->|Hz]; auto.
      * apply elem_of_cons in Hy as [->|Hy]; [done|]. by exists y.
Qed.

End SqlFacts.

(** ** Aggregation *)

Lemma elem_of_joined_orders (db : Db) o p w :
  (o, p, w) ∈ joined_orders db ↔
    o ∈ orders db ∧ p ∈ products (catalog db) ∧ w ∈ warehouses (catalog db)
    ∧ o_sku_id o = p_sku_id p ∧ o_warehouse_id o = w_warehouse_id w.
Proof.
  unfold joined_orders. rewrite elem_of_inner_join, elem_of_inner_join.
  simpl. rewrite !bool_decide_eq_true. tauto.
Qed.

Lemma elem_of_order_groups (db : Db) k g :
  (k, g) ∈ order_groups db ↔
    (∃ opw, opw ∈ joined_orders db ∧ demand_key opw = k)
    ∧ g = filter (λ opw, demand_key opw = k) (joined_orders db).
Proof. apply elem_of_group_by. Qed.

(** A row of the CTE aggregated_orders stems from an order line joined
    with its product and its warehouse. *)
Lemma aggregated_orders_origin (db : Db) ao :
  ao ∈ aggregated_orders db →
  ∃ o p w, (o, p, w) ∈ joined_orders db ∧ ao_key ao = demand_key (o, p, w).
Proof.
  unfold aggregated_orders. intros Hao.
  apply list_elem_of_fmap in Hao as ([k g] & -> & Hkg).
  apply elem_of_order_groups in Hkg as [([[o p] w] & Hin & Hk) _].
  exists o, p, w. split; [done|]. symmetry. exact Hk.
Qed.

Lemma has_reference_true (cat : Catalog) o :
  has_reference cat o = true ↔
    ∃ p w, p ∈ products cat ∧ w ∈ warehouses cat
           ∧ o_sku_id o = p_sku_id p ∧ o_warehouse_id o = w_warehouse_id w.
Proof.
  unfold has_reference. rewrite andb_true_iff, !existsb_exists. split.
  - intros [(p & Hp & Hsku) (w & Hw & Hwh)].
    apply bool_decide_eq_true in Hsku, Hwh. exists p, w.
    by rewrite !list_elem_of_In.
  - intros (p & w & Hp & Hw & Hsku & Hwh). split.
    + exists p. by rewrite <- list_elem_of_In, bool_decide_eq_true.
    + exists w. by rewrite <- list_elem_of_In, bool_decide_eq_true.
Qed.

Lemma aggregate_rows_complete (db : Db) o p w :
  (o, p, w) ∈ joined_orders db →
  ∃ r, r ∈ aggregate_rows db ∧ agg_key r = demand_key (o, p, w).
Proof.
  intros Hin. unfold aggregate_rows.
  set (k := demand_key (o, p, w)).
  set (g := filter (λ opw, demand_key opw = k) (joined_orders db)).
  assert ((k, g) ∈ order_groups db) as Hkg.
  { apply elem_of_order_groups. split; [|done]. by exists (o, p, w). }
  eexists. split.
  - apply list_elem_of_fmap. exists (k, g). split; [reflexivity|done].
  - reflexivity.
Qed.

Lemma aggregate_rows_origin (db : Db) r :
  r ∈ aggregate_rows db →
  ∃ o p w, (o, p, w) ∈ joined_orders db ∧ agg_key r = demand_key (o, p, w).
Proof.
  unfold aggregate_rows. intros Hr.
  apply list_elem_of_fmap in Hr as ([k g] & -> & Hkg).
  apply elem_of_order_groups in Hkg as [([[o p] w] & Hin & Hk) _].
  exists o, p, w. split; [done|]. symmetry. exact Hk.
Qed.

(** C6 as amended.  aggregate_sql is an inner join: an answer has a row only
    for a (sku_id, warehouse_id) pair whose product and warehouse are in the
    reference data, so the group of an order line without them is dropped,
    and the pair of every order line with both is kept. *)
Theorem aggregation_drops_unmatched_groups (db : Db) (out : list AggregatedDemand) :
  aggregate_sql db out →
  (∀ r, r ∈ out →
     ∃ p w, p ∈ products (catalog db) ∧ w ∈ warehouses (catalog db)
            ∧ p_sku_id p = sku_id (agg_key r)
            ∧ w_warehouse_id w = warehouse_id (agg_key r))
  ∧ (∀ o, o ∈ orders db → has_reference (catalog db) o = false →
       ∀ r, r ∈ out →
         ¬ (sku_id (agg_key r) = o_sku_id o
            ∧ warehouse_id (agg_key r) = o_warehouse_id o))
  ∧ (∀ o, o ∈ orders db → has_reference (catalog db) o = true →
       ∃ r, r ∈ out ∧ sku_id (agg_key r) = o_sku_id o
            ∧ warehouse_id (agg_key r) = o_warehouse_id o).
Proof.
  intros Hsql.
  assert (∀ r, r ∈ out →
     ∃ p w, p ∈ products (catalog db) ∧ w ∈ warehouses (catalog db)
            ∧ p_sku_id p = sku_id (agg_key r)
            ∧ w_warehouse_id w = warehouse_id (agg_key r)) as Hrows.
  { intros r Hr. apply (order_by_elem_of _ _ _ r Hsql) in Hr.
    destruct (aggregate_rows_origin _ _ Hr) as (o & p & w & Hin & ->).
    apply elem_of_joined_orders in Hin as (_ & Hp & Hw & Hsku & Hwh).
    exists p, w. simpl. done. }
  split; [exact Hrows|]. split.
  - intros o Ho Href r Hr [Hsku Hwh].
    destruct (Hrows r Hr) as (p & w & Hp & Hw & Hp' & Hw').
    assert (has_reference (catalog db) o = true) as Htrue.
    { apply has_reference_true. exists p, w. repeat split; [done|done|lia|lia]. }
    congruence.
  - intros o Ho Href.
    apply has_reference_true in Href as (p & w & Hp & Hw & Hsku & Hwh).
    assert ((o, p, w) ∈ joined_orders db) as Hin
      by (by apply elem_of_joined_orders).
    destruct (aggregate_rows_complete _ _ _ _ Hin) as (r & Hr & Hkey).
    exists r. split; [by apply (order_by_elem_of _ _ _ r Hsql)|].
    by rewrite Hkey.
Qed.

(** ** Net demand *)

Lemma net_demand_rows_scenario :
  net_demand_rows Scenario.db Scenario.date
  = [Scenario.net_demand_1; Scenario.net_demand_2].
Proof. vm_compute. reflexivity. Qed.

Lemma net_demand_sql_scenario :
  net_demand_sql Scenario.db Scenario.date
    [Scenario.net_demand_1; Scenario.net_demand_2].
Proof.
  unfold net_demand_sql, order_by. rewrite net_demand_rows_scenario.
  split; [done|]. repeat constructor; unfold by_net_demand_desc; simpl; lia.
Qed.

(** C1.  Every row of net_demand_sql has
    net_demand = max(0, aggregated_orders + safety_stock - (available_stock -
    reserved_stock)), which is never negative, and effective_stock =
    available_stock - reserved_stock.  Its aggregated_orders is the
    total_quantity of the aggregated group of its key; its safety_stock is the
    safety_stock_qty of a row of safety_stock_combined for its sku_id and
    warehouse_id, or 0 when there is none; its available_stock and
    reserved_stock are the available_qty and reserved_qty (0 for NULL) of a
    snapshot of the calculation date for its sku_code and warehouse_code, or
    both 0 when the calculation date has no such snapshot. *)
Theorem net_demand_formula (db : Db) (date : Date) (out : list NetDemandSql)
    (r : NetDemandSql) :
  net_demand_sql db date out →
  r ∈ out →
  net_demand r
    = Z.max 0 (aggregated_orders_qty r + safety_stock_qty r
               - (available_stock r - reserved_stock r))
  ∧ 0 <= net_demand r
  ∧ effective_stock r = available_stock r - reserved_stock r
  ∧ ((∀ inv, inv ∈ inventory_snapshots db →
        inv_snapshot_date inv = date →
        inv_sku_code inv = sku_code (nd_key r) →
        inv_warehouse_code inv = warehouse_code (nd_key r) → False) →
     available_stock r = 0 ∧ reserved_stock r = 0)
  ∧ (∃ ao, ao ∈ aggregated_orders db
           ∧ ao_key ao = nd_key r
           ∧ aggregated_orders_qty r = ao_total_quantity ao)
  ∧ ((∃ ss, ss ∈ safety_stock_combined (catalog db)
            ∧ ssc_sku_id ss = sku_id (nd_key r)
            ∧ ssc_warehouse_id ss = warehouse_id (nd_key r)
            ∧ safety_stock_qty r = ssc_safety_stock_qty ss)
     ∨ ((∀ ss, ss ∈ safety_stock_combined (catalog db) →
           ssc_sku_id ss = sku_id (nd_key r) →
           ssc_warehouse_id ss = warehouse_id (nd_key r) → False)
        ∧ safety_stock_qty r = 0))
  ∧ ((∃ inv, inv ∈ inventory_snapshots db
             ∧ inv_snapshot_date inv = date
             ∧ inv_sku_code inv = sku_code (nd_key r)
             ∧ inv_warehouse_code inv = warehouse_code (nd_key r)
             ∧ available_stock r = default 0 (inv_available_qty inv)
             ∧ reserved_stock r = default 0 (inv_reserved_qty inv)
             ∧ net_demand r
               = Z.max 0 (aggregated_orders_qty r + safety_stock_qty r
                          - (default 0 (inv_available_qty inv)
                             - default 0 (inv_reserved_qty inv))))
     ∨ ((∀ inv, inv ∈ inventory_snapshots db →
           inv_snapshot_date inv = date →
           inv_sku_code inv = sku_code (nd_key r) →
           inv_warehouse_code inv = warehouse_code (nd_key r) → False)
        ∧ available_stock r = 0 ∧ reserved_stock r = 0
        ∧ net_demand r = Z.max 0 (aggregated_orders_qty r + safety_stock_qty r))).
Proof.
  intros Hsql Hr.
  apply (order_by_elem_of _ _ _ r) in Hsql. apply Hsql in Hr. clear Hsql.
  unfold net_demand_rows in Hr.
  apply list_elem_of_fmap in Hr as ([[ao ss] inv] & -> & Hrow).
  unfold net_demand_joined in Hrow.
  apply elem_of_left_join in Hrow as [Haoss Hinv].
  apply elem_of_left_join in Haoss as [Hao Hss].
  assert (∀ i, i ∈ inventory_snapshots db → inv_snapshot_date i = date →
            inv_sku_code i = sku_code (ao_key ao) →
            inv_warehouse_code i = warehouse_code (ao_key ao) →
            i ∈ inventory_data db date
            ∧ bool_decide (sku_code (ao_key ao) = inv_sku_code i)
              && bool_decide (warehouse_code (ao_key ao) = inv_warehouse_code i)
              = true) as Hmatch.
  { intros i Hi Hdate Hsku Hwh. split.
    - apply elem_of_bool_filter. split; [done|]. by apply bool_decide_eq_true.
    - apply andb_true_iff. split; by apply bool_decide_eq_true. }
  simpl. split; [reflexivity|]. split; [lia|]. split; [reflexivity|].
  split; [|split; [|split]].
  - intros Hnone. destruct inv as [inv|]; [|done]. exfalso.
    destruct Hinv as [Hin Hon].
    apply elem_of_bool_filter in Hin as [Hin Hdate].
    apply bool_decide_eq_true in Hdate.
    apply andb_true_iff in Hon as [Hsku Hwh].
    apply bool_decide_eq_true in Hsku, Hwh. simpl in Hsku, Hwh.
    by apply (Hnone inv).
  - by exists ao.
  - destruct ss as [ss|]; simpl.
    + left. destruct Hss as [Hin Hon].
      apply andb_true_iff in Hon as [Hsku Hwh].
      apply bool_decide_eq_true in Hsku, Hwh. by exists ss.
    + right. split; [|reflexivity]. intros ss Hin Hsku Hwh.
      specialize (Hss ss Hin). apply andb_false_iff in Hss as [Hf|Hf];
        apply bool_decide_eq_false in Hf; congruence.
  - destruct inv as [inv|]; simpl.
    + left. destruct Hinv as [Hin Hon].
      apply elem_of_bool_filter in Hin as [Hin Hdate].
      apply bool_decide_eq_true in Hdate.
      apply andb_true_iff in Hon as [Hsku Hwh].
      apply bool_decide_eq_true in Hsku, Hwh. simpl in Hsku, Hwh.
      exists inv. unfold coalesce. by destruct (inv_available_qty inv), (inv_reserved_qty inv).
    + right. split; [|split; [reflexivity|split; [reflexivity|f_equal; lia]]].
      intros i Hi Hdate Hsku Hwh.
      destruct (Hmatch i Hi Hdate Hsku Hwh) as [Hin Hon].
      specialize (Hinv i Hin). simpl in Hinv. congruence.
Qed.

Lemma net_demand_formula_witness :
  net_demand_sql Scenario.db Scenario.date
    [Scenario.net_demand_1; Scenario.net_demand_2]
  ∧ Scenario.net_demand_2 ∈ [Scenario.net_demand_1; Scenario.net_demand_2]
  ∧ net_demand Scenario.net_demand_2 = 12
  ∧ available_stock Scenario.net_demand_2 = 0.
Proof.
  assert (Scenario.net_demand_2 ∈ [Scenario.net_demand_1; Scenario.net_demand_2])
    as Hin by (apply elem_of_cons; right; apply elem_of_cons; left; reflexivity).
  split; [exact net_demand_sql_scenario|]. split; [exact Hin|].
  destruct (net_demand_formula _ _ _ _ net_demand_sql_scenario Hin)
    as (Hnd & _ & _ & Hstock & _).
  split; [exact Hnd|]. apply Hstock.
  intros inv Hinv _ Hsku _. apply list_elem_of_singleton in Hinv. subst inv.
  discriminate Hsku.
Defined.

(** ** Safety stock *)

(** What the statement resolves: the safety stock of a row is 0 when its SKU
    has no global entry; otherwise it comes from a global entry of the SKU,
    overridden by a per-warehouse entry of the pair when there is one. *)
Lemma safety_stock_resolution (db : Db) (date : Date) (out : list NetDemandSql)
    (r : NetDemandSql) :
  net_demand_sql db date out →
  r ∈ out →
  let sku := sku_id (nd_key r) in
  let wh := warehouse_id (nd_key r) in
  ((∀ ss, ss ∈ safety_stock (catalog db) → ss_sku_id ss ≠ sku)
   ∧ safety_stock_qty r = 0)
  ∨ (∃ ss, ss ∈ safety_stock (catalog db) ∧ ss_sku_id ss = sku ∧
      ((∃ ssw, ssw ∈ safety_stock_by_warehouse (catalog db)
               ∧ ssw_sku_id ssw = sku ∧ ssw_warehouse_id ssw = wh
               ∧ safety_stock_qty r
                 = coalesce (ssw_safety_stock_qty ssw)
                     (coalesce (ss_safety_stock_qty ss) 0))
       ∨ ((∀ ssw, ssw ∈ safety_stock_by_warehouse (catalog db) →
             ¬ (ssw_sku_id ssw = sku ∧ ssw_warehouse_id ssw = wh))
          ∧ safety_stock_qty r = coalesce (ss_safety_stock_qty ss) 0))).
Proof.
  intros Hsql Hr.
  apply (order_by_elem_of _ _ _ r) in Hsql. apply Hsql in Hr. clear Hsql.
  unfold net_demand_rows in Hr.
  apply list_elem_of_fmap in Hr as ([[ao oss] inv] & -> & Hrow).
  unfold net_demand_joined in Hrow.
  apply elem_of_left_join in Hrow as [Hrow _].
  apply elem_of_left_join in Hrow as [Hao Hss]. simpl.
  destruct (aggregated_orders_origin _ _ Hao) as (o & p & w & Hopw & Hkey).
  apply elem_of_joined_orders in Hopw as (_ & _ & Hw & _ & Hwid).
  rewrite Hkey in *. simpl in *.
  destruct oss as [ssc|]; simpl.
  - right. destruct Hss as [Hssc Hon].
    unfold safety_stock_combined in Hssc.
    apply list_elem_of_fmap in Hssc as ([[ss w'] ossw] & -> & Hj).
    apply elem_of_left_join in Hj as [Hcross Hssw].
    apply elem_of_cross_join in Hcross as [Hss Hw'].
    apply andb_true_iff in Hon as [Hsku Hwh].
    apply bool_decide_eq_true in Hsku, Hwh. simpl in *.
    exists ss. split; [done|].
    destruct ossw as [ssw|]; simpl in *.
    + destruct Hssw as [Hsswin Hon].
      apply andb_true_iff in Hon as [Hs1 Hs2].
      apply bool_decide_eq_true in Hs1, Hs2.
      split; [congruence|]. left. exists ssw.
      split; [done|]. split; [congruence|]. split; [congruence|].
      by destruct (ssw_safety_stock_qty ssw).
    + split; [congruence|]. right. split; [|done].
      intros ssw Hsswin [Hs1 Hs2]. specialize (Hssw ssw Hsswin).
      apply andb_false_iff in Hssw as [Hf|Hf];
        apply bool_decide_eq_false in Hf; congruence.
  - left. split; [|done]. intros ss Hssin Hsku.
    assert ((ss, w) ∈ cross_join (safety_stock (catalog db))
                       (warehouses (catalog db))) as Hcross
      by (by apply elem_of_cross_join).
    destruct (left_join_keeps
      (λ ssw' ssw, bool_decide (ss_sku_id ssw'.1 = ssw_sku_id ssw)
                   && bool_decide (w_warehouse_id ssw'.2 = ssw_warehouse_id ssw))
      _ (safety_stock_by_warehouse (catalog db)) _ Hcross) as [ossw Hj].
    pose proof Hj as Hj'. apply elem_of_left_join in Hj' as [_ Hssw].
    set (row := (ss, w, ossw)) in Hj.
    apply (list_elem_of_fmap_2
      (λ row, let '(ss, w, ssw) := row in
         {| ssc_sku_id := coalesce (ssw_sku_id <$> ssw) (ss_sku_id ss);
            ssc_warehouse_id :=
              coalesce (ssw_warehouse_id <$> ssw) (w_warehouse_id w);
            ssc_safety_stock_qty :=
              coalesce (ssw ≫= ssw_safety_stock_qty)
                (coalesce (ss_safety_stock_qty ss) 0) |})) in Hj.
    specialize (Hss _ Hj). subst row. simpl in Hss.
    apply andb_false_iff in Hss as [Hf|Hf]; apply bool_decide_eq_false in Hf;
      apply Hf; destruct ossw as [ssw|]; simpl in *; try congruence.
    + destruct Hssw as [_ Hon]. apply andb_true_iff in Hon as [Hs1 _].
      apply bool_decide_eq_true in Hs1. congruence.
    + destruct Hssw as [_ Hon]. apply andb_true_iff in Hon as [_ Hs2].
      apply bool_decide_eq_true in Hs2. congruence.
Qed.

Lemma net_demand_rows_per_warehouse_only :
  net_demand_rows Scenario.db_per_warehouse_only Scenario.date
  = [Scenario.net_demand_per_warehouse_only].
Proof. vm_compute. reflexivity. Qed.

(** C3, at a SKU with a per-warehouse entry and no global entry.  The
    catalog holds the per-warehouse safety stock 30 for SKU 1 in warehouse 1
    and the specification's resolution gives 30; the one row net_demand_sql
    answers has safety_stock 0 and net_demand 40. *)
Theorem per_warehouse_entry_without_global_entry :
  safety_stock_spec (catalog Scenario.db_per_warehouse_only) 1 1 = 30
  ∧ net_demand_sql Scenario.db_per_warehouse_only Scenario.date
      [Scenario.net_demand_per_warehouse_only]
  ∧ sku_id (nd_key Scenario.net_demand_per_warehouse_only) = 1
  ∧ warehouse_id (nd_key Scenario.net_demand_per_warehouse_only) = 1
  ∧ safety_stock_qty Scenario.net_demand_per_warehouse_only = 0
  ∧ net_demand Scenario.net_demand_per_warehouse_only = 40.
Proof.
  split; [reflexivity|]. split; [|done].
  unfold net_demand_sql, order_by. rewrite net_demand_rows_per_warehouse_only.
  split; [done|]. repeat constructor.
Qed.

(** ** Supplier orders *)

Lemma elem_of_active_offers (cat : Catalog) sp s :
  (sp, s) ∈ active_offers cat ↔
    sp ∈ supplier_products cat ∧ s ∈ suppliers cat
    ∧ sp_supplier_id sp = s_supplier_id s
    ∧ sp_is_active sp = true ∧ s_is_active s = true.
Proof.
  unfold active_offers. rewrite elem_of_bool_filter, elem_of_inner_join.
  simpl. rewrite bool_decide_eq_true, andb_true_iff. tauto.
Qed.

Lemma has_active_offer_true (cat : Catalog) sku :
  has_active_offer cat sku = true ↔
    ∃ sps, sps ∈ active_offers cat ∧ sp_sku_id sps.1 = sku.
Proof.
  unfold has_active_offer. rewrite existsb_exists. split.
  - intros (sps & Hin & Heq). exists sps. rewrite list_elem_of_In.
    by apply bool_decide_eq_true in Heq.
  - intros (sps & Hin & Heq). exists sps. rewrite <- list_elem_of_In.
    by rewrite bool_decide_eq_true.
Qed.

Lemma elem_of_ranked_suppliers sorted rs :
  rs ∈ ranked_suppliers sorted ↔
    ∃ sp s k, (sp, s, k) ∈ row_number (λ sps, sp_sku_id sps.1) sorted
              ∧ rs = ranked_of sp s k.
Proof.
  unfold ranked_suppliers. rewrite list_elem_of_fmap. split.
  - intros ([[sp s] k] & -> & Hin). by exists sp, s, k.
  - intros (sp & s & k & Hin & ->). by exists (sp, s, k).
Qed.

(** Every row of ranked_suppliers is an active offer of an active supplier,
    and every such offer has a row. *)
Lemma ranked_suppliers_sound (cat : Catalog) sorted rs :
  window_order cat sorted →
  rs ∈ ranked_suppliers sorted →
  ∃ sp s k, (sp, s) ∈ active_offers cat ∧ rs = ranked_of sp s k.
Proof.
  intros Hw Hrs. apply elem_of_ranked_suppliers in Hrs as (sp & s & k & Hin & ->).
  exists sp, s, k. split; [|done].
  apply row_number_from_sound in Hin. by apply (order_by_elem_of _ _ _ _ Hw).
Qed.

Lemma ranked_suppliers_complete (cat : Catalog) sorted sp s :
  window_order cat sorted →
  (sp, s) ∈ active_offers cat →
  ∃ k, ranked_of sp s k ∈ ranked_suppliers sorted.
Proof.
  intros Hw Hin. apply (order_by_elem_of _ _ _ _ Hw) in Hin.
  destruct (row_number_from_complete (λ sps, sp_sku_id sps.1) [] _ _ Hin)
    as [k Hk].
  exists k. apply elem_of_ranked_suppliers. by exists sp, s, k.
Qed.

Lemma mapM_elem_of {X Y} (f : X -> option Y) (l : list X) (k : list Y) y :
  mapM f l = Some k → y ∈ k → ∃ x, x ∈ l ∧ f x = Some y.
Proof.
  intros Hm Hy. apply mapM_Some in Hm.
  induction Hm as [|x y' l k Hxy Hm IH]; [by apply elem_of_nil in Hy|].
  apply elem_of_cons in Hy as [->|Hy].
  - exists x. split; [apply elem_of_cons; auto|done].
  - destruct (IH Hy) as (x' & Hx' & Hf). exists x'.
    split; [apply elem_of_cons; auto|done].
Qed.

(** Where a row of an answer to supplier_orders_sql comes from. *)
Lemma supplier_orders_sql_elem_of (db : Db) (date : Date) out line :
  supplier_orders_sql db date (Some out) →
  line ∈ out →
  ∃ sorted nd rs,
    window_order (catalog db) sorted
    ∧ nd ∈ net_demand_rows db date
    ∧ rs ∈ ranked_suppliers sorted
    ∧ sku_id (nd_key nd) = rs_sku_id rs
    ∧ price_rank rs = 1
    ∧ 0 < net_demand nd
    ∧ supplier_order_row date (nd, rs) = Some line.
Proof.
  intros (sorted & Hw & Hrows) Hline.
  destruct (supplier_order_rows db date sorted) as [rows|] eqn:Hr; [|done].
  destruct Hrows as (out' & [= <-] & Hord).
  apply (order_by_elem_of _ _ _ line) in Hord. apply Hord in Hline.
  unfold supplier_order_rows in Hr.
  destruct (mapM_elem_of _ _ _ _ Hr Hline) as ([nd rs] & Hin & Hrow).
  unfold supplier_orders_joined in Hin.
  apply elem_of_bool_filter in Hin as [Hin Hpos].
  apply elem_of_inner_join in Hin as (Hnd & Hrs & Hon).
  apply andb_true_iff in Hon as [Hsku Hrank].
  apply bool_decide_eq_true in Hsku, Hrank. apply Z.ltb_lt in Hpos.
  by exists sorted, nd, rs.
Qed.

Lemma supplier_order_row_fields (date : Date) nd rs line :
  supplier_order_row date (nd, rs) = Some line →
  so_key line = nd_key nd
  ∧ so_net_demand line = net_demand nd
  ∧ so_pack_size line = rs_pack_size rs
  ∧ so_min_order_qty line = rs_min_order_qty rs
  ∧ so_unit_price line = rs_unit_price rs
  ∧ order_quantity_of (net_demand nd) (rs_pack_size rs) (rs_min_order_qty rs)
    = Some (order_quantity line)
  ∧ total_cost line
    = Double.mul (order_quantity line) (Double.of_decimal2 (rs_unit_price rs)).
Proof.
  unfold supplier_order_row.
  destruct (order_quantity_of _ _ _) as [q|]; simpl; [|done].
  intros [= <-]. simpl. done.
Qed.

(** *** Net demand without an active offer *)

Lemma bool_filter_fmap_length {X Y} (f : Y -> bool) (g : X -> Y) (l : list X) :
  length (List.filter f (g <$> l)) = length (List.filter (λ x, f (g x)) l).
Proof.
  induction l as [|x l IH]; [done|]. csimpl.
  destruct (f (g x)); csimpl; by rewrite IH.
Qed.

Lemma bool_filter_Permutation_length {X} (f : X -> bool) (l1 l2 : list X) :
  l1 ≡ₚ l2 → length (List.filter f l1) = length (List.filter f l2).
Proof.
  induction 1 as [|x l1 l2 _ IH|x y l|l1 l2 l3 _ IH1 _ IH2]; simpl.
  - done.
  - destruct (f x); simpl; by rewrite IH.
  - destruct (f x), (f y); done.
  - by rewrite IH1.
Qed.

Lemma bool_filter_split_length {X} (f g : X -> bool) (l : list X) :
  length (List.filter f l)
  = (length (List.filter (λ x, f x && g x) l)
     + length (List.filter (λ x, f x && negb (g x)) l))%nat.
Proof.
  induction l as [|x l IH]; [done|]. simpl.
  destruct (f x), (g x); simpl; lia.
Qed.

(** A SKU has one row of rank 1 in ranked_suppliers when it has an active
    offer, none otherwise. *)
Lemma ranked_first_count (cat : Catalog) sorted sku :
  window_order cat sorted →
  length (List.filter
            (λ rs, bool_decide (sku = rs_sku_id rs) && bool_decide (price_rank rs = 1))
            (ranked_suppliers sorted))
  = if has_active_offer cat sku then 1%nat else 0%nat.
Proof.
  intros Hw. unfold ranked_suppliers. rewrite bool_filter_fmap_length.
  rewrite (filter_ext _ (first_of (λ sps : SupplierProduct * Supplier,
                                      sp_sku_id sps.1) sku)).
  2:{ intros [[sp s] k]. unfold first_of. simpl. f_equal.
      apply bool_decide_ext. split; congruence. }
  destruct (has_active_offer cat sku) eqn:Hoffer.
  - apply has_active_offer_true in Hoffer as (sps & Hin & Hsku).
    apply row_number_from_first_one.
    + intros y Hy. by apply elem_of_nil in Hy.
    + exists sps. split; [|done]. by apply (order_by_elem_of _ _ _ _ Hw).
  - unfold row_number. rewrite row_number_from_first_none; [done|].
    intros sps Hin Hsku. apply (order_by_elem_of _ _ _ _ Hw) in Hin.
    assert (has_active_offer cat sku = true) as Ht
      by (apply has_active_offer_true; eauto).
    congruence.
Qed.

(** The join of task 7 has one row per net-demand row that is positive and
    has an active offer. *)
Lemma supplier_orders_joined_length (db : Db) (date : Date) sorted :
  window_order (catalog db) sorted →
  length (supplier_orders_joined db date sorted)
  = length (List.filter
              (λ nd, (0 <? net_demand nd)
                     && has_active_offer (catalog db) (sku_id (nd_key nd)))
              (net_demand_rows db date)).
Proof.
  intros Hw. unfold supplier_orders_joined, inner_join.
  induction (net_demand_rows db date) as [|nd nds IH]; [done|].
  change ((nd :: nds) ≫= ?f) with (f nd ++ (nds ≫= f)).
  rewrite List.filter_app, length_app, IH. clear IH. simpl.
  rewrite bool_filter_fmap_length. simpl.
  pose proof (ranked_first_count _ _ (sku_id (nd_key nd)) Hw) as Hcount.
  destruct (0 <? net_demand nd); simpl.
  - assert (∀ {X} (l : list X), List.filter (λ _, true) l = l) as Hid
      by (intros X l; induction l; simpl; congruence).
    rewrite Hid, Hcount. by destruct (has_active_offer _ _).
  - assert (∀ {X} (l : list X), List.filter (λ _, false) l = []) as Hnil
      by (intros X l; induction l; simpl; congruence).
    by rewrite Hnil.
Qed.

(** C5 as amended.  A net-demand row with net_demand > 0 whose SKU has no
    active offer gets no order line (no line of an answer to
    supplier_orders_sql has its SKU).  The number of these rows is the number
    of rows with net_demand > 0 of net_demand_sql (what task 6 pushes as
    items_with_demand) less the number of rows of supplier_orders_sql (what
    task 7 pushes as supplier_orders_count). *)
Theorem unsupplied_demand_gets_no_line (db : Db) (date : Date)
    (nd_out : list NetDemandSql) (so_out : list SupplierOrderSql) :
  net_demand_sql db date nd_out →
  supplier_orders_sql db date (Some so_out) →
  (∀ nd, nd ∈ nd_out → unsupplied (catalog db) nd = true →
     ∀ line, line ∈ so_out → sku_id (so_key line) ≠ sku_id (nd_key nd))
  ∧ (∀ line, line ∈ so_out → 0 < so_net_demand line)
  ∧ Z.of_nat (length (List.filter (λ r, 0 <? net_demand r) nd_out))
      - Z.of_nat (length so_out)
    = unsupplied_demand db date.
Proof.
  intros Hnd Hso. split; [|split].
  - intros nd _ Hun line Hline Hsku.
    apply andb_true_iff in Hun as [_ Hno]. apply negb_true_iff in Hno.
    destruct (supplier_orders_sql_elem_of _ _ _ _ Hso Hline)
      as (sorted & nd' & rs & Hw & _ & Hrs & Hsku' & _ & _ & Hrow).
    apply supplier_order_row_fields in Hrow as (Hkey & _).
    destruct (ranked_suppliers_sound _ _ _ Hw Hrs) as (sp & s & k & Hact & ->).
    assert (has_active_offer (catalog db) (sku_id (nd_key nd)) = true) as Ht.
    { apply has_active_offer_true. exists (sp, s). split; [done|].
      simpl in *. congruence. }
    congruence.
  - intros line Hline.
    destruct (supplier_orders_sql_elem_of _ _ _ _ Hso Hline)
      as (sorted & nd' & rs & _ & _ & _ & _ & _ & Hpos & Hrow).
    apply supplier_order_row_fields in Hrow as (_ & -> & _). done.
  - destruct Hso as (sorted & Hw & Hrows).
    destruct (supplier_order_rows db date sorted) as [rows|] eqn:Hr; [|done].
    destruct Hrows as (out' & [= <-] & Hord).
    rewrite (order_by_length _ _ _ Hord).
    unfold supplier_order_rows in Hr. apply length_mapM in Hr. rewrite <- Hr.
    rewrite (supplier_orders_joined_length _ _ _ Hw).
    destruct Hnd as [Hperm _].
    rewrite <- (bool_filter_Permutation_length _ _ _ Hperm).
    rewrite (bool_filter_split_length (λ r, 0 <? net_demand r)
               (λ r, has_active_offer (catalog db) (sku_id (nd_key r)))).
    unfold unsupplied_demand, unsupplied. lia.
Qed.

(** *** Ties *)

(** Without two active offers of one SKU at the same price, the rows of
    rank 1 that a net-demand row joins do not depend on the order the window
    saw the offers in. *)
Lemma ranked_first_unique (cat : Catalog) sorted1 sorted2 sku :
  (∀ x y, x ∈ active_offers cat → y ∈ active_offers cat →
     sp_sku_id x.1 = sp_sku_id y.1 → sp_unit_price x.1 = sp_unit_price y.1 →
     x = y) →
  window_order cat sorted1 →
  window_order cat sorted2 →
  List.filter
    (λ rs, bool_decide (sku = rs_sku_id rs) && bool_decide (price_rank rs = 1))
    (ranked_suppliers sorted1)
  = List.filter
      (λ rs, bool_decide (sku = rs_sku_id rs) && bool_decide (price_rank rs = 1))
      (ranked_suppliers sorted2).
Proof.
  intros Hties Hw1 Hw2.
  pose proof (ranked_first_count _ _ sku Hw1) as Hc1.
  pose proof (ranked_first_count _ _ sku Hw2) as Hc2.
  set (on := λ rs, bool_decide (sku = rs_sku_id rs)
                   && bool_decide (price_rank rs = 1)) in *.
  assert (∀ sorted rs, window_order cat sorted →
            rs ∈ List.filter on (ranked_suppliers sorted) →
            ∃ sp s, rs = ranked_of sp s 1 ∧ (sp, s) ∈ active_offers cat
                    ∧ sp_sku_id sp = sku
                    ∧ ∀ y, y ∈ active_offers cat → sp_sku_id y.1 = sku →
                        sp_unit_price sp <= sp_unit_price y.1) as Hfirst.
  { intros sorted rs Hw Hrs. apply elem_of_bool_filter in Hrs as [Hrs Hon].
    apply andb_true_iff in Hon as [Hsku Hrank].
    apply bool_decide_eq_true in Hsku, Hrank.
    apply elem_of_ranked_suppliers in Hrs as (sp & s & k & Hin & ->).
    simpl in Hsku, Hrank. subst k. exists sp, s. split; [done|].
    pose proof (row_number_from_sound _ _ _ _ _ Hin) as Hmem.
    split; [by apply (order_by_elem_of _ _ _ _ Hw)|]. split; [done|].
    destruct Hw as [Hperm Hsorted].
    assert (Reflexive by_unit_price_asc) as Hrefl
      by (intros x; unfold by_unit_price_asc; lia).
    destruct (row_number_from_first (λ sps : SupplierProduct * Supplier,
                sp_sku_id sps.1) by_unit_price_asc [] sorted (sp, s)
                Hsorted Hin) as [_ Hmin].
    intros y Hy Hysku. apply (Hmin y); [by rewrite <- Hperm|]. simpl. congruence. }
  destruct (List.filter on (ranked_suppliers sorted1)) as [|a [|a' l1]] eqn:H1;
    destruct (List.filter on (ranked_suppliers sorted2)) as [|b [|b' l2]] eqn:H2;
    simpl in Hc1, Hc2; try (destruct (has_active_offer cat sku); congruence).
  f_equal.
  destruct (Hfirst sorted1 a Hw1) as (sp1 & s1 & -> & Hin1 & Hsku1 & Hmin1).
  { rewrite H1. apply elem_of_cons. auto. }
  destruct (Hfirst sorted2 b Hw2) as (sp2 & s2 & -> & Hin2 & Hsku2 & Hmin2).
  { rewrite H2. apply elem_of_cons. auto. }
  pose proof (Hmin1 _ Hin2 Hsku2) as Hle1.
  pose proof (Hmin2 _ Hin1 Hsku1) as Hle2. simpl in Hle1, Hle2.
  assert ((sp1, s1) = (sp2, s2)) as [= -> ->]; [|done].
  apply Hties; simpl; [done|done|congruence|lia].
Qed.

Lemma supplier_order_rows_unique (db : Db) (date : Date) sorted1 sorted2 :
  (∀ x y, x ∈ active_offers (catalog db) → y ∈ active_offers (catalog db) →
     sp_sku_id x.1 = sp_sku_id y.1 → sp_unit_price x.1 = sp_unit_price y.1 →
     x = y) →
  window_order (catalog db) sorted1 →
  window_order (catalog db) sorted2 →
  supplier_order_rows db date sorted1 = supplier_order_rows db date sorted2.
Proof.
  intros Hties Hw1 Hw2. unfold supplier_order_rows. f_equal.
  unfold supplier_orders_joined. f_equal. unfold inner_join.
  induction (net_demand_rows db date) as [|nd nds IH]; [done|].
  change ((nd :: nds) ≫= ?f) with (f nd ++ (nds ≫= f)).
  rewrite IH. f_equal. f_equal.
  apply (ranked_first_unique _ _ _ _ Hties Hw1 Hw2).
Qed.

(** An answer to supplier_orders_sql without two lines of equal total_cost
    is the only answer, in a catalog without two active offers of one SKU at
    the same price. *)
Lemma supplier_orders_sql_unique (db : Db) (date : Date) a1 a2 :
  (∀ x y, x ∈ active_offers (catalog db) → y ∈ active_offers (catalog db) →
     sp_sku_id x.1 = sp_sku_id y.1 → sp_unit_price x.1 = sp_unit_price y.1 →
     x = y) →
  (∀ out, a1 = Some out → ∀ x y, x ∈ out → y ∈ out →
     by_total_cost_desc x y → by_total_cost_desc y x → x = y) →
  supplier_orders_sql db date a1 →
  supplier_orders_sql db date a2 →
  a1 = a2.
Proof.
  intros Hties Hcost (sorted1 & Hw1 & H1) (sorted2 & Hw2 & H2).
  rewrite (supplier_order_rows_unique _ _ _ _ Hties Hw2 Hw1) in H2.
  destruct (supplier_order_rows db date sorted1) as [rows|]; [|congruence].
  destruct H1 as (out1 & -> & Ho1). destruct H2 as (out2 & -> & Ho2).
  f_equal. apply (order_by_unique by_total_cost_desc rows); [|done|done].
  intros x y Hx Hy. apply (Hcost out1 eq_refl);
    by apply (order_by_elem_of _ _ _ _ Ho1).
Qed.

Lemma aggregate_sql_unique (db : Db) out1 out2 :
  (∀ x y, x ∈ out1 → y ∈ out1 → total_quantity x = total_quantity y → x = y) →
  aggregate_sql db out1 → aggregate_sql db out2 → out1 = out2.
Proof.
  intros Hties H1 H2.
  apply (order_by_unique by_total_quantity_desc (aggregate_rows db)); [|done|done].
  intros x y Hx Hy Hxy Hyx. unfold by_total_quantity_desc in *.
  apply Hties; [by apply (order_by_elem_of _ _ _ _ H1)..|lia].
Qed.

Lemma net_demand_sql_unique (db : Db) (date : Date) out1 out2 :
  (∀ x y, x ∈ out1 → y ∈ out1 → net_demand x = net_demand y → x = y) →
  net_demand_sql db date out1 → net_demand_sql db date out2 → out1 = out2.
Proof.
  intros Hties H1 H2.
  apply (order_by_unique by_net_demand_desc (net_demand_rows db date)); [|done|done].
  intros x y Hx Hy Hxy Hyx. unfold by_net_demand_desc in *.
  apply Hties; [by apply (order_by_elem_of _ _ _ _ H1)..|lia].
Qed.

(** *** Offers with a pack size or a price that is not positive *)

Lemma window_order_invalid_offer :
  window_order Scenario.cat_invalid_offer Scenario.window_invalid_offer.
Proof.
  split.
  - change (active_offers Scenario.cat_invalid_offer)
      with (rev Scenario.window_invalid_offer).
    symmetry. apply Permutation_rev.
  - repeat constructor; unfold by_unit_price_asc; simpl; lia.
Qed.

(** C8 as amended.  The ranking leaves out an offer only when the offer or
    its supplier is inactive or the supplier is missing: every ranked row is
    an active offer of an active supplier, and every such offer is ranked
    whatever its pack_size and unit_price.  The order quantity of a line is
    computed by dividing its net demand by its pack_size, which is the
    pack_size of an active offer for its SKU, whatever its sign; it is
    positive if every active offer of the catalog has a positive
    pack_size. *)
Theorem ranking_keeps_every_active_offer (db : Db) (date : Date)
    (sorted : list (SupplierProduct * Supplier)) :
  window_order (catalog db) sorted →
  (∀ rs, rs ∈ ranked_suppliers sorted →
     ∃ sp s, sp ∈ supplier_products (catalog db) ∧ s ∈ suppliers (catalog db)
             ∧ sp_supplier_id sp = s_supplier_id s
             ∧ sp_is_active sp = true ∧ s_is_active s = true
             ∧ rs = ranked_of sp s (price_rank rs))
  ∧ (∀ sp s, sp ∈ supplier_products (catalog db) → s ∈ suppliers (catalog db) →
       sp_supplier_id sp = s_supplier_id s →
       sp_is_active sp = true → s_is_active s = true →
       ∃ k, ranked_of sp s k ∈ ranked_suppliers sorted)
  ∧ (∀ out line, supplier_orders_sql db date (Some out) → line ∈ out →
       ∃ sp, sp ∈ supplier_products (catalog db) ∧ sp_is_active sp = true
             ∧ sp_sku_id sp = sku_id (so_key line)
             ∧ so_pack_size line = sp_pack_size sp
             ∧ so_unit_price line = sp_unit_price sp)
  ∧ ((∀ sp, sp ∈ supplier_products (catalog db) → sp_is_active sp = true →
        0 < sp_pack_size sp) →
     ∀ out line, supplier_orders_sql db date (Some out) → line ∈ out →
       0 < so_pack_size line)
  ∧ (∀ out line, supplier_orders_sql db date (Some out) → line ∈ out →
       order_quantity_of (so_net_demand line) (so_pack_size line)
         (so_min_order_qty line)
       = Some (order_quantity line)).
Proof.
  intros Hw.
  assert (∀ out line, supplier_orders_sql db date (Some out) → line ∈ out →
       ∃ sp, sp ∈ supplier_products (catalog db) ∧ sp_is_active sp = true
             ∧ sp_sku_id sp = sku_id (so_key line)
             ∧ so_pack_size line = sp_pack_size sp
             ∧ so_unit_price line = sp_unit_price sp) as Hline.
  { intros out line Hsql Hin.
    destruct (supplier_orders_sql_elem_of _ _ _ _ Hsql Hin)
      as (sorted' & nd & rs & Hw' & _ & Hrs & Hsku & _ & _ & Hrow).
    apply supplier_order_row_fields in Hrow as (Hkey & _ & Hpack & _ & Hprice & _).
    destruct (ranked_suppliers_sound _ _ _ Hw' Hrs) as (sp & s & k & Hact & ->).
    apply elem_of_active_offers in Hact as (Hsp & _ & _ & Hactive & _).
    exists sp. simpl in *. rewrite Hkey. done. }
  split; [|split; [|split; [exact Hline|split]]].
  - intros rs Hrs.
    destruct (ranked_suppliers_sound _ _ _ Hw Hrs) as (sp & s & k & Hact & ->).
    apply elem_of_active_offers in Hact as (? & ? & ? & ? & ?).
    by exists sp, s.
  - intros sp s Hsp Hs Hid Ha1 Ha2.
    apply (ranked_suppliers_complete _ _ _ _ Hw).
    by apply elem_of_active_offers.
  - intros Hpos out line Hsql Hin.
    destruct (Hline out line Hsql Hin) as (sp & Hsp & Hactive & _ & -> & _).
    auto.
  - intros out line Hsql Hin.
    destruct (supplier_orders_sql_elem_of _ _ _ _ Hsql Hin)
      as (sorted' & nd & rs & _ & _ & _ & _ & _ & _ & Hrow).
    apply supplier_order_row_fields in Hrow
      as (_ & Hnd & Hpack & Hmin & _ & Hq & _).
    by rewrite Hnd, Hpack, Hmin.
Qed.

Lemma ranking_keeps_every_active_offer_witness :
  window_order (catalog Scenario.db_invalid_offer) Scenario.window_invalid_offer
  ∧ ∃ k, ranked_of (Scenario.offer 3 1 (-5) 0 (-100)) (Scenario.supplier 3) k
           ∈ ranked_suppliers Scenario.window_invalid_offer.
Proof.
  pose proof window_order_invalid_offer as Hw.
  split; [exact Hw|].
  destruct (ranking_keeps_every_active_offer Scenario.db_invalid_offer
              Scenario.date _ Hw) as (_ & Hall & _).
  apply Hall.
  - do 4 apply list_elem_of_further. apply list_elem_of_here.
  - do 2 apply list_elem_of_further. apply list_elem_of_here.
  - reflexivity.
  - reflexivity.
  - reflexivity.
Defined.


(** ** Runs of the DAG *)

(** *** The run with unmatched order lines and SKUs without offer *)

Lemma aggregate_sql_gaps :
  aggregate_sql Scenario.gaps_db
    [Scenario.agg 1 "PROD001" 50 2; Scenario.agg 2 "PROD002" 12 1;
     Scenario.agg 4 "PROD004" 9 1; Scenario.agg 3 "PROD003" 7 1].
Proof.
  split.
  - assert (aggregate_rows Scenario.gaps_db
            = [Scenario.agg 1 "PROD001" 50 2; Scenario.agg 2 "PROD002" 12 1;
               Scenario.agg 3 "PROD003" 7 1; Scenario.agg 4 "PROD004" 9 1]) as ->
      by (vm_compute; reflexivity).
    do 2 apply perm_skip. apply perm_swap.
  - repeat constructor; unfold by_total_quantity_desc; simpl; lia.
Qed.

Lemma net_demand_sql_gaps :
  net_demand_sql Scenario.gaps_db Scenario.date
    [Scenario.net_demand_1; Scenario.net_demand_2;
     Scenario.nd 4 "PROD004" 9; Scenario.nd 3 "PROD003" 7].
Proof.
  split.
  - assert (net_demand_rows Scenario.gaps_db Scenario.date
            = [Scenario.net_demand_1; Scenario.net_demand_2;
               Scenario.nd 3 "PROD003" 7; Scenario.nd 4 "PROD004" 9]) as ->
      by (vm_compute; reflexivity).
    do 2 apply perm_skip. apply perm_swap.
  - repeat constructor; unfold by_net_demand_desc; simpl; lia.
Qed.

Lemma window_order_gaps : window_order Scenario.gaps_cat Scenario.window.
Proof.
  split.
  - change (active_offers Scenario.gaps_cat) with (rev Scenario.window).
    symmetry. apply Permutation_rev.
  - repeat constructor; unfold by_unit_price_asc; simpl; lia.
Qed.

Lemma supplier_orders_sql_gaps :
  supplier_orders_sql Scenario.gaps_db Scenario.date (Some [Scenario.line_1]).
Proof.
  exists Scenario.window. split; [exact window_order_gaps|].
  assert (supplier_order_rows Scenario.gaps_db Scenario.date Scenario.window
          = Some [Scenario.line_1]) as -> by (vm_compute; reflexivity).
  eexists. split; [reflexivity|]. split; [done|]. repeat constructor.
Qed.

Lemma engine_answers_gaps :
  engine_answers Scenario.gaps_cat Scenario.date Scenario.gaps_answers
    Scenario.gaps_world.
Proof.
  unfold engine_answers, answers_in. cbv zeta.
  assert (visible_db Scenario.gaps_cat
            (before_aggregate
               (dag_run Scenario.date Scenario.gaps_answers Scenario.gaps_world))
          = Some Scenario.gaps_db) as -> by (vm_compute; reflexivity).
  assert (visible_db Scenario.gaps_cat
            (before_net_demand
               (dag_run Scenario.date Scenario.gaps_answers Scenario.gaps_world))
          = Some Scenario.gaps_db) as -> by (vm_compute; reflexivity).
  assert (visible_db Scenario.gaps_cat
            (before_supplier_orders
               (dag_run Scenario.date Scenario.gaps_answers Scenario.gaps_world))
          = Some Scenario.gaps_db) as -> by (vm_compute; reflexivity).
  split; [|split].
  - eexists. split; [reflexivity|]. exact aggregate_sql_gaps.
  - eexists. split; [reflexivity|]. exact net_demand_sql_gaps.
  - exact supplier_orders_sql_gaps.
Qed.

Lemma gaps_run_succeeds :
  let r := dag_run Scenario.date Scenario.gaps_answers Scenario.gaps_world in
  create_hive_tables_state r = success
  ∧ aggregate_orders_state r = success
  ∧ calculate_net_demand_state r = success
  ∧ generate_supplier_orders_state r = success
  ∧ generate_summary_state r = success.
Proof. vm_compute. done. Qed.

(** C6 as stated fails.  In this run five of the ten order lines have no
    product or no warehouse; every task succeeds, and 5 is none of the
    numbers the run reports: not in the summary, not in the task logs, not in
    the XCom store. *)
Lemma unmatched_lines_not_reported :
  let r := dag_run Scenario.date Scenario.gaps_answers Scenario.gaps_world in
  engine_answers Scenario.gaps_cat Scenario.date Scenario.gaps_answers
    Scenario.gaps_world
  ∧ aggregate_orders_state r = success
  ∧ generate_summary_state r = success
  ∧ visible_db Scenario.gaps_cat (before_aggregate r) = Some Scenario.gaps_db
  ∧ unmatched_lines Scenario.gaps_db = 5
  ∧ ¬ reports Scenario.date (final r) (unmatched_lines Scenario.gaps_db).
Proof.
  cbv zeta. split; [exact engine_answers_gaps|].
  split; [by vm_compute|]. split; [by vm_compute|].
  split; [vm_compute; reflexivity|]. split; [reflexivity|].
  change (unmatched_lines Scenario.gaps_db) with 5. unfold reports.
  assert (bool_decide (PyInt 5 ∈ reported_metrics Scenario.date
            (final (dag_run Scenario.date Scenario.gaps_answers
                      Scenario.gaps_world))) = false) as H1
    by (vm_compute; reflexivity).
  assert (bool_decide (PyFloat (Double.of_bigint 5) ∈ reported_metrics Scenario.date
            (final (dag_run Scenario.date Scenario.gaps_answers
                      Scenario.gaps_world))) = false) as H2
    by (vm_compute; reflexivity).
  apply bool_decide_eq_false in H1, H2. tauto.
Qed.

Lemma aggregation_drops_unmatched_groups_witness :
  aggregate_sql Scenario.gaps_db
    [Scenario.agg 1 "PROD001" 50 2; Scenario.agg 2 "PROD002" 12 1;
     Scenario.agg 4 "PROD004" 9 1; Scenario.agg 3 "PROD003" 7 1]
  ∧ ∀ r, r ∈ [Scenario.agg 1 "PROD001" 50 2; Scenario.agg 2 "PROD002" 12 1;
              Scenario.agg 4 "PROD004" 9 1; Scenario.agg 3 "PROD003" 7 1] →
      ¬ (sku_id (agg_key r) = 9 ∧ warehouse_id (agg_key r) = 1).
Proof.
  split; [exact aggregate_sql_gaps|].
  destruct (aggregation_drops_unmatched_groups _ _ aggregate_sql_gaps)
    as (_ & Hdrop & _).
  apply (Hdrop (Scenario.order 9 1 5)).
  - do 5 apply list_elem_of_further. apply list_elem_of_here.
  - reflexivity.
Defined.

(** C5 as stated fails.  In the same run three net-demand rows (SKUs 2, 3
    and 4) are positive and without an active offer; every task succeeds, and
    3 is none of the numbers the run reports. *)
Lemma unsupplied_demand_not_reported :
  let r := dag_run Scenario.date Scenario.gaps_answers Scenario.gaps_world in
  engine_answers Scenario.gaps_cat Scenario.date Scenario.gaps_answers
    Scenario.gaps_world
  ∧ generate_supplier_orders_state r = success
  ∧ generate_summary_state r = success
  ∧ visible_db Scenario.gaps_cat (before_supplier_orders r) = Some Scenario.gaps_db
  ∧ unsupplied_demand Scenario.gaps_db Scenario.date = 3
  ∧ ¬ reports Scenario.date (final r)
        (unsupplied_demand Scenario.gaps_db Scenario.date).
Proof.
  cbv zeta. split; [exact engine_answers_gaps|].
  split; [by vm_compute|]. split; [by vm_compute|].
  split; [vm_compute; reflexivity|]. split; [reflexivity|].
  change (unsupplied_demand Scenario.gaps_db Scenario.date) with 3. unfold reports.
  assert (bool_decide (PyInt 3 ∈ reported_metrics Scenario.date
            (final (dag_run Scenario.date Scenario.gaps_answers
                      Scenario.gaps_world))) = false) as H1
    by (vm_compute; reflexivity).
  assert (bool_decide (PyFloat (Double.of_bigint 3) ∈ reported_metrics Scenario.date
            (final (dag_run Scenario.date Scenario.gaps_answers
                      Scenario.gaps_world))) = false) as H2
    by (vm_compute; reflexivity).
  apply bool_decide_eq_false in H1, H2. tauto.
Qed.

Lemma unsupplied_demand_gets_no_line_witness :
  net_demand_sql Scenario.gaps_db Scenario.date
    [Scenario.net_demand_1; Scenario.net_demand_2;
     Scenario.nd 4 "PROD004" 9; Scenario.nd 3 "PROD003" 7]
  ∧ supplier_orders_sql Scenario.gaps_db Scenario.date (Some [Scenario.line_1])
  ∧ 4 - 1 = unsupplied_demand Scenario.gaps_db Scenario.date.
Proof.
  split; [exact net_demand_sql_gaps|]. split; [exact supplier_orders_sql_gaps|].
  exact (proj2 (proj2 (unsupplied_demand_gets_no_line _ _ _ _
                         net_demand_sql_gaps supplier_orders_sql_gaps))).
Defined.

(** *** The run with offers that have no positive pack size or price *)

Lemma engine_answers_invalid_offer :
  engine_answers Scenario.cat_invalid_offer Scenario.date
    Scenario.invalid_offer_answers Scenario.invalid_offer_world.
Proof.
  unfold engine_answers, answers_in. cbv zeta.
  assert (visible_db Scenario.cat_invalid_offer
            (before_aggregate
               (dag_run Scenario.date Scenario.invalid_offer_answers
                  Scenario.invalid_offer_world))
          = Some Scenario.db_invalid_offer) as -> by (vm_compute; reflexivity).
  assert (visible_db Scenario.cat_invalid_offer
            (before_net_demand
               (dag_run Scenario.date Scenario.invalid_offer_answers
                  Scenario.invalid_offer_world))
          = Some Scenario.db_invalid_offer) as -> by (vm_compute; reflexivity).
  assert (visible_db Scenario.cat_invalid_offer
            (before_supplier_orders
               (dag_run Scenario.date Scenario.invalid_offer_answers
                  Scenario.invalid_offer_world))
          = Some Scenario.db_invalid_offer) as -> by (vm_compute; reflexivity).
  split; [|split].
  - eexists. split; [reflexivity|]. split.
    + assert (aggregate_rows Scenario.db_invalid_offer
              = [Scenario.agg 1 "PROD001" 50 2]) as -> by (vm_compute; reflexivity).
      done.
    + repeat constructor.
  - eexists. split; [reflexivity|]. split.
    + assert (net_demand_rows Scenario.db_invalid_offer Scenario.date
              = [Scenario.net_demand_1]) as -> by (vm_compute; reflexivity).
      done.
    + repeat constructor.
  - exists Scenario.window_invalid_offer. split; [exact window_order_invalid_offer|].
    assert (supplier_order_rows Scenario.db_invalid_offer Scenario.date
              Scenario.window_invalid_offer
            = Some [Scenario.line_invalid_offer]) as ->
      by (vm_compute; reflexivity).
    eexists. split; [reflexivity|]. split; [done|]. repeat constructor.
Qed.

(** C8 as stated fails.  The active offer in packs of -5 at -1.00 has rank 1
    for SKU 1, before the offers at 9.50 and 10.00, and the order line of SKU
    1 is computed from it: the net demand 45 is divided by -5.  The catalog
    has three active offers with a pack_size or a unit_price that is not
    positive; in the run on it every task succeeds, and 3 is none of the
    numbers the run reports: not in the summary, not in the task logs, not
    in the XCom store. *)
Lemma invalid_offer_ranked_first :
  window_order Scenario.cat_invalid_offer Scenario.window_invalid_offer
  ∧ Scenario.ranked_invalid_offer
      ∈ ranked_suppliers Scenario.window_invalid_offer
  ∧ price_rank Scenario.ranked_invalid_offer = 1
  ∧ rs_pack_size Scenario.ranked_invalid_offer = -5
  ∧ rs_unit_price Scenario.ranked_invalid_offer = -100
  ∧ supplier_orders_sql Scenario.db_invalid_offer Scenario.date
      (Some [Scenario.line_invalid_offer])
  ∧ so_pack_size Scenario.line_invalid_offer = -5
  ∧ ¬ (∀ cat sorted rs,
         window_order cat sorted → rs ∈ ranked_suppliers sorted →
         0 < rs_pack_size rs ∧ 0 < rs_unit_price rs)
  ∧ (let r := dag_run Scenario.date Scenario.invalid_offer_answers
                Scenario.invalid_offer_world in
     engine_answers Scenario.cat_invalid_offer Scenario.date
       Scenario.invalid_offer_answers Scenario.invalid_offer_world
     ∧ generate_supplier_orders_state r = success
     ∧ generate_summary_state r = success
     ∧ hdfs_supplier_orders_json Scenario.date (final r)
       = Some (SupplierOrdersJson
                 (assemble_orders (strftime_iso Scenario.date) 1
                    [Scenario.line_invalid_offer]))
     ∧ invalid_offers Scenario.cat_invalid_offer = 3
     ∧ ¬ reports Scenario.date (final r)
           (invalid_offers Scenario.cat_invalid_offer)).
Proof.
  pose proof window_order_invalid_offer as Hw.
  assert (Scenario.ranked_invalid_offer
            ∈ ranked_suppliers Scenario.window_invalid_offer) as Hin.
  { apply elem_of_cons. left. reflexivity. }
  split; [exact Hw|]. split; [exact Hin|]. do 3 (split; [reflexivity|]).
  split; [|split; [reflexivity|split]].
  - exists Scenario.window_invalid_offer. split; [exact Hw|].
    assert (supplier_order_rows Scenario.db_invalid_offer Scenario.date
              Scenario.window_invalid_offer
            = Some [Scenario.line_invalid_offer]) as ->
      by (vm_compute; reflexivity).
    eexists. split; [reflexivity|]. split; [done|]. repeat constructor.
  - intros Hall. destruct (Hall _ _ _ Hw Hin) as [Hpack _].
    simpl in Hpack. lia.
  - cbv zeta. split; [exact engine_answers_invalid_offer|].
    split; [by vm_compute|]. split; [by vm_compute|].
    split; [vm_compute; reflexivity|]. split; [reflexivity|].
    change (invalid_offers Scenario.cat_invalid_offer) with 3. unfold reports.
    assert (bool_decide (PyInt 3 ∈ reported_metrics Scenario.date
              (final (dag_run Scenario.date Scenario.invalid_offer_answers
                        Scenario.invalid_offer_world))) = false) as H1
      by (vm_compute; reflexivity).
    assert (bool_decide (PyFloat (Double.of_bigint 3) ∈ reported_metrics Scenario.date
              (final (dag_run Scenario.date Scenario.invalid_offer_answers
                        Scenario.invalid_offer_world))) = false) as H2
      by (vm_compute; reflexivity).
    apply bool_decide_eq_false in H1, H2. tauto.
Qed.

(** *** The run without order lines *)

(** C7, at an orders file without lines and a local disk without files of
    an earlier run.  The engine answers no rows; task 5 writes
    aggregated_orders.json with no rows, skips aggregated_orders.csv and
    fails when it uploads that file; tasks 6 and 7 are not run and write
    nothing. *)
Theorem empty_orders_fail_aggregation :
  let r := dag_run Scenario.date Scenario.empty_answers Scenario.empty_world in
  engine_answers Scenario.cat Scenario.date Scenario.empty_answers
    Scenario.empty_world
  ∧ orders_table (before_aggregate r) = Some []
  ∧ create_hive_tables_state r = success
  ∧ aggregate_orders_state r = failed
  ∧ calculate_net_demand_state r = upstream_failed
  ∧ generate_supplier_orders_state r = upstream_failed
  ∧ hdfs_aggregated_json Scenario.date (final r) = Some (AggregatedJson [])
  ∧ hdfs_aggregated_csv Scenario.date (final r) = None
  ∧ hdfs_net_demand_json Scenario.date (final r) = None
  ∧ hdfs_net_demand_csv Scenario.date (final r) = None
  ∧ hdfs_supplier_orders_json Scenario.date (final r) = None
  ∧ hdfs_supplier_orders_csv Scenario.date (final r) = None.
Proof.
  cbv zeta. split.
  - unfold engine_answers, answers_in. cbv zeta.
    set (db := {| orders := []; catalog := Scenario.cat;
                  inventory_snapshots := Scenario.snapshots |}).
    assert (visible_db Scenario.cat
              (before_aggregate
                 (dag_run Scenario.date Scenario.empty_answers Scenario.empty_world))
            = Some db) as -> by (vm_compute; reflexivity).
    assert (visible_db Scenario.cat
              (before_net_demand
                 (dag_run Scenario.date Scenario.empty_answers Scenario.empty_world))
            = Some db) as -> by (vm_compute; reflexivity).
    assert (visible_db Scenario.cat
              (before_supplier_orders
                 (dag_run Scenario.date Scenario.empty_answers Scenario.empty_world))
            = Some db) as -> by (vm_compute; reflexivity).
    split; [|split].
    + eexists. split; [reflexivity|]. split; [done|constructor].
    + eexists. split; [reflexivity|]. split; [done|constructor].
    + exists Scenario.window. split.
      * split.
        -- change (active_offers (catalog db)) with (rev Scenario.window).
           symmetry. apply Permutation_rev.
        -- repeat constructor; unfold by_unit_price_asc; simpl; lia.
      * assert (supplier_order_rows db Scenario.date Scenario.window = Some [])
          as -> by (vm_compute; reflexivity).
        eexists. split; [reflexivity|]. split; [done|constructor].
  - vm_compute. done.
Qed.


(** *** The XCom store along a run *)

Ltac py_unfold :=
  unfold try_except, log_exception, fetchall, load_local, load_file, write_local,
    log_task_execution, xcom_push, xcom_pull, session_execute, create_tables,
    modify, read, raise;
  unfold mbind, Py_bind, mret, Py_ret; simpl.

Ltac py_case :=
  match goal with
  | |- context [option_bind _ _ _ (?m !! ?k)] =>
      destruct (m !! k) as [[]|] eqn:?; simpl
  | |- context [match ?x with _ => _ end] =>
      lazymatch x with
      | context [match _ with _ => _ end] => fail
      | _ => destruct x eqn:?; simpl
      end
  end.

Ltac xcom_frame :=
  split;
  [ intros [k1 k2] Hk; simpl in Hk;
    rewrite ?lookup_insert_ne by (intros [= ? ?]; congruence); reflexivity
  | try discriminate; try reflexivity ].

Lemma load_orders_to_hdfs_xcom ti date :
  xcom_discipline ti (load_orders_to_hdfs ti date).
Proof.
  intros w. unfold load_orders_to_hdfs. py_unfold. repeat py_case; xcom_frame.
Qed.

Lemma load_stock_to_hdfs_xcom ti date :
  xcom_discipline ti (load_stock_to_hdfs ti date).
Proof.
  intros w. unfold load_stock_to_hdfs. py_unfold. repeat py_case; xcom_frame.
Qed.

Lemma store_snapshots_to_cassandra_xcom ti date :
  xcom_discipline ti (store_snapshots_to_cassandra ti date).
Proof.
  intros w. unfold store_snapshots_to_cassandra.
  set (F := foldr (λ s k, session_execute s;; k) (mret ())).
  assert (∀ l w, (F l w).2 = Some () ∧ xcom (F l w).1 = xcom w) as HF.
  { induction l as [|s l IH]; intros w0; [done|].
    subst F. simpl. unfold mbind at 1, Py_bind at 1.
    unfold session_execute at 1, modify at 1.
    match goal with |- context [foldr _ _ l ?w'] => destruct (IH w') as [E1 E2] end.
    split; [exact E1|exact E2]. }
  clearbody F. py_unfold.
  destruct (local_files w !! _) as [[]|] eqn:Hf; simpl; try xcom_frame.
  match goal with |- context [F ?l ?w0] =>
    destruct (HF l w0) as [H1 H2]; destruct (F l w0) as [w1 [[]|]] end;
    simpl in *; [|discriminate].
  split.
  - intros [k1 k2] Hk; simpl in Hk.
    rewrite ?lookup_insert_ne by (intros [= ? ?]; congruence). by rewrite H2.
  - discriminate.
Qed.

Lemma create_hive_tables_xcom ti date :
  xcom_discipline ti (create_hive_tables ti date).
Proof.
  intros w. unfold create_hive_tables. py_unfold.
  unfold orders_table, stock_table; simpl. repeat py_case; xcom_frame.
Qed.

Lemma aggregate_orders_with_trino_xcom ti date answer :
  xcom_discipline ti (aggregate_orders_with_trino ti date answer).
Proof.
  intros w. unfold aggregate_orders_with_trino. py_unfold.
  repeat py_case; xcom_frame.
Qed.

Lemma calculate_net_demand_with_trino_xcom ti date answer :
  xcom_discipline ti (calculate_net_demand_with_trino ti date answer).
Proof.
  intros w. unfold calculate_net_demand_with_trino. py_unfold.
  repeat py_case; xcom_frame.
Qed.

Lemma generate_supplier_orders_with_trino_xcom ti date answer :
  xcom_discipline ti (generate_supplier_orders_with_trino ti date answer).
Proof.
  intros w. unfold generate_supplier_orders_with_trino. py_unfold.
  repeat py_case; xcom_frame.
Qed.

(** A task that does not end in [success] leaves the XCom store as it was. *)
Lemma run_task_xcom rule upstream ti c w :
  xcom_discipline ti c →
  (∀ k, k.1 ≠ ti → xcom (run_task rule upstream c w).1 !! k = xcom w !! k)
  ∧ ((run_task rule upstream c w).2 ≠ success →
     xcom (run_task rule upstream c w).1 = xcom w).
Proof.
  intros Hc. destruct (Hc w) as [Hframe Hquiet]. unfold run_task.
  destruct rule, upstream; simpl; try done;
    destruct (c w) as [w' [[]|]]; simpl in *; auto; done.
Qed.

Lemma run_task_all_done upstream c w :
  run_task all_done upstream c w
  = ((c w).1, if (c w).2 is Some _ then success else failed).
Proof. unfold run_task. destruct upstream; by destruct (c w) as [w' [[]|]]. Qed.

Ltac run_next H1 H2 w s :=
  match goal with
  | |- context [run_task ?rule ?up (?task ?ti ?date) ?w0] =>
      pose proof (run_task_xcom rule up ti (task ti date) w0 ltac:(auto)) as [H1 H2];
      destruct (run_task rule up (task ti date) w0) as [w s]; simpl in H1, H2
  | |- context [run_task ?rule ?up (?task ?ti ?date ?a) ?w0] =>
      pose proof (run_task_xcom rule up ti (task ti date a) w0 ltac:(auto)) as [H1 H2];
      destruct (run_task rule up (task ti date a) w0) as [w s]; simpl in H1, H2
  end.

#[local] Hint Resolve load_orders_to_hdfs_xcom load_stock_to_hdfs_xcom
  store_snapshots_to_cassandra_xcom create_hive_tables_xcom
  aggregate_orders_with_trino_xcom calculate_net_demand_with_trino_xcom
  generate_supplier_orders_with_trino_xcom : core.

(** *** Two runs on the same inputs *)

Lemma engine_answers_tie (ans : Answers) :
  ans = Scenario.tie_answers_1 ∨ ans = Scenario.tie_answers_2 →
  engine_answers Scenario.tie_cat Scenario.date ans Scenario.tie_world.
Proof.
  set (db := {| orders := [Scenario.order 1 1 10; Scenario.order 2 1 10];
                catalog := Scenario.tie_cat; inventory_snapshots := [] |}).
  assert (aggregate_rows db
          = [Scenario.agg 1 "PROD001" 10 1; Scenario.agg 2 "PROD002" 10 1]) as Hagg
    by (vm_compute; reflexivity).
  assert (net_demand_rows db Scenario.date
          = [Scenario.nd 1 "PROD001" 10; Scenario.nd 2 "PROD002" 10]) as Hnd
    by (vm_compute; reflexivity).
  assert (window_order Scenario.tie_cat (active_offers Scenario.tie_cat)) as Hw.
  { split; [done|]. repeat constructor; unfold by_unit_price_asc; simpl; lia. }
  assert (supplier_order_rows db Scenario.date (active_offers Scenario.tie_cat)
          = Some [Scenario.tie_line 1 "PROD001"; Scenario.tie_line 2 "PROD002"])
    as Hso by (vm_compute; reflexivity).
  intros [-> | ->]; unfold engine_answers, answers_in; cbv zeta.
  - assert (visible_db Scenario.tie_cat
              (before_aggregate
                 (dag_run Scenario.date Scenario.tie_answers_1 Scenario.tie_world))
            = Some db) as -> by (vm_compute; reflexivity).
    assert (visible_db Scenario.tie_cat
              (before_net_demand
                 (dag_run Scenario.date Scenario.tie_answers_1 Scenario.tie_world))
            = Some db) as -> by (vm_compute; reflexivity).
    assert (visible_db Scenario.tie_cat
              (before_supplier_orders
                 (dag_run Scenario.date Scenario.tie_answers_1 Scenario.tie_world))
            = Some db) as -> by (vm_compute; reflexivity).
    split; [|split].
    + eexists. split; [reflexivity|]. split; [by rewrite Hagg|].
      repeat constructor; unfold by_total_quantity_desc; simpl; lia.
    + eexists. split; [reflexivity|]. split; [by rewrite Hnd|].
      repeat constructor; unfold by_net_demand_desc; simpl; lia.
    + exists (active_offers Scenario.tie_cat). split; [exact Hw|]. rewrite Hso.
      eexists. split; [reflexivity|]. split; [done|].
      repeat constructor; by vm_compute.
  - assert (visible_db Scenario.tie_cat
              (before_aggregate
                 (dag_run Scenario.date Scenario.tie_answers_2 Scenario.tie_world))
            = Some db) as -> by (vm_compute; reflexivity).
    assert (visible_db Scenario.tie_cat
              (before_net_demand
                 (dag_run Scenario.date Scenario.tie_answers_2 Scenario.tie_world))
            = Some db) as -> by (vm_compute; reflexivity).
    assert (visible_db Scenario.tie_cat
              (before_supplier_orders
                 (dag_run Scenario.date Scenario.tie_answers_2 Scenario.tie_world))
            = Some db) as -> by (vm_compute; reflexivity).
    split; [|split].
    + eexists. split; [reflexivity|]. split; [rewrite Hagg; apply perm_swap|].
      repeat constructor; unfold by_total_quantity_desc; simpl; lia.
    + eexists. split; [reflexivity|]. split; [rewrite Hnd; apply perm_swap|].
      repeat constructor; unfold by_net_demand_desc; simpl; lia.
    + exists (active_offers Scenario.tie_cat). split; [exact Hw|]. rewrite Hso.
      eexists. split; [reflexivity|]. split; [apply perm_swap|].
      repeat constructor; by vm_compute.
Qed.

(** C4 as stated fails.  SKUs 1 and 2 tie on total_quantity, on net_demand
    and on total_cost; both orders of their rows are answers of the engine,
    every task succeeds in both runs, and the two runs leave different
    aggregated-demand, net-demand and supplier-order files (in the second,
    order PO-20260115-00001 is for SKU 2). *)
Lemma rerun_with_ties_differs :
  let r1 := dag_run Scenario.date Scenario.tie_answers_1 Scenario.tie_world in
  let r2 := dag_run Scenario.date Scenario.tie_answers_2 Scenario.tie_world in
  engine_answers Scenario.tie_cat Scenario.date Scenario.tie_answers_1
    Scenario.tie_world
  ∧ engine_answers Scenario.tie_cat Scenario.date Scenario.tie_answers_2
      Scenario.tie_world
  ∧ generate_supplier_orders_state r1 = success
  ∧ generate_supplier_orders_state r2 = success
  ∧ hdfs_aggregated_json Scenario.date (final r1)
    ≠ hdfs_aggregated_json Scenario.date (final r2)
  ∧ hdfs_net_demand_json Scenario.date (final r1)
    ≠ hdfs_net_demand_json Scenario.date (final r2)
  ∧ hdfs_supplier_orders_json Scenario.date (final r1)
    ≠ hdfs_supplier_orders_json Scenario.date (final r2).
Proof.
  cbv zeta. split; [apply engine_answers_tie; auto|].
  split; [apply engine_answers_tie; auto|].
  split; [by vm_compute|]. split; [by vm_compute|].
  split; [|split]; apply (bool_decide_eq_false_1 _); vm_compute; reflexivity.
Qed.

Lemma answers_in_unique {A} (cat : Catalog) (w : World)
    (stmt : Db -> option A -> Prop) (a1 a2 : option A) :
  (∀ db, catalog db = cat → stmt db a1 → stmt db a2 → a1 = a2) →
  answers_in cat w stmt a1 → answers_in cat w stmt a2 → a1 = a2.
Proof.
  unfold answers_in, visible_db.
  destruct (orders_table w) as [rows|]; simpl; [|congruence].
  intros H. by apply H.
Qed.

(** C4 as amended.  Two runs from the same world on the same reference data
    are identical (the same files, XCom entries, logs and task states) when
    the answers of the first hold no tie: no two aggregated rows with the same
    total_quantity, no two net-demand rows with the same net_demand, no two
    order lines with the same total_cost, and no two active offers of one SKU
    at the same price. *)
Theorem rerun_without_ties_is_identical (cat : Catalog) (date : Date)
    (a1 a2 : Answers) (w0 : World) :
  engine_answers cat date a1 w0 →
  engine_answers cat date a2 w0 →
  tie_free cat a1 →
  dag_run date a1 w0 = dag_run date a2 w0.
Proof.
  intros H1 H2 (Tagg & Tnd & Toff & Tso).
  destruct a1 as [g1 n1 o1], a2 as [g2 n2 o2].
  unfold engine_answers, dag_run in *. cbv zeta in *.
  cbn [aggregate_answer net_demand_answer supplier_orders_answer] in *.
  destruct (run_task all_success success (load_orders_to_hdfs "load_orders" date) w0)
    as [w1 s1].
  destruct (run_task all_success s1 (load_stock_to_hdfs "load_stock" date) w1)
    as [w2 s2].
  destruct (run_task all_success s2
              (store_snapshots_to_cassandra "store_snapshots" date) w2) as [w3 s3].
  destruct (run_task all_success s3
              (create_hive_tables "create_hive_tables" date) w3) as [w4 s4].
  assert (∀ db, catalog db = cat →
                (∃ out, g1 = Some out ∧ aggregate_sql db out) →
                (∃ out, g2 = Some out ∧ aggregate_sql db out) → g1 = g2) as Huniq.
  { intros db _ (out1 & -> & Ha) (out2 & -> & Hb).
    f_equal. apply (aggregate_sql_unique db); [|done|done]. by apply Tagg. }
  assert (g1 = g2) as <-.
  { destruct (run_task all_success s4
                (aggregate_orders_with_trino "aggregate_orders" date g1) w4)
      as [w5 s5];
    destruct (run_task all_success s5
                (calculate_net_demand_with_trino "calculate_net_demand" date n1) w5)
      as [w6 s6];
    destruct (run_task all_success s6
                (generate_supplier_orders_with_trino "generate_supplier_orders"
                   date o1) w6) as [w7 s7];
    destruct (run_task all_done s7
                (generate_pipeline_summary "generate_summary" date) w7) as [w8 s8].
    destruct (run_task all_success s4
                (aggregate_orders_with_trino "aggregate_orders" date g2) w4)
      as [w5' s5'];
    destruct (run_task all_success s5'
                (calculate_net_demand_with_trino "calculate_net_demand" date n2) w5')
      as [w6' s6'];
    destruct (run_task all_success s6'
                (generate_supplier_orders_with_trino "generate_supplier_orders"
                   date o2) w6') as [w7' s7'];
    destruct (run_task all_done s7'
                (generate_pipeline_summary "generate_summary" date) w7') as [w8' s8'].
    simpl in *. destruct H1 as [H1 _], H2 as [H2 _].
    eapply answers_in_unique; [|exact H1|exact H2]. exact Huniq. }
  destruct (run_task all_success s4
              (aggregate_orders_with_trino "aggregate_orders" date g1) w4)
    as [w5 s5].
  clear Huniq.
  assert (∀ db, catalog db = cat →
                (∃ out, n1 = Some out ∧ net_demand_sql db date out) →
                (∃ out, n2 = Some out ∧ net_demand_sql db date out) → n1 = n2)
    as Huniq.
  { intros db _ (out1 & -> & Ha) (out2 & -> & Hb).
    f_equal. apply (net_demand_sql_unique db date); [|done|done]. by apply Tnd. }
  assert (n1 = n2) as <-.
  { destruct (run_task all_success s5
                (calculate_net_demand_with_trino "calculate_net_demand" date n1) w5)
      as [w6 s6];
    destruct (run_task all_success s6
                (generate_supplier_orders_with_trino "generate_supplier_orders"
                   date o1) w6) as [w7 s7];
    destruct (run_task all_done s7
                (generate_pipeline_summary "generate_summary" date) w7) as [w8 s8].
    destruct (run_task all_success s5
                (calculate_net_demand_with_trino "calculate_net_demand" date n2) w5)
      as [w6' s6'];
    destruct (run_task all_success s6'
                (generate_supplier_orders_with_trino "generate_supplier_orders"
                   date o2) w6') as [w7' s7'];
    destruct (run_task all_done s7'
                (generate_pipeline_summary "generate_summary" date) w7') as [w8' s8'].
    simpl in *. destruct H1 as (_ & H1 & _), H2 as (_ & H2 & _).
    eapply answers_in_unique; [|exact H1|exact H2]. exact Huniq. }
  destruct (run_task all_success s5
              (calculate_net_demand_with_trino "calculate_net_demand" date n1) w5)
    as [w6 s6].
  assert (∀ db, catalog db = cat →
                supplier_orders_sql db date o1 → supplier_orders_sql db date o2 →
                o1 = o2) as Huniq3.
  { intros db <-. apply (supplier_orders_sql_unique db date); done. }
  assert (o1 = o2) as <-; [|done].
  destruct (run_task all_success s6
              (generate_supplier_orders_with_trino "generate_supplier_orders"
                 date o1) w6) as [w7 s7];
  destruct (run_task all_done s7
              (generate_pipeline_summary "generate_summary" date) w7) as [w8 s8].
  destruct (run_task all_success s6
              (generate_supplier_orders_with_trino "generate_supplier_orders"
                 date o2) w6) as [w7' s7'];
  destruct (run_task all_done s7'
              (generate_pipeline_summary "generate_summary" date) w7') as [w8' s8'].
  simpl in *. destruct H1 as (_ & _ & H1), H2 as (_ & _ & H2).
  eapply answers_in_unique; [|exact H1|exact H2]. exact Huniq3.
Qed.

Ltac enum_elem H :=
  repeat (apply elem_of_cons in H as [->|H]); [..|by apply elem_of_nil in H].

Lemma tie_free_gaps : tie_free Scenario.gaps_cat Scenario.gaps_answers.
Proof.
  split; [|split; [|split]].
  - intros out [= <-] x y Hx Hy. enum_elem Hx; enum_elem Hy; simpl; done.
  - intros out [= <-] x y Hx Hy. enum_elem Hx; enum_elem Hy; simpl; done.
  - intros x y Hx Hy.
    change (active_offers Scenario.gaps_cat) with (rev Scenario.window) in Hx, Hy.
    simpl in Hx, Hy. enum_elem Hx; enum_elem Hy; simpl; done.
  - intros out [= <-] x y Hx Hy. enum_elem Hx; enum_elem Hy; done.
Qed.

Lemma rerun_without_ties_is_identical_witness :
  engine_answers Scenario.gaps_cat Scenario.date Scenario.gaps_answers
    Scenario.gaps_world
  ∧ tie_free Scenario.gaps_cat Scenario.gaps_answers
  ∧ dag_run Scenario.date Scenario.gaps_answers Scenario.gaps_world
    = dag_run Scenario.date Scenario.gaps_answers Scenario.gaps_world.
Proof.
  split; [exact engine_answers_gaps|]. split; [exact tie_free_gaps|].
  exact (rerun_without_ties_is_identical _ _ _ _ _
           engine_answers_gaps engine_answers_gaps tie_free_gaps).
Defined.

(** ** Order identifiers *)

Lemma string_app_cons c (a b : string) : String c a +:+ b = String c (a +:+ b).
Proof. reflexivity. Qed.

Lemma zeros_app_cons n s : zeros n +:+ String "0" s = String "0" (zeros n +:+ s).
Proof. induction n as [|n IH]; simpl; [done|]. rewrite !string_app_cons. f_equal. apply IH. Qed.

Lemma length_zeros n : String.length (zeros n) = n.
Proof. induction n; simpl; auto. Qed.

Lemma string_length_app (a b : string) :
  String.length (a +:+ b) = (String.length a + String.length b)%nat.
Proof. induction a as [|c a IH]; [done|]. rewrite string_app_cons. simpl. by rewrite IH. Qed.

Lemma fixed_digits_pretty n (x : N) acc :
  (x < 10 ^ N.of_nat n)%N →
  ∃ k, fixed_digits n x acc = zeros k +:+ pretty_N_go x acc
       ∧ (k + String.length (pretty_N_go x acc) = n + String.length acc)%nat.
Proof.
  revert x acc. induction n as [|n IH]; intros x acc Hx.
  - assert (x = 0%N) as -> by (simpl in Hx; lia). exists 0%nat. by rewrite pretty_N_go_0.
  - assert (x `div` 10 < 10 ^ N.of_nat n)%N as Hdiv.
    { apply N.Div0.div_lt_upper_bound. rewrite <- N.pow_succ_r'. by rewrite <- Nat2N.inj_succ. }
    destruct (IH _ (String (pretty_N_char (x `mod` 10)%N) acc) Hdiv) as (k & Hk & Hlen).
    simpl. destruct (decide (x = 0%N)) as [->|Hpos].
    + rewrite pretty_N_go_0 in *. simpl in *. exists (S k). rewrite Hk.
      change (pretty_N_char 0) with "0"%char. rewrite zeros_app_cons. split; [done|lia].
    + rewrite (pretty_N_go_step x) by lia. exists k. split; [done|]. simpl in Hlen. lia.
Qed.

Lemma pretty_pos (i : Z) : 0 < i → pretty i = pretty_N_go (Z.to_N i) "".
Proof.
  intros Hi. destruct i as [|p|p]; try lia. simpl.
  unfold pretty, pretty_Z, pretty, pretty_positive, pretty, pretty_N.
  by rewrite decide_False by lia.
Qed.

Lemma format_05d_fixed (i : Z) :
  0 < i < 100000 → format_05d i = fixed_digits 5 (Z.to_N i) "".
Proof.
  intros Hi. unfold format_05d, zfill. rewrite pretty_pos by lia.
  destruct (fixed_digits_pretty 5 (Z.to_N i) "") as (k & -> & Hlen);
    [change (10 ^ N.of_nat 5)%N with 100000%N; lia|].
  simpl in Hlen. do 2 f_equal. lia.
Qed.

Lemma digit_compare (a b : N) :
  (a < 10)%N → (b < 10)%N →
  Ascii.compare (pretty_N_char a) (pretty_N_char b) = (a ?= b)%N.
Proof.
  intros Ha Hb.
  assert (a = 0 ∨ a = 1 ∨ a = 2 ∨ a = 3 ∨ a = 4 ∨ a = 5 ∨ a = 6 ∨ a = 7 ∨ a = 8 ∨ a = 9)%N
    as Hcase by lia.
  assert (b = 0 ∨ b = 1 ∨ b = 2 ∨ b = 3 ∨ b = 4 ∨ b = 5 ∨ b = 6 ∨ b = 7 ∨ b = 8 ∨ b = 9)%N
    as Hcase' by lia.
  destruct Hcase as [->|[->|[->|[->|[->|[->|[->|[->|[->| ->]]]]]]]]];
  destruct Hcase' as [->|[->|[->|[->|[->|[->|[->|[->|[->| ->]]]]]]]]]; reflexivity.
Qed.

Lemma compare_div_mod (x y : N) :
  (x ?= y)%N
  = match (x `div` 10 ?= y `div` 10)%N with
    | Eq => (x `mod` 10 ?= y `mod` 10)%N
    | c => c
    end.
Proof.
  pose proof (N.div_mod x 10 ltac:(lia)) as Hx.
  pose proof (N.div_mod y 10 ltac:(lia)) as Hy.
  pose proof (N.mod_lt x 10 ltac:(lia)). pose proof (N.mod_lt y 10 ltac:(lia)).
  revert Hx Hy.
  generalize dependent (x `div` 10)%N. generalize dependent (x `mod` 10)%N.
  generalize dependent (y `div` 10)%N. generalize dependent (y `mod` 10)%N.
  intros my Hmy dy mx Hmx dx -> ->.
  destruct (N.compare_spec dx dy); destruct (N.compare_spec mx my);
    destruct (N.compare_spec (10 * dx + mx) (10 * dy + my));
    try reflexivity; lia.
Qed.

Lemma fixed_digits_compare n (x y : N) a1 a2 :
  (x < 10 ^ N.of_nat n)%N → (y < 10 ^ N.of_nat n)%N →
  String.compare (fixed_digits n x a1) (fixed_digits n y a2)
  = match (x ?= y)%N with
    | Eq => String.compare a1 a2
    | c => c
    end.
Proof.
  revert x y a1 a2. induction n as [|n IH]; intros x y a1 a2 Hx Hy.
  - assert (x = 0%N) as -> by (simpl in Hx; lia).
    assert (y = 0%N) as -> by (simpl in Hy; lia). done.
  - assert (∀ z, z < 10 ^ N.of_nat (S n) → (z `div` 10) < 10 ^ N.of_nat n)%N as Hdiv.
    { intros z Hz. apply N.Div0.div_lt_upper_bound.
      rewrite <- N.pow_succ_r'. by rewrite <- Nat2N.inj_succ. }
    simpl. rewrite IH by auto. rewrite (compare_div_mod x y).
    destruct (x `div` 10 ?= y `div` 10)%N; try done.
    simpl. rewrite digit_compare by (apply N.mod_lt; lia).
    by destruct (x `mod` 10 ?= y `mod` 10)%N.
Qed.

Lemma format_05d_ltb (i j : Z) :
  0 < i → i < j → j < 100000 → String.ltb (format_05d i) (format_05d j) = true.
Proof.
  intros. rewrite !format_05d_fixed by lia. unfold String.ltb.
  rewrite fixed_digits_compare by (change (10 ^ N.of_nat 5)%N with 100000%N; lia).
  assert ((Z.to_N i ?= Z.to_N j)%N = Lt) as -> by (apply N.compare_lt_iff; lia). done.
Qed.

Lemma format_05d_length (i : Z) : 0 < i < 100000 → String.length (format_05d i) = 5%nat.
Proof.
  intros. rewrite format_05d_fixed by lia.
  assert (∀ n x acc, String.length (fixed_digits n x acc) = (n + String.length acc)%nat) as H'.
  { induction n as [|n IH]; intros x acc; simpl; [done|]. rewrite IH. simpl. lia. }
  by rewrite H'.
Qed.

Lemma pretty_N_go_head (x : N) s r : (0 < x)%N → pretty_N_go x s ≠ String "0" r.
Proof.
  revert s. induction (N.lt_wf_0 x) as [x _ IH]; intros s Hx.
  rewrite pretty_N_go_step by done.
  destruct (decide (x `div` 10 = 0)%N) as [Hz|Hz].
  - rewrite Hz, pretty_N_go_0.
    assert (x < 10)%N.
    { pose proof (N.div_mod x 10 ltac:(lia)) as Hdm.
      pose proof (N.mod_lt x 10 ltac:(lia)). rewrite Hz in Hdm. lia. }
    rewrite N.mod_small by done.
    assert (x = 1 ∨ x = 2 ∨ x = 3 ∨ x = 4 ∨ x = 5 ∨ x = 6 ∨ x = 7 ∨ x = 8 ∨ x = 9)%N
      as Hcase by lia.
    destruct Hcase as [->|[->|[->|[->|[->|[->|[->|[->| ->]]]]]]]]; discriminate.
  - apply IH; [apply N.div_lt; lia|by apply N.neq_0_lt_0].
Qed.

Lemma zeros_app_inj k1 k2 (a b : string) :
  (∀ r, a ≠ String "0" r) → (∀ r, b ≠ String "0" r) →
  zeros k1 +:+ a = zeros k2 +:+ b → a = b.
Proof.
  revert k2. induction k1 as [|k1 IH]; intros [|k2] Ha Hb Heq.
  - exact Heq.
  - change (a = String "0" (zeros k2 +:+ b)) in Heq. by destruct (Ha _ Heq).
  - change (String "0" (zeros k1 +:+ a) = b) in Heq. by destruct (Hb _ (eq_sym Heq)).
  - change (String "0" (zeros k1 +:+ a) = String "0" (zeros k2 +:+ b)) in Heq.
    injection Heq as Heq. by apply (IH k2).
Qed.

Lemma format_05d_inj (i j : Z) : 0 < i → 0 < j → format_05d i = format_05d j → i = j.
Proof.
  intros Hi Hj. unfold format_05d, zfill. rewrite !pretty_pos by lia. intros Heq.
  apply zeros_app_inj in Heq.
  - rewrite <- !pretty_pos in Heq by lia. by apply (inj pretty) in Heq.
  - intros r. apply pretty_N_go_head. lia.
  - intros r. apply pretty_N_go_head. lia.
Qed.

Lemma replace_dash_cons c s :
  str_replace "-" "" (String c s)
  = if decide (c = "-"%char) then str_replace "-" "" s
    else String c (str_replace "-" "" s).
Proof.
  unfold str_replace.
  change (replace_from "-" "" 0 (String c s))
    with (if (if ascii_dec "-" c then String.prefix "" s else false)
          then "" +:+ replace_from "-" "" 0 s
          else String c (replace_from "-" "" 0 s)).
  assert (String.prefix "" s = true) as -> by (by destruct s).
  destruct (ascii_dec "-" c) as [Heq|Hne].
  - rewrite decide_True by done. reflexivity.
  - rewrite decide_False by congruence. reflexivity.
Qed.

Lemma replace_dash_app a b :
  str_replace "-" "" (a +:+ b) = str_replace "-" "" a +:+ str_replace "-" "" b.
Proof.
  induction a as [|c a IH]; [done|].
  rewrite string_app_cons, !replace_dash_cons. destruct (decide (c = "-"%char)); [done|].
  by rewrite string_app_cons, IH.
Qed.

Lemma replace_dash_zeros n : str_replace "-" "" (zeros n) = zeros n.
Proof.
  induction n as [|n IH]; [done|]. simpl. rewrite replace_dash_cons.
  rewrite decide_False by discriminate. by rewrite IH.
Qed.

Lemma replace_dash_pretty_N_go (x : N) s :
  str_replace "-" "" s = s → str_replace "-" "" (pretty_N_go x s) = pretty_N_go x s.
Proof.
  revert s. induction (N.lt_wf_0 x) as [x _ IH]; intros s Hs.
  destruct (decide (x = 0%N)) as [->|Hx]; [by rewrite pretty_N_go_0|].
  rewrite pretty_N_go_step by lia. apply IH; [apply N.div_lt; lia|].
  rewrite replace_dash_cons, Hs. rewrite decide_False; [done|].
  unfold pretty_N_char. by repeat case_match.
Qed.

Lemma replace_dash_zfill w (z : Z) :
  0 <= z → str_replace "-" "" (zfill w (pretty z)) = zfill w (pretty z).
Proof.
  intros Hz. unfold zfill. rewrite replace_dash_app, replace_dash_zeros. f_equal.
  destruct (decide (z = 0)) as [->|Hne]; [done|].
  rewrite pretty_pos by lia. by apply replace_dash_pretty_N_go.
Qed.

Lemma strftime_iso_without_dashes (d : Date) :
  valid_date d → str_replace "-" "" (strftime_iso d) = yyyymmdd d.
Proof.
  intros (Hy & Hm & Hd). unfold strftime_iso, yyyymmdd.
  rewrite !replace_dash_app, !replace_dash_zfill by lia. done.
Qed.

Lemma assemble_orders_lookup iso (i : Z) rows (k : nat) row :
  rows !! k = Some row →
  assemble_orders iso i rows !! k
  = Some {| so_sql := row;
            order_id := "PO-" +:+ str_replace "-" "" iso +:+ "-"
                          +:+ format_05d (i + Z.of_nat k);
            so_order_date := iso;
            status := "PENDING" |}.
Proof.
  revert i k. induction rows as [|r rows IH]; intros i k Hk; [done|].
  destruct k as [|k]; simpl in *.
  - injection Hk as ->. by rewrite Z.add_0_r.
  - rewrite (IH (i + 1) k Hk).
    by replace (i + 1 + Z.of_nat k) with (i + Z.of_nat (S k)) by lia.
Qed.

Lemma length_assemble_orders iso i rows :
  length (assemble_orders iso i rows) = length rows.
Proof. revert i. induction rows as [|r rows IH]; intros i; simpl; [done|]. by rewrite IH. Qed.

Lemma string_app_inj (p a b : string) : p +:+ a = p +:+ b → a = b.
Proof. induction p as [|c p IH]; [done|]. rewrite !string_app_cons. intros [= H]. auto. Qed.

Lemma string_compare_app (p a b : string) :
  String.compare (p +:+ a) (p +:+ b) = String.compare a b.
Proof.
  induction p as [|c p IH]; [done|]. rewrite !string_app_cons. simpl.
  assert (Ascii.compare c c = Eq) as -> by (unfold Ascii.compare; apply N.compare_refl).
  done.
Qed.

Lemma assemble_orders_lookup_inv iso (i : Z) rows (k : nat) line :
  assemble_orders iso i rows !! k = Some line →
  ∃ row, rows !! k = Some row
    ∧ line = {| so_sql := row;
                order_id := "PO-" +:+ str_replace "-" "" iso +:+ "-"
                              +:+ format_05d (i + Z.of_nat k);
                so_order_date := iso;
                status := "PENDING" |}.
Proof.
  intros Hk.
  destruct (lookup_lt_is_Some_2 rows k) as [row Hrow].
  { rewrite <- (length_assemble_orders iso i). by apply lookup_lt_is_Some_1. }
  exists row. split; [done|].
  rewrite (assemble_orders_lookup iso i rows k row Hrow) in Hk. by injection Hk.
Qed.

Lemma assemble_orders_rows iso i rows : so_sql <$> assemble_orders iso i rows = rows.
Proof. revert i. induction rows as [|r rows IH]; intros i; csimpl; [done|]. by rewrite IH. Qed.

(** C9, amended.  The loop of task 7 that numbers the fetched rows keeps them
    in their order and, for a calculation date of the calendar, gives the
    line at position k (from 0) the order_id "PO-" + YYYYMMDD + "-" + the
    decimal numeral of k + 1 left-padded with zeros to five characters, the
    ISO calculation date as order_date and the status "PENDING".  The
    order_ids of a run are pairwise distinct whatever the number of lines.
    Up to the 99 999th line the numeral is made of exactly the five low
    decimal digits of the sequence number and the order_ids increase in
    string order. *)
Theorem order_ids_follow_the_sequence (d : Date) (rows : list SupplierOrderSql) :
  valid_date d →
  let lines := assemble_orders (strftime_iso d) 1 rows in
  so_sql <$> lines = rows
  ∧ (∀ (k : nat) line, lines !! k = Some line →
       order_id line
       = "PO-" +:+ yyyymmdd d +:+ "-" +:+ format_05d (Z.of_nat k + 1)
       ∧ so_order_date line = strftime_iso d
       ∧ status line = "PENDING"
       ∧ (Z.of_nat k + 1 < 100000 →
          format_05d (Z.of_nat k + 1)
          = fixed_digits 5 (Z.to_N (Z.of_nat k + 1)) ""))
  ∧ NoDup (order_id <$> lines)
  ∧ (∀ (j k : nat) a b,
       (j < k)%nat → Z.of_nat k + 1 < 100000 →
       lines !! j = Some a → lines !! k = Some b →
       String.ltb (order_id a) (order_id b) = true).
Proof.
  intros Hd lines. split; [apply assemble_orders_rows|].
  assert (∀ (k : nat) line, lines !! k = Some line →
            order_id line
            = "PO-" +:+ yyyymmdd d +:+ "-" +:+ format_05d (Z.of_nat k + 1)) as Hid.
  { intros k line Hk. apply assemble_orders_lookup_inv in Hk as (row & _ & ->).
    simpl. rewrite strftime_iso_without_dashes by done.
    by replace (1 + Z.of_nat k) with (Z.of_nat k + 1) by lia. }
  split; [|split].
  - intros k line Hk. split; [by apply Hid|].
    apply assemble_orders_lookup_inv in Hk as (row & _ & ->).
    repeat split. intros Hlt. apply format_05d_fixed. lia.
  - apply NoDup_alt. intros j k x Hj Hk.
    rewrite list_lookup_fmap in Hj, Hk.
    destruct (lines !! j) as [a|] eqn:Ha; [|done].
    destruct (lines !! k) as [b|] eqn:Hb; [|done].
    simpl in Hj, Hk. rewrite <- Hj in Hk. clear Hj.
    rewrite (Hid _ _ Ha), (Hid _ _ Hb) in Hk. injection Hk as Hk.
    do 3 apply string_app_inj in Hk.
    apply format_05d_inj in Hk; lia.
  - intros j k a b Hjk Hk Ha Hb.
    rewrite (Hid _ _ Ha), (Hid _ _ Hb). unfold String.ltb.
    rewrite !string_compare_app.
    apply (format_05d_ltb (Z.of_nat j + 1) (Z.of_nat k + 1)); lia.
Qed.

Lemma order_ids_follow_the_sequence_witness :
  valid_date Scenario.date
  ∧ order_id <$> assemble_orders (strftime_iso Scenario.date) 1
                   [Scenario.line_1; Scenario.line_1]
    = ["PO-20260115-00001"; "PO-20260115-00002"]
  ∧ NoDup (order_id <$> assemble_orders (strftime_iso Scenario.date) 1
                          [Scenario.line_1; Scenario.line_1]).
Proof.
  assert (valid_date Scenario.date) as Hd by (unfold valid_date; simpl; lia).
  split; [exact Hd|]. split; [reflexivity|].
  exact (proj1 (proj2 (proj2
           (order_ids_follow_the_sequence Scenario.date
              [Scenario.line_1; Scenario.line_1] Hd)))).
Defined.

(** C9, as stated, fails on a sequence of 100 000 lines: the last line gets
    a six-digit sequence number, and its order_id sorts before the one of
    the line that precedes it. *)
Lemma sequence_number_beyond_five_digits :
  let lines := assemble_orders (strftime_iso Scenario.date) 1
                 (replicate (Z.to_nat 100000) Scenario.line_1) in
  ∃ a b,
    lines !! Z.to_nat 99998 = Some a ∧ lines !! Z.to_nat 99999 = Some b
    ∧ order_id a = "PO-20260115-99999"
    ∧ order_id b = "PO-20260115-100000"
    ∧ String.ltb (order_id a) (order_id b) = false.
Proof.
  intros lines. eexists _, _.
  split; [|split].
  - apply assemble_orders_lookup, lookup_replicate_2. lia.
  - apply assemble_orders_lookup, lookup_replicate_2. lia.
  - cbn [order_id]. repeat split; vm_compute; reflexivity.
Qed.

(** ** DOUBLE arithmetic on integers of at most 53 bits *)

Lemma digits2_pos_log2 (m : positive) : Z.pos (digits2_pos m) = Z.log2 (Z.pos m) + 1.
Proof.
  assert (2 ^ (Z.pos (digits2_pos m) - 1) <= Z.pos m
          < 2 * 2 ^ (Z.pos (digits2_pos m) - 1)) as H.
  { induction m as [m IH|m IH|]; simpl digits2_pos; [| |simpl; lia].
    all: rewrite Pos2Z.inj_succ;
      replace (Z.succ (Z.pos (digits2_pos m)) - 1)
        with (Z.succ (Z.pos (digits2_pos m) - 1)) by lia;
      rewrite !Z.pow_succ_r by lia; lia. }
  rewrite <- Z.pow_succ_r in H by lia.
  symmetry. apply Z.add_move_r. apply Z.log2_unique; [lia|]. exact H.
Qed.

Lemma pos_iter_xO (m d : positive) : Z.pos (Pos.iter xO m d) = Z.pos m * 2 ^ Z.pos d.
Proof.
  induction d as [|d IH] using Pos.peano_ind.
  - simpl. lia.
  - rewrite Pos.iter_succ, Pos2Z.inj_succ, Z.pow_succ_r by lia.
    rewrite Pos2Z.inj_xO, IH. lia.
Qed.

Lemma iter_pos_nat {A} (f : A → A) (p : positive) (x : A) :
  SpecFloat.iter_pos f p x = Nat.iter (Pos.to_nat p) f x.
Proof.
  revert x. induction p as [p IH|p IH|]; intros x; simpl SpecFloat.iter_pos.
  - rewrite !IH. rewrite Pos2Nat.inj_xI.
    replace (S (2 * Pos.to_nat p)) with (Pos.to_nat p + (Pos.to_nat p + 1))%nat by lia.
    rewrite !Nat.iter_add. reflexivity.
  - rewrite !IH. rewrite Pos2Nat.inj_xO.
    replace (2 * Pos.to_nat p)%nat with (Pos.to_nat p + Pos.to_nat p)%nat by lia.
    rewrite Nat.iter_add. reflexivity.
  - reflexivity.
Qed.

Lemma shr_1_exact (x : Z) :
  0 <= x → shr_1 {| shr_m := 2 * x; shr_r := false; shr_s := false |}
           = {| shr_m := x; shr_r := false; shr_s := false |}.
Proof. intros Hx. destruct x as [|p|p]; [done|done|lia]. Qed.

Lemma shr_exact (x e n : Z) :
  0 <= x → 0 <= n →
  shr {| shr_m := x * 2 ^ n; shr_r := false; shr_s := false |} e n
  = ({| shr_m := x; shr_r := false; shr_s := false |}, e + n).
Proof.
  intros Hx Hn. destruct n as [|p|p]; [|clear Hn|lia].
  - simpl. by rewrite Z.mul_1_r, Z.add_0_r.
  - unfold shr. f_equal. rewrite iter_pos_nat.
    rewrite <- (positive_nat_Z p). induction (Pos.to_nat p) as [|n IH].
    + simpl. by rewrite Z.mul_1_r.
    + rewrite Nat2Z.inj_succ, Z.pow_succ_r by lia.
      rewrite Nat.iter_succ_r.
      replace (x * (2 * 2 ^ Z.of_nat n)) with (2 * (x * 2 ^ Z.of_nat n)) by lia.
      rewrite shr_1_exact by nia. exact IH.
Qed.

Lemma Zdigits2_log2 (z : Z) : 0 < z → Zdigits2 z = Z.log2 z + 1.
Proof. intros Hz. destruct z as [|p|p]; try lia. apply digits2_pos_log2. Qed.

Lemma log2_53_bits (x : Z) : 2 ^ 52 <= x < 2 ^ 53 → Z.log2 x = 52.
Proof. intros Hx. apply Z.log2_unique; [lia|]. exact Hx. Qed.

Lemma fexp_normal (e : Z) : -1021 <= e → fexp 53 1024 e = e - 53.
Proof. intros He. unfold fexp, emin. lia. Qed.

Lemma binary_round_aux_exact (s : bool) (x n e : Z) :
  2 ^ 52 <= x < 2 ^ 53 → 0 <= n → -1074 <= e + n <= 971 →
  binary_round_aux 53 1024 s (x * 2 ^ n) e loc_Exact
  = S754_finite s (Z.to_pos x) (e + n).
Proof.
  intros Hx Hn He.
  pose proof (log2_53_bits x Hx) as Hlog.
  assert (0 < 2 ^ n) as Hpow by (apply Z.pow_pos_nonneg; lia).
  unfold binary_round_aux, shr_fexp.
  rewrite Zdigits2_log2 by nia.
  rewrite Z.log2_mul_pow2 by lia. rewrite Hlog.
  rewrite fexp_normal by lia.
  replace (n + 52 + 1 + e - 53 - e) with n by lia.
  cbn [shr_record_of_loc]. rewrite shr_exact by lia.
  cbn [shr_m loc_of_shr_record round_nearest_even].
  rewrite Zdigits2_log2 by lia. rewrite Hlog.
  rewrite fexp_normal by lia.
  replace (52 + 1 + (e + n) - 53 - (e + n)) with 0 by lia.
  cbn [shr_record_of_loc shr shr_m].
  destruct x as [|p|p]; try lia.
  rewrite (proj2 (Z.leb_le _ _)) by lia. reflexivity.
Qed.

Lemma binary_round_aux_normal (s : bool) (x e : Z) :
  2 ^ 52 <= x < 2 ^ 53 → -1074 <= e <= 971 →
  binary_round_aux 53 1024 s x e loc_Exact = S754_finite s (Z.to_pos x) e.
Proof.
  intros Hx He. pose proof (binary_round_aux_exact s x 0 e Hx) as H.
  rewrite Z.pow_0_r, Z.mul_1_r, Z.add_0_r in H. apply H; lia.
Qed.

Lemma normal_mantissa (z : Z) :
  0 < z < 2 ^ 53 →
  0 <= Z.log2 z <= 52 ∧ 2 ^ 52 <= z * 2 ^ (52 - Z.log2 z) < 2 ^ 53.
Proof.
  intros Hz.
  assert (0 <= Z.log2 z < 53) as Hlog.
  { split; [apply Z.log2_nonneg|]. apply Z.log2_lt_pow2; lia. }
  pose proof (Z.log2_spec z ltac:(lia)) as Hspec.
  set (l := Z.log2 z) in *. split; [lia|].
  replace (2 ^ 52) with (2 ^ l * 2 ^ (52 - l))
    by (rewrite <- Z.pow_add_r by lia; f_equal; lia).
  replace (2 ^ 53) with (2 ^ Z.succ l * 2 ^ (52 - l))
    by (rewrite <- Z.pow_add_r by lia; f_equal; lia).
  assert (0 < 2 ^ (52 - l)) by (apply Z.pow_pos_nonneg; lia). nia.
Qed.

Lemma binary_round_integer (s : bool) (p : positive) :
  Z.pos p < 2 ^ 53 →
  binary_round 53 1024 s p 0
  = S754_finite s (Z.to_pos (Z.pos p * 2 ^ (52 - Z.log2 (Z.pos p))))
      (Z.log2 (Z.pos p) - 52).
Proof.
  intros Hp. destruct (normal_mantissa (Z.pos p)) as [Hlog Hx]; [lia|].
  set (l := Z.log2 (Z.pos p)) in *.
  unfold binary_round. rewrite digits2_pos_log2. fold l.
  rewrite fexp_normal by lia. unfold shl_align.
  destruct (l + 1 + 0 - 53 - 0) as [|d|d] eqn:Hd; try lia.
  - assert (l = 52) as Hl by lia. rewrite Hl in Hx |- *.
    rewrite Z.sub_diag, Z.pow_0_r, Z.mul_1_r in Hx |- *.
    rewrite binary_round_aux_normal by lia. reflexivity.
  - rewrite pos_iter_xO. replace (Z.pos d) with (52 - l) by lia.
    rewrite binary_round_aux_normal by lia. f_equal. lia.
Qed.

(** CAST(z AS DOUBLE) is exact below 2^53. *)
Lemma of_bigint_exact (z : Z) :
  Z.abs z < 2 ^ 53 → Double.of_bigint z = exact_double z.
Proof.
  intros Hz. unfold Double.of_bigint, binary_normalize, exact_double.
  destruct z as [|p|p]; [done| |].
  - by rewrite binary_round_integer.
  - rewrite binary_round_integer by lia. reflexivity.
Qed.

Lemma exact_double_pos (z : Z) :
  0 < z →
  exact_double z
  = S754_finite false (Z.to_pos (z * 2 ^ (52 - Z.log2 z))) (Z.log2 z - 52).
Proof. intros Hz. destruct z as [|p|p]; try lia. reflexivity. Qed.

Lemma mul_exact (x y : Z) :
  0 < x → 0 < y → x * y < 2 ^ 53 →
  Double.mul (exact_double x) (exact_double y) = exact_double (x * y).
Proof.
  intros Hx Hy Hxy.
  destruct (normal_mantissa x) as [Hlx Hmx]; [nia|].
  destruct (normal_mantissa y) as [Hly Hmy]; [nia|].
  destruct (normal_mantissa (x * y)) as [Hlp Hmp]; [nia|].
  pose proof (Z.log2_mul_below x y Hx Hy) as Hbelow.
  rewrite !exact_double_pos by nia.
  set (lx := Z.log2 x) in *. set (ly := Z.log2 y) in *.
  set (lp := Z.log2 (x * y)) in *.
  unfold Double.mul, SFmul. cbn [xorb].
  rewrite Pos2Z.inj_mul, !Z2Pos.id by lia.
  replace (x * 2 ^ (52 - lx) * (y * 2 ^ (52 - ly)))
    with (x * y * 2 ^ (52 - lp) * 2 ^ (52 - lx - ly + lp)).
  - rewrite binary_round_aux_exact by lia. f_equal. lia.
  - rewrite <- !Z.mul_assoc. f_equal.
    rewrite (Z.mul_comm (2 ^ (52 - lx))), <- !Z.mul_assoc. f_equal.
    rewrite <- !Z.pow_add_r by lia. f_equal. lia.
Qed.

Lemma exact_double_compare (x y : Z) :
  0 < x < 2 ^ 53 → 0 < y < 2 ^ 53 →
  SFcompare (exact_double x) (exact_double y) = Some (x ?= y).
Proof.
  intros Hx Hy.
  destruct (normal_mantissa x Hx) as [Hlx Hmx].
  destruct (normal_mantissa y Hy) as [Hly Hmy].
  rewrite !exact_double_pos by lia. cbn [SFcompare]. f_equal.
  destruct (Z.compare_spec (Z.log2 x - 52) (Z.log2 y - 52)) as [Heq|Hlt|Hgt].
  - assert (Z.log2 x = Z.log2 y) as Hl by lia. rewrite Hl in *.
    change (Pos.compare_cont Eq ?p ?q) with (Z.pos p ?= Z.pos q).
    rewrite !Z2Pos.id by lia.
    assert (0 < 2 ^ (52 - Z.log2 y)) as Hpow by (apply Z.pow_pos_nonneg; lia).
    destruct (Z.compare_spec (x * 2 ^ (52 - Z.log2 y)) (y * 2 ^ (52 - Z.log2 y)));
      destruct (Z.compare_spec x y); try reflexivity; nia.
  - symmetry. apply Z.compare_lt_iff. apply Z.log2_lt_cancel. lia.
  - symmetry. apply Z.compare_gt_iff. apply Z.log2_lt_cancel. lia.
Qed.

Lemma exact_double_ltb (x y : Z) :
  Z.abs x < 2 ^ 53 → 0 < y < 2 ^ 53 →
  Double.ltb (exact_double x) (exact_double y) = (x <? y).
Proof.
  intros Hx Hy. unfold Double.ltb, SFltb.
  destruct (Z.ltb_spec x y) as [Hlt|Hge].
  - destruct x as [|p|p].
    + rewrite (exact_double_pos y) by lia. reflexivity.
    + rewrite exact_double_compare by lia.
      by rewrite (proj2 (Z.compare_lt_iff _ _) Hlt).
    + rewrite (exact_double_pos y) by lia. reflexivity.
  - rewrite exact_double_compare by lia.
    destruct (Z.compare_spec x y); try reflexivity; lia.
Qed.

Lemma exact_double_not_nan (z : Z) : Double.is_nan (exact_double z) = false.
Proof. by destruct z. Qed.

Lemma new_location_compare (nb k : Z) :
  new_location nb k
  = if k =? 0 then loc_Exact else loc_Inexact (2 * k ?= nb).
Proof.
  unfold new_location, new_location_even, new_location_odd.
  destruct (Z.even nb) eqn:Heven; [reflexivity|].
  destruct (k =? 0); [reflexivity|]. f_equal.
  assert (Z.odd nb = true) as Hodd by (rewrite <- Z.negb_even, Heven; reflexivity).
  apply Z.odd_spec in Hodd as [j ->].
  destruct (Z.compare_spec (2 * k + 1) (2 * j + 1));
    destruct (Z.compare_spec (2 * k) (2 * j + 1)); try reflexivity; lia.
Qed.

Lemma shr_fexp_53_bits (q e : Z) (lz : location) :
  2 ^ 52 <= q < 2 ^ 53 → -1074 <= e →
  shr_fexp 53 1024 q e lz = (shr_record_of_loc q lz, e).
Proof.
  intros Hq He. unfold shr_fexp.
  rewrite Zdigits2_log2, (log2_53_bits q Hq), fexp_normal by lia.
  replace (52 + 1 + e - 53 - e) with 0 by lia. reflexivity.
Qed.

Lemma shr_fexp_54_bits (q e : Z) (lz : location) :
  2 ^ 53 <= q < 2 ^ 54 → -1075 <= e →
  shr_fexp 53 1024 q e lz = (shr_1 (shr_record_of_loc q lz), e + 1).
Proof.
  intros Hq He. unfold shr_fexp.
  assert (Z.log2 q = 53) as Hlog by (apply Z.log2_unique; lia).
  rewrite Zdigits2_log2, Hlog, fexp_normal by lia.
  replace (53 + 1 + e - 53 - e) with 1 by lia. reflexivity.
Qed.

Lemma shr_1_of_loc (q : Z) (lz : location) :
  1 < q →
  shr_m (shr_1 (shr_record_of_loc q lz)) = q / 2
  ∧ loc_of_shr_record (shr_1 (shr_record_of_loc q lz))
    = match Z.odd q, lz with
      | false, loc_Exact => loc_Exact
      | false, _ => loc_Inexact Lt
      | true, loc_Exact => loc_Inexact Eq
      | true, _ => loc_Inexact Gt
      end.
Proof.
  intros Hq. rewrite <- Z.div2_div.
  destruct q as [|[p|p|]|p]; try lia; by destruct lz as [|[]].
Qed.

Lemma of_loc_round_trip (q : Z) (lz : location) :
  shr_m (shr_record_of_loc q lz) = q
  ∧ loc_of_shr_record (shr_record_of_loc q lz) = lz.
Proof. by destruct lz as [|[]]. Qed.

(** The second normalisation of binary_round_aux, after rounding. *)
Lemma shr_fexp_rounded (m e : Z) :
  2 ^ 52 <= m <= 2 ^ 53 → -1074 <= e →
  shr_fexp 53 1024 m e loc_Exact
  = if m =? 2 ^ 53
    then ({| shr_m := 2 ^ 52; shr_r := false; shr_s := false |}, e + 1)
    else ({| shr_m := m; shr_r := false; shr_s := false |}, e).
Proof.
  intros Hm He. destruct (Z.eqb_spec m (2 ^ 53)) as [->|Hne].
  - rewrite shr_fexp_54_bits by lia. reflexivity.
  - rewrite shr_fexp_53_bits by lia. reflexivity.
Qed.

(** binary_round_aux on the quotient [N / B] of 53 or 54 bits, located by
    the remainder: the result is the mantissa [M] of 53 bits below the
    quotient, or the next one, at the exponent of [M]. *)
Lemma binary_round_aux_quotient (N B e : Z) :
  0 < B → 2 ^ 52 <= N / B < 2 ^ 54 → -1074 <= e <= 900 →
  ∃ M D t m,
    (t = 0 ∧ D = B ∨ t = 1 ∧ D = 2 * B)
    ∧ 2 ^ 52 <= M < 2 ^ 53
    ∧ M * D <= N < (M + 1) * D
    ∧ (m = M ∧ 2 * (N - M * D) <= D ∨ m = M + 1 ∧ M * D < N)
    ∧ binary_round_aux 53 1024 false (N / B) e (new_location B (N mod B))
      = if m =? 2 ^ 53
        then S754_finite false (Z.to_pos (2 ^ 52)) (e + t + 1)
        else S754_finite false (Z.to_pos m) (e + t).
Proof.
  intros HB Hq He.
  pose proof (Z.div_mod N B ltac:(lia)) as Hdm.
  pose proof (Z.mod_pos_bound N B HB) as Hr.
  set (q := N / B) in *. set (r := N mod B) in *.
  rewrite new_location_compare. unfold binary_round_aux.
  destruct (Z_lt_le_dec q (2 ^ 53)) as [H53|H54].
  - rewrite shr_fexp_53_bits by lia.
    destruct (of_loc_round_trip q (if r =? 0 then loc_Exact
                                   else loc_Inexact (2 * r ?= B))) as [-> ->].
    set (m := round_nearest_even q _).
    assert (m = q ∧ 2 * r <= B ∨ m = q + 1 ∧ 0 < r) as Hm.
    { subst m. destruct (Z.eqb_spec r 0) as [Hr0|Hr0]; [left; simpl; lia|].
      destruct (Z.compare_spec (2 * r) B); simpl;
        [destruct (Z.even q)| |]; lia. }
    exists q, B, 0, m. split; [lia|]. split; [lia|]. split; [nia|].
    split; [destruct Hm as [[-> ?]|[-> ?]]; [left|right]; nia|].
    rewrite shr_fexp_rounded by lia.
    destruct (Z.eqb_spec m (2 ^ 53)) as [Hm53|Hm53]; cbn [shr_m].
    + rewrite Z.add_0_r. change (2 ^ 52) with (Z.pos (Z.to_pos (2 ^ 52))) at 1.
      cbv iota beta. rewrite (proj2 (Z.leb_le _ _)) by lia. reflexivity.
    + rewrite Z.add_0_r. destruct m as [|p|p] eqn:Hmp; try lia.
      rewrite (proj2 (Z.leb_le _ _)) by lia. reflexivity.
  - rewrite shr_fexp_54_bits by lia.
    destruct (shr_1_of_loc q (if r =? 0 then loc_Exact
                              else loc_Inexact (2 * r ?= B))) as [-> ->]; [lia|].
    pose proof (Z.div_mod q 2 ltac:(lia)) as Hq2.
    pose proof (Z.mod_pos_bound q 2 ltac:(lia)) as Ho.
    rewrite Zodd_mod. 
    set (M := q / 2) in *. set (o := q mod 2) in *.
    set (m := round_nearest_even M _).
    assert (m = M ∧ 2 * (o * B + r) <= 2 * B ∨ m = M + 1 ∧ 0 < o * B + r) as Hm.
    { subst m. assert (o = 0 ∨ o = 1) as [Ho'|Ho'] by lia; rewrite Ho'; simpl.
      - destruct (Z.eqb_spec r 0) as [Hr0|Hr0]; [left; simpl; lia|].
        left. destruct (2 * r ?= B); simpl; lia.
      - destruct (Z.eqb_spec r 0) as [Hr0|Hr0].
        + simpl. destruct (Z.even M); lia.
        + right. destruct (2 * r ?= B); simpl; lia. }
    exists M, (2 * B), 1, m. split; [lia|]. split; [lia|]. split; [nia|].
    split; [destruct Hm as [[-> ?]|[-> ?]]; [left|right]; nia|].
    rewrite shr_fexp_rounded by lia.
    destruct (Z.eqb_spec m (2 ^ 53)) as [Hm53|Hm53]; cbn [shr_m].
    + change (2 ^ 52) with (Z.pos (Z.to_pos (2 ^ 52))) at 1.
      cbv iota beta. rewrite (proj2 (Z.leb_le _ _)) by lia. reflexivity.
    + destruct m as [|p|p] eqn:Hmp; try lia.
      rewrite (proj2 (Z.leb_le _ _)) by lia. reflexivity.
Qed.

Lemma SFdiv_core_binary_normal (A B ea eb : Z) :
  2 ^ 52 <= A < 2 ^ 53 → 2 ^ 52 <= B < 2 ^ 53 → -60 <= ea - eb <= 60 →
  SFdiv_core_binary 53 1024 A ea B eb
  = ((A * 2 ^ 53) / B, ea - eb - 53, new_location B ((A * 2 ^ 53) mod B)).
Proof.
  intros HA HB He. unfold SFdiv_core_binary.
  rewrite !Zdigits2_log2, (log2_53_bits A HA), (log2_53_bits B HB) by lia.
  rewrite fexp_normal by lia.
  replace (Z.min (52 + 1 + ea - (52 + 1 + eb) - 53) (ea - eb))
    with (ea - eb - 53) by lia.
  replace (ea - eb - (ea - eb - 53)) with 53 by lia.
  cbv zeta iota. rewrite Z.shiftl_mul_pow2 by lia.
  unfold Z.div, Z.modulo. by destruct (Z.div_eucl (A * 2 ^ 53) B).
Qed.

(** Rounding a quotient of integers to nearest keeps it between the
    integers around it. *)
Lemma rounded_quotient_bounds (a b c M m G : Z) :
  0 < a < 2 ^ 53 → 0 < b → (c - 1) * b < a <= c * b →
  2 ^ 52 <= M → 0 < G → M * b <= a * G < (M + 1) * b →
  (m = M ∧ 2 * (a * G - M * b) <= b ∨ m = M + 1 ∧ M * b < a * G) →
  (c - 1) * G < m <= c * G.
Proof.
  intros Ha Hb Hc HM HG HMb Hm.
  assert (a * G <= c * G * b) as Hup by nia.
  destruct Hm as [[-> Hhalf]|[-> Hgt]].
  - split; [|nia].
    destruct (Z_lt_le_dec ((c - 1) * G) M) as [|Hle]; [done|exfalso].
    assert (G <= a * G - (c - 1) * G * b) by nia.
    assert (2 * G <= b) by nia.
    assert (2 ^ 52 * (2 * G) <= (c - 1) * G * b) by nia.
    assert (2 ^ 53 <= (c - 1) * b) by nia. lia.
  - split; nia.
Qed.

(** The quotient of two integers as DOUBLE lies, like the exact quotient,
    between [c - 1] (excluded) and [c]. *)
Lemma div_exact_double (a b c : Z) :
  0 < a < 2 ^ 53 → 0 < b < 2 ^ 53 → (c - 1) * b < a <= c * b →
  ∃ m k, 0 <= k ∧ 2 ^ 52 <= m < 2 ^ 53 ∧ (c - 1) * 2 ^ k < m <= c * 2 ^ k
    ∧ Double.div (exact_double a) (exact_double b)
      = S754_finite false (Z.to_pos m) (- k).
Proof.
  intros Ha Hb Hc.
  destruct (normal_mantissa a Ha) as [Hla HA].
  destruct (normal_mantissa b Hb) as [Hlb HB].
  rewrite !exact_double_pos by lia.
  set (la := Z.log2 a) in *. set (lb := Z.log2 b) in *.
  unfold Double.div, Double.prec, Double.emax. cbn [SFdiv xorb].
  rewrite !Z2Pos.id by lia.
  rewrite SFdiv_core_binary_normal by lia.
  set (A := a * 2 ^ (52 - la)) in *. set (B := b * 2 ^ (52 - lb)) in *.
  destruct (binary_round_aux_quotient (A * 2 ^ 53) B (la - 52 - (lb - 52) - 53))
    as (M & D & t & m & Ht & HM & HMD & Hm & ->); [lia| |lia|].
  { split.
    - apply Z.div_le_lower_bound; [lia|]. nia.
    - apply Z.div_lt_upper_bound; [lia|]. nia. }
  set (k := 53 - la + lb - t).
  assert (0 <= k) as Hk by lia.
  assert (0 < 2 ^ k) as HG by (apply Z.pow_pos_nonneg; lia).
  assert (0 < 2 ^ (52 - lb + t)) as Hg by (apply Z.pow_pos_nonneg; lia).
  assert (A * 2 ^ 53 = a * 2 ^ k * 2 ^ (52 - lb + t)) as HN.
  { unfold A. rewrite <- !Z.mul_assoc. f_equal.
    rewrite <- !Z.pow_add_r by lia. f_equal. lia. }
  assert (D = b * 2 ^ (52 - lb + t)) as HD.
  { destruct Ht as [[-> ->]|[-> ->]].
    - unfold B. by rewrite Z.add_0_r.
    - unfold B. rewrite Z.pow_add_r by lia. change (2 ^ 1) with 2. lia. }
  rewrite HN, HD in HMD, Hm.
  set (G := 2 ^ k) in *. set (g := 2 ^ (52 - lb + t)) in *.
  assert (M * b <= a * G < (M + 1) * b) as HMb by nia.
  assert (m = M ∧ 2 * (a * G - M * b) <= b ∨ m = M + 1 ∧ M * b < a * G) as Hm'.
  { destruct Hm as [[-> ?]|[-> ?]]; [left|right]; split; try done; nia. }
  pose proof (rounded_quotient_bounds a b c M m G Ha ltac:(lia) Hc
                ltac:(lia) HG HMb Hm') as Hbounds.
  assert (c < 2 ^ 53) as Hc53 by nia.
  destruct (Z.eqb_spec m (2 ^ 53)) as [Hm53|Hm53].
  - assert (1 <= k) as Hk1.
    { destruct (decide (k = 0)) as [Hk0|]; [|lia].
      subst G. rewrite Hk0 in Hbounds. simpl in Hbounds. lia. }
    exists (2 ^ 52), (k - 1). split; [lia|]. split; [lia|]. split.
    + assert (G = 2 * 2 ^ (k - 1)) as HG2.
      { unfold G. rewrite <- Z.pow_succ_r by lia. f_equal. lia. }
      lia.
    + f_equal. lia.
  - exists m, k. split; [lia|]. split; [lia|]. split; [exact Hbounds|].
    f_equal. lia.
Qed.

Lemma ceiling_exact_double (m k c : Z) :
  2 ^ 52 <= m < 2 ^ 53 → 0 <= k → c < 2 ^ 53 →
  (c - 1) * 2 ^ k < m <= c * 2 ^ k →
  Double.ceiling (S754_finite false (Z.to_pos m) (- k)) = exact_double c.
Proof.
  intros Hm Hk Hc Hb. unfold Double.ceiling.
  destruct (Z.leb_spec 0 (- k)) as [Hk0|Hk0].
  - assert (k = 0) as -> by lia. simpl in Hb. assert (c = m) as -> by lia.
    rewrite exact_double_pos, (log2_53_bits m Hm) by lia.
    simpl (52 - 52). by rewrite Z.pow_0_r, Z.mul_1_r.
  - cbv zeta. rewrite Z.opp_involutive, Z2Pos.id by lia.
    assert (0 < 2 ^ k) as HG by (apply Z.pow_pos_nonneg; lia).
    pose proof (Z.div_mod m (2 ^ k) ltac:(lia)) as Hdm.
    pose proof (Z.mod_pos_bound m (2 ^ k) HG) as Hr.
    set (q := m / 2 ^ k) in *. set (r := m mod 2 ^ k) in *.
    change (binary_normalize Double.prec Double.emax ?z 0 false)
      with (Double.of_bigint z).
    assert ((if r =? 0 then q else q + 1) = c) as ->.
    { destruct (Z.eqb_spec r 0); nia. }
    apply of_bigint_exact. nia.
Qed.

(** The rounding to packs is exact. *)
Lemma rounded_to_packs_exact (nd pack c : Z) :
  0 < nd → 0 < pack → (c - 1) * pack < nd <= c * pack → c * pack < 2 ^ 53 →
  rounded_to_packs nd pack = exact_double (c * pack).
Proof.
  intros Hnd Hpack Hc Hlt. unfold rounded_to_packs.
  assert (0 < c) as Hc0 by nia.
  assert (pack < 2 ^ 53 ∧ c < 2 ^ 53) as [Hp53 Hc53] by nia.
  rewrite !of_bigint_exact by lia.
  destruct (div_exact_double nd pack c) as (m & k & Hk & Hm & Hb & ->);
    [lia|lia|done|].
  rewrite (ceiling_exact_double m k c) by (done || lia).
  apply mul_exact; lia.
Qed.

Lemma integer_value_exact_double (z : Z) :
  Z.abs z < 2 ^ 53 → Double.integer_value (exact_double z) = Some z.
Proof.
  intros Hz. destruct (decide (z = 0)) as [->|Hz0]; [done|].
  destruct (normal_mantissa (Z.abs z)) as [Hl Hm]; [lia|].
  assert (exact_double z
          = S754_finite (z <? 0)
              (Z.to_pos (Z.abs z * 2 ^ (52 - Z.log2 (Z.abs z))))
              (Z.log2 (Z.abs z) - 52)) as -> by (by destruct z).
  set (l := Z.log2 (Z.abs z)) in *. unfold Double.integer_value.
  rewrite Z2Pos.id by lia.
  assert (cond_Zopp (z <? 0) (Z.abs z) = z) as Hsign.
  { destruct (Z.ltb_spec z 0); simpl; lia. }
  destruct (Z.leb_spec 0 (l - 52)) as [He|He].
  - assert (l = 52) as -> by lia. simpl (52 - 52).
    rewrite !Z.pow_0_r, !Z.mul_1_r. by rewrite Hsign.
  - replace (- (l - 52)) with (52 - l) by lia.
    assert (0 < 2 ^ (52 - l)) by (apply Z.pow_pos_nonneg; lia).
    rewrite Z.mod_mul, Z.div_mul by lia. simpl. by rewrite Hsign.
Qed.

(** ** Order quantities *)

Lemma whole_packs_bounds (nd pack : Z) :
  0 < pack →
  (whole_packs nd pack - 1) * pack < nd <= whole_packs nd pack * pack.
Proof.
  intros Hp. unfold whole_packs.
  pose proof (Z.div_mod (nd + pack - 1) pack ltac:(lia)).
  pose proof (Z.mod_pos_bound (nd + pack - 1) pack Hp). nia.
Qed.

Lemma order_quantity_of_exact (nd pack min_qty : Z) :
  0 < nd → 0 < pack → pack * whole_packs nd pack < 2 ^ 53 →
  Z.abs min_qty < 2 ^ 53 →
  order_quantity_of nd pack min_qty
  = Some (Double.of_bigint (Z.max min_qty (pack * whole_packs nd pack))).
Proof.
  intros Hnd Hpack Hlt Hmin.
  pose proof (whole_packs_bounds nd pack Hpack) as Hc.
  set (c := whole_packs nd pack) in *.
  assert (0 < c) by nia.
  unfold order_quantity_of.
  rewrite (rounded_to_packs_exact nd pack c) by (done || lia).
  rewrite !of_bigint_exact by lia.
  unfold Double.greatest. rewrite !exact_double_not_nan. simpl.
  rewrite exact_double_ltb by nia. f_equal.
  destruct (Z.ltb_spec min_qty (c * pack)); f_equal; lia.
Qed.

Lemma SFcompare_refl (x : spec_float) :
  Double.is_nan x = false → SFcompare x x = Some Eq.
Proof.
  destruct x as [s|s| |s m e]; try done; intros _; simpl.
  - by destruct s.
  - rewrite Z.compare_refl, Pos.compare_cont_refl. by destruct s.
Qed.

Lemma greatest_bounds (x y q : Double.double) :
  Double.greatest x y = Some q →
  Double.leb x q = true ∧ (q = x ∨ q = y).
Proof.
  unfold Double.greatest.
  destruct (Double.is_nan x) eqn:Hx; [done|]. destruct (Double.is_nan y); [done|].
  simpl. intros [= <-]. unfold Double.leb, SFleb, Double.ltb, SFltb.
  destruct (SFcompare x y) as [[]|] eqn:Hc;
    rewrite ?Hc, ?(SFcompare_refl x Hx); auto.
Qed.

Lemma window_order_large_minimum :
  window_order Scenario.cat_large_minimum Scenario.window_large_minimum.
Proof. split; [done|]. repeat constructor. Qed.

Lemma supplier_orders_sql_large_minimum :
  supplier_orders_sql Scenario.db_large_minimum Scenario.date
    (Some [Scenario.line_large_minimum]).
Proof.
  exists Scenario.window_large_minimum. split; [exact window_order_large_minimum|].
  assert (supplier_order_rows Scenario.db_large_minimum Scenario.date
            Scenario.window_large_minimum
          = Some [Scenario.line_large_minimum]) as -> by (vm_compute; reflexivity).
  eexists. split; [reflexivity|]. split; [done|]. repeat constructor.
Qed.

(** C2 as stated fails.  The only offer for SKU 1 sells packs of 5 with a
    minimum order of 48; the net demand 45 is nine packs, below the minimum,
    and the line emitted orders 48 units, which is not a whole number of
    packs. *)
Lemma minimum_above_rounded_quantity :
  supplier_orders_sql Scenario.db_large_minimum Scenario.date
    (Some [Scenario.line_large_minimum])
  ∧ so_pack_size Scenario.line_large_minimum = 5
  ∧ so_net_demand Scenario.line_large_minimum = 45
  ∧ so_min_order_qty Scenario.line_large_minimum = 48
  ∧ Double.integer_value (order_quantity Scenario.line_large_minimum) = Some 48
  ∧ 48 mod so_pack_size Scenario.line_large_minimum = 3
  ∧ ¬ (∀ db date out line,
         supplier_orders_sql db date (Some out) → line ∈ out →
         0 < so_pack_size line →
         ∃ k, Double.integer_value (order_quantity line)
              = Some (k * so_pack_size line)).
Proof.
  pose proof supplier_orders_sql_large_minimum as Hsql.
  split; [exact Hsql|]. do 5 (split; [reflexivity|]).
  intros Hall.
  destruct (Hall _ _ _ Scenario.line_large_minimum Hsql)
    as [k Hk]; [apply list_elem_of_here|reflexivity|].
  change (Some 48 = Some (k * 5)) in Hk. injection Hk as Hk. lia.
Qed.

(** C2, amended.  Every line of an answer to supplier_orders_sql has a
    positive net demand and the order_quantity GREATEST(min_order_qty,
    CEILING(net_demand / pack_size) * pack_size) of its offer, computed in
    DOUBLE: it is at least min_order_qty, and it is min_order_qty itself or
    the quantity rounded to packs.  For a positive pack_size and quantities
    below 2^53 the DOUBLE arithmetic is exact: order_quantity is the integer
    max(min_order_qty, pack_size * ceil(net_demand / pack_size)), and it is a
    multiple of pack_size exactly when min_order_qty does not exceed the
    rounded quantity or is itself a multiple of pack_size. *)
Theorem order_quantity_reaches_minimum (db : Db) (date : Date)
    (out : list SupplierOrderSql) (line : SupplierOrderSql) :
  supplier_orders_sql db date (Some out) →
  line ∈ out →
  let nd := so_net_demand line in
  let pack := so_pack_size line in
  let min_qty := so_min_order_qty line in
  let q := order_quantity line in
  0 < nd
  ∧ order_quantity_of nd pack min_qty = Some q
  ∧ Double.leb (Double.of_bigint min_qty) q = true
  ∧ (q = Double.of_bigint min_qty ∨ q = rounded_to_packs nd pack)
  ∧ (0 < pack → pack * whole_packs nd pack < 2 ^ 53 → Z.abs min_qty < 2 ^ 53 →
     let n := Z.max min_qty (pack * whole_packs nd pack) in
     Double.integer_value q = Some n
     ∧ min_qty <= n
     ∧ (n mod pack = 0 ↔
        min_qty <= pack * whole_packs nd pack ∨ min_qty mod pack = 0)).
Proof.
  intros Hsql Hline nd pack min_qty q.
  destruct (supplier_orders_sql_elem_of db date out line Hsql Hline)
    as (sorted & ndr & rs & _ & _ & _ & _ & _ & Hpos & Hrow).
  destruct (supplier_order_row_fields date ndr rs line Hrow)
    as (_ & Hnd & Hpack & Hmin & _ & Hq & _).
  rewrite <- Hnd, <- Hpack, <- Hmin in Hq. fold nd pack min_qty q in Hq.
  assert (0 < nd) as Hnd0 by (unfold nd; by rewrite Hnd).
  split; [exact Hnd0|]. split; [exact Hq|].
  destruct (greatest_bounds _ _ _ Hq) as [Hleb Hor].
  split; [exact Hleb|]. split; [exact Hor|].
  intros Hp H53 Hm n.
  rewrite order_quantity_of_exact in Hq by done. injection Hq as Hq.
  fold n in Hq. split; [|split; [lia|]].
  - rewrite <- Hq, of_bigint_exact by lia. apply integer_value_exact_double. lia.
  - split.
    + intros Hmod. destruct (Z_le_gt_dec min_qty (pack * whole_packs nd pack));
        [by left|right]. by replace min_qty with n by lia.
    + intros [Hle|Hmod].
      * replace n with (whole_packs nd pack * pack) by lia.
        apply Z.mod_mul. lia.
      * destruct (Z_le_gt_dec min_qty (pack * whole_packs nd pack)).
        -- replace n with (whole_packs nd pack * pack) by lia.
           apply Z.mod_mul. lia.
        -- by replace n with min_qty by lia.
Qed.

Lemma order_quantity_reaches_minimum_witness :
  supplier_orders_sql Scenario.gaps_db Scenario.date (Some [Scenario.line_1])
  ∧ Scenario.line_1 ∈ [Scenario.line_1]
  ∧ Double.leb (Double.of_bigint (so_min_order_qty Scenario.line_1))
      (order_quantity Scenario.line_1) = true
  ∧ Double.integer_value (order_quantity Scenario.line_1) = Some 50.
Proof.
  assert (Scenario.line_1 ∈ [Scenario.line_1]) as Hin by apply list_elem_of_here.
  split; [exact supplier_orders_sql_gaps|]. split; [exact Hin|].
  destruct (order_quantity_reaches_minimum _ _ _ _ supplier_orders_sql_gaps Hin)
    as (_ & _ & Hleb & _ & Hexact).
  split; [exact Hleb|]. apply Hexact; reflexivity.
Defined.

(** ** Conservation in the statements *)

Lemma sum_bigint_app l1 l2 : sum_bigint (l1 ++ l2) = sum_bigint l1 + sum_bigint l2.
Proof. induction l1 as [|x l1 IH]; simpl; [done|]. rewrite IH. lia. Qed.

Lemma sum_bigint_Permutation l1 l2 : l1 ≡ₚ l2 → sum_bigint l1 = sum_bigint l2.
Proof. induction 1; simpl; lia. Qed.

Lemma sum_bigint_ones {X} (l : list X) :
  sum_bigint ((λ _, 1) <$> l) = Z.of_nat (length l).
Proof. induction l as [|x l IH]; [done|]. csimpl. rewrite IH. lia. Qed.

Lemma sum_bigint_indicator {K} `{EqDecision K} (a : K) (v : Z) (ks : list K) :
  NoDup ks → a ∈ ks →
  sum_bigint ((λ k, if decide (a = k) then v else 0) <$> ks) = v.
Proof.
  induction 1 as [|k ks Hk Hnd IH]; intros Ha; [by apply elem_of_nil in Ha|].
  csimpl. destruct (decide (a = k)) as [->|Hne].
  - assert (sum_bigint ((λ k0, if decide (k = k0) then v else 0) <$> ks) = 0) as ->; [|lia].
    clear IH Ha Hnd. induction ks as [|k' ks IH]; [done|]. csimpl.
    rewrite decide_False by (intros ->; apply Hk; left).
    rewrite IH; [done|]. intros ?; apply Hk; by right.
  - rewrite IH; [lia|]. apply elem_of_cons in Ha as [?|?]; done.
Qed.

(** The groups of a GROUP BY hold every row once. *)
Lemma sum_group_by {X K} `{EqDecision K} (key : X → K) (f : X → Z) (l : list X) :
  sum_bigint ((λ kg, sum_bigint (f <$> kg.2)) <$> group_by key l)
  = sum_bigint (f <$> l).
Proof.
  unfold group_by. rewrite <- list_fmap_compose.
  assert (∀ ks, NoDup ks → (∀ x, x ∈ l → key x ∈ ks) →
            sum_bigint ((λ k, sum_bigint (f <$> filter (λ r, key r = k) l)) <$> ks)
            = sum_bigint (f <$> l)) as Hgen.
  { intros ks Hnd. induction l as [|x l IH]; intros Hin.
    - clear Hin Hnd. induction ks as [|k ks IH]; [done|].
      rewrite fmap_cons. change (sum_bigint (?a :: ?b)) with (a + sum_bigint b).
      rewrite IH. reflexivity.
    - assert (sum_bigint
                ((λ k, sum_bigint (f <$> filter (λ r, key r = k) (x :: l))) <$> ks)
              = sum_bigint ((λ k, if decide (key x = k) then f x else 0) <$> ks)
                + sum_bigint
                    ((λ k, sum_bigint (f <$> filter (λ r, key r = k) l)) <$> ks))
        as ->.
      { clear IH Hin Hnd. induction ks as [|k ks IH]; [done|].
        rewrite !fmap_cons.
        change (sum_bigint (?a :: ?b)) with (a + sum_bigint b).
        rewrite IH, filter_cons. destruct (decide (key x = k)); csimpl; lia. }
      rewrite sum_bigint_indicator by (done || apply Hin; left).
      rewrite IH by (intros y Hy; apply Hin; by right). reflexivity. }
  apply Hgen; [apply NoDup_remove_dups|].
  intros x Hx. apply elem_of_remove_dups, list_elem_of_fmap. eauto.
Qed.

Lemma bool_filter_nil_existsb {X} (f : X → bool) (l : list X) :
  List.filter f l = [] ↔ existsb f l = false.
Proof.
  induction l as [|x l IH]; [done|]. simpl. destruct (f x); simpl; [|done].
  split; discriminate.
Qed.

Lemma bool_filter_key_unique {X} (g : X → Z) (a : Z) (l : list X) :
  NoDup (g <$> l) →
  (length (List.filter (λ b, bool_decide (a = g b)) l) <= 1)%nat.
Proof.
  induction l as [|x l IH]; csimpl; [lia|]. intros Hnd.
  apply NoDup_cons in Hnd as [Hx Hnd]. specialize (IH Hnd).
  destruct (bool_decide_reflect (a = g x)) as [->|Hne]; [|done]. simpl.
  assert (List.filter (λ b, bool_decide (g x = g b)) l = []) as ->; [|simpl; lia].
  apply bool_filter_nil_existsb. apply not_true_iff_false. intros Hex.
  apply existsb_exists in Hex as (y & Hy & Heq).
  apply bool_decide_eq_true in Heq. apply Hx. rewrite Heq.
  apply list_elem_of_fmap. exists y. split; [done|]. by apply list_elem_of_In.
Qed.

(** A join on a key that is unique on the right keeps or drops each row of
    the left, and repeats none. *)
Lemma inner_join_fst_unique {X Y} (on : X → Y → bool) (l : list X) (r : list Y) :
  (∀ a, a ∈ l → (length (List.filter (on a) r) <= 1)%nat) →
  fst <$> inner_join on l r = List.filter (λ a, existsb (on a) r) l.
Proof.
  unfold inner_join. induction l as [|a l IH]; intros Hu; [done|].
  csimpl. rewrite fmap_app, IH by (intros; apply Hu; by right).
  specialize (Hu a ltac:(left)).
  destruct (List.filter (on a) r) as [|b [|b' F]] eqn:HF.
  - apply bool_filter_nil_existsb in HF as ->. done.
  - assert (existsb (on a) r = true) as ->; [|done].
    apply not_false_iff_true. intros Hex.
    apply bool_filter_nil_existsb in Hex. congruence.
  - simpl in Hu. lia.
Qed.

Lemma bool_filter_fmap {X Y} (f : Y → bool) (g : X → Y) (l : list X) :
  List.filter f (g <$> l) = g <$> List.filter (λ x, f (g x)) l.
Proof.
  induction l as [|x l IH]; [done|]. csimpl. destruct (f (g x)); csimpl; by rewrite IH.
Qed.

Lemma bool_filter_filter {X} (f g : X → bool) (l : list X) :
  List.filter f (List.filter g l) = List.filter (λ x, g x && f x) l.
Proof.
  induction l as [|x l IH]; [done|]. simpl.
  destruct (g x); simpl; [destruct (f x)|]; by rewrite IH.
Qed.

(** With sku_id a key of products and warehouse_id a key of warehouses, the
    join of aggregate_sql keeps each order line that has both references
    once, in the order of the lines. *)
Lemma joined_orders_lines (db : Db) :
  NoDup (p_sku_id <$> products (catalog db)) →
  NoDup (w_warehouse_id <$> warehouses (catalog db)) →
  (λ opw, opw.1.1) <$> joined_orders db
  = List.filter (has_reference (catalog db)) (orders db).
Proof.
  intros Hp Hw. unfold joined_orders.
  change (λ opw : OrderLine * Product * Warehouse, opw.1.1)
    with (@fst OrderLine Product ∘ @fst (OrderLine * Product) Warehouse).
  rewrite (list_fmap_compose fst fst).
  rewrite inner_join_fst_unique
    by (intros; by apply (bool_filter_key_unique w_warehouse_id)).
  set (fw := λ o, existsb (λ w, bool_decide (o_warehouse_id o = w_warehouse_id w))
                    (warehouses (catalog db))).
  set (L := inner_join _ (orders db) _).
  transitivity (List.filter fw (fst <$> L)).
  { symmetry. apply (bool_filter_fmap fw fst). }
  unfold L. rewrite inner_join_fst_unique
    by (intros; by apply (bool_filter_key_unique p_sku_id)).
  rewrite bool_filter_filter. reflexivity.
Qed.

(** X1.  The aggregation conserves quantities and lines: over the rows of
    an answer to aggregate_sql the values of total_quantity add up to the
    quantities of the joined order lines, and the values of order_count to
    the number of these lines.  With sku_id unique in products and
    warehouse_id unique in warehouses these are the quantities and the number
    of the order lines that have their product and their warehouse. *)
Theorem aggregation_conserves_quantities (db : Db) (out : list AggregatedDemand) :
  aggregate_sql db out →
  sum_bigint (total_quantity <$> out)
  = sum_bigint ((λ opw, o_quantity opw.1.1) <$> joined_orders db)
  ∧ sum_bigint (order_count <$> out) = Z.of_nat (length (joined_orders db))
  ∧ (NoDup (p_sku_id <$> products (catalog db)) →
     NoDup (w_warehouse_id <$> warehouses (catalog db)) →
     sum_bigint (total_quantity <$> out)
     = sum_bigint (o_quantity <$> List.filter (has_reference (catalog db)) (orders db))
     ∧ sum_bigint (order_count <$> out)
       = Z.of_nat (length (List.filter (has_reference (catalog db)) (orders db)))).
Proof.
  intros [Hperm _].
  assert (sum_bigint (total_quantity <$> out)
          = sum_bigint ((λ opw, o_quantity opw.1.1) <$> joined_orders db)) as Hq.
  { rewrite <- (sum_bigint_Permutation _ _ (fmap_Permutation total_quantity _ _ Hperm)).
    unfold aggregate_rows, order_groups. rewrite <- list_fmap_compose.
    apply (sum_group_by demand_key (λ opw, o_quantity opw.1.1)). }
  assert (sum_bigint (order_count <$> out) = Z.of_nat (length (joined_orders db)))
    as Hc.
  { rewrite <- (sum_bigint_Permutation _ _ (fmap_Permutation order_count _ _ Hperm)).
    unfold aggregate_rows, order_groups. rewrite <- list_fmap_compose.
    rewrite <- sum_bigint_ones.
    rewrite <- (sum_group_by demand_key (λ _, 1) (joined_orders db)).
    f_equal. apply list_fmap_ext. intros i [k g] _. simpl.
    by rewrite sum_bigint_ones. }
  split; [exact Hq|]. split; [exact Hc|]. intros Hp Hw.
  rewrite Hq, Hc. rewrite <- (joined_orders_lines db Hp Hw).
  rewrite <- list_fmap_compose, length_fmap. done.
Qed.

(** *** The order of VARCHAR values *)

Lemma string_compare_refl (s : string) : String.compare s s = Eq.
Proof.
  induction s as [|c s IH]; [done|]. simpl.
  assert (Ascii.compare c c = Eq) as -> by (unfold Ascii.compare; apply N.compare_refl).
  exact IH.
Qed.

Lemma string_compare_lt_trans (a b c : string) :
  String.compare a b = Lt → String.compare b c = Lt → String.compare a c = Lt.
Proof.
  revert b c. induction a as [|x a IH]; intros [|y b] [|z c]; simpl; try done.
  unfold Ascii.compare.
  destruct (N.compare_spec (N_of_ascii x) (N_of_ascii y)) as [Hxy|Hxy|Hxy];
    destruct (N.compare_spec (N_of_ascii y) (N_of_ascii z)) as [Hyz|Hyz|Hyz];
    try done; intros H1 H2.
  - rewrite Hxy, Hyz, N.compare_refl. by apply (IH b c).
  - by rewrite Hxy, (proj2 (N.compare_lt_iff _ _) Hyz).
  - by rewrite <- Hyz, (proj2 (N.compare_lt_iff _ _) Hxy).
  - by rewrite (proj2 (N.compare_lt_iff _ _) (N.lt_trans _ _ _ Hxy Hyz)).
Qed.

(** [x] is not above [m], then [m] is below [y]: [y] is not below [x]. *)
Lemma string_ltb_false_lt (m x y : string) :
  String.ltb m x = false → String.ltb m y = true → String.ltb y x = false.
Proof.
  unfold String.ltb. intros Hmx Hmy.
  destruct (String.compare m y) eqn:Hc; try done.
  destruct (String.compare y x) eqn:Hyx; try done.
  by rewrite (string_compare_lt_trans m y x Hc Hyx) in Hmx.
Qed.

Lemma string_ltb_false_trans (a b c : string) :
  String.ltb a b = false → String.ltb b c = false → String.ltb a c = false.
Proof.
  unfold String.ltb. intros Hab Hbc.
  destruct (String.compare a c) eqn:Hac; try done.
  destruct (String.compare a b) eqn:Hab'; try done.
  - apply String.compare_eq_iff in Hab' as ->. by rewrite Hac in Hbc.
  - destruct (String.compare b c) eqn:Hbc'; try done.
    + apply String.compare_eq_iff in Hbc' as ->. congruence.
    + rewrite String.compare_antisym in Hab', Hbc'.
      destruct (String.compare b a) eqn:Hba; try done.
      destruct (String.compare c b) eqn:Hcb; try done.
      pose proof (string_compare_lt_trans c b a Hcb Hba) as Hca.
      rewrite String.compare_antisym, Hca in Hac. done.
Qed.

(** MAX over VARCHAR: a value of the column, and none is above it. *)
Lemma max_varchar_spec (l : list string) :
  match max_varchar l with
  | None => l = []
  | Some m => m ∈ l ∧ ∀ x, x ∈ l → String.ltb m x = false
  end.
Proof.
  destruct l as [|s l]; [done|]. simpl.
  assert (∀ seen m, m ∈ seen → (∀ x, x ∈ seen → String.ltb m x = false) →
            let r := foldl (λ m x, if String.ltb m x then x else m) m l in
            r ∈ seen ++ l ∧ ∀ x, x ∈ seen ++ l → String.ltb r x = false) as Hgen.
  { induction l as [|y l IH]; intros seen m Hm Hmax; simpl.
    - by rewrite app_nil_r.
    - replace (seen ++ y :: l) with ((seen ++ [y]) ++ l) by by rewrite <- app_assoc.
      apply IH.
      + destruct (String.ltb m y); apply elem_of_app; [right; left|by left].
      + intros x Hx. apply elem_of_app in Hx as [Hx|Hx%list_elem_of_singleton].
        * destruct (String.ltb m y) eqn:Hmy; [|by apply Hmax].
          apply (string_ltb_false_lt m); [by apply Hmax|done].
        * subst x. destruct (String.ltb m y) eqn:Hmy; [|done].
          unfold String.ltb. by rewrite string_compare_refl. }
  apply (Hgen [s] s); [left|].
  intros x Hx%list_elem_of_singleton. subst x.
  unfold String.ltb. by rewrite string_compare_refl.
Qed.

(** X2.  In an answer to aggregate_sql no two rows have the same group key;
    every row counts at least one order line, and its order_date is the date
    of a joined line of its group, which no date of the group exceeds in the
    order of VARCHAR values. *)
Theorem aggregated_rows_are_the_groups (db : Db) (out : list AggregatedDemand) :
  aggregate_sql db out →
  NoDup (agg_key <$> out)
  ∧ ∀ r, r ∈ out →
      1 <= order_count r
      ∧ (∃ o p w, (o, p, w) ∈ joined_orders db
                  ∧ demand_key (o, p, w) = agg_key r
                  ∧ order_date r = Some (o_order_date o))
      ∧ (∀ o p w d, (o, p, w) ∈ joined_orders db →
           demand_key (o, p, w) = agg_key r →
           order_date r = Some d → String.ltb d (o_order_date o) = false).
Proof.
  intros [Hperm _]. split.
  - rewrite <- Hperm. unfold aggregate_rows, order_groups.
    rewrite <- list_fmap_compose. apply group_by_keys_NoDup.
  - intros r Hr. rewrite <- Hperm in Hr. unfold aggregate_rows in Hr.
    apply list_elem_of_fmap in Hr as ([k g] & -> & Hkg). simpl.
    apply elem_of_order_groups in Hkg as [(opw & Hopw & Hk) Hg].
    assert (opw ∈ g) as Hin by (rewrite Hg; by apply list_elem_of_filter).
    pose proof (max_varchar_spec ((λ opw, o_order_date opw.1.1) <$> g)) as Hmax.
    destruct (max_varchar _) as [m|] eqn:Hm.
    + destruct Hmax as [Hmin Hmax]. split; [|split].
      * destruct g; [by apply elem_of_nil in Hin|]. simpl. lia.
      * apply list_elem_of_fmap in Hmin as ([[o p] w] & -> & Hg').
        rewrite Hg in Hg'. apply list_elem_of_filter in Hg' as [Hk' Hj].
        exists o, p, w. done.
      * intros o p w d Hj Hk' [= <-]. apply Hmax.
        apply list_elem_of_fmap. exists (o, p, w). split; [done|].
        rewrite Hg. by apply list_elem_of_filter.
    + apply fmap_nil_inv in Hmax. rewrite Hmax in Hin. by apply elem_of_nil in Hin.
Qed.

(** X3.  net_demand_sql neither drops nor invents a group: every row of
    aggregate_sql has a row of net_demand_sql with its key and with its
    total_quantity as aggregated_orders_qty, and every row of net_demand_sql
    has such a row of aggregate_sql. *)
Theorem net_demand_rows_match_aggregation (db : Db) (date : Date)
    (agg_out : list AggregatedDemand) (nd_out : list NetDemandSql) :
  aggregate_sql db agg_out →
  net_demand_sql db date nd_out →
  (∀ r, r ∈ agg_out →
     ∃ n, n ∈ nd_out ∧ nd_key n = agg_key r
          ∧ aggregated_orders_qty n = total_quantity r)
  ∧ (∀ n, n ∈ nd_out →
       ∃ r, r ∈ agg_out ∧ nd_key n = agg_key r
            ∧ aggregated_orders_qty n = total_quantity r).
Proof.
  intros [Hagg _] [Hnd _]. split.
  - intros r Hr. rewrite <- Hagg in Hr. unfold aggregate_rows in Hr.
    apply list_elem_of_fmap in Hr as ([k g] & -> & Hkg). simpl.
    assert ({| ao_key := k; ao_total_quantity := group_quantity g |}
              ∈ aggregated_orders db) as Hao.
    { unfold aggregated_orders. apply list_elem_of_fmap. by exists (k, g). }
    destruct (left_join_keeps
                (λ ao ss, bool_decide (sku_id (ao_key ao) = ssc_sku_id ss)
                          && bool_decide (warehouse_id (ao_key ao) = ssc_warehouse_id ss))
                _ (safety_stock_combined (catalog db)) _ Hao) as [ss Hss].
    destruct (left_join_keeps
                (λ aoss inv,
                   bool_decide (sku_code (ao_key aoss.1) = inv_sku_code inv)
                   && bool_decide (warehouse_code (ao_key aoss.1) = inv_warehouse_code inv))
                _ (inventory_data db date) _ Hss) as [inv Hinv].
    exists (net_demand_row
              ({| ao_key := k; ao_total_quantity := group_quantity g |}, ss, inv)).
    split; [|done]. rewrite <- Hnd. unfold net_demand_rows.
    apply list_elem_of_fmap. eexists. split; [done|]. exact Hinv.
  - intros n Hn. rewrite <- Hnd in Hn. unfold net_demand_rows in Hn.
    apply list_elem_of_fmap in Hn as ([[ao ss] inv] & -> & Hrow).
    apply elem_of_left_join in Hrow as [Hrow _].
    apply elem_of_left_join in Hrow as [Hao _].
    unfold aggregated_orders in Hao.
    apply list_elem_of_fmap in Hao as ([k g] & -> & Hkg). simpl.
    eexists. split.
    + rewrite <- Hagg. unfold aggregate_rows. apply list_elem_of_fmap.
      exists (k, g). split; [reflexivity|done].
    + done.
Qed.

(** X4.  Every line of supplier_orders_sql carries the supplier, the price
    and the lead time of one active offer for its SKU, and no active offer
    for that SKU has a lower unit price. *)
Theorem cheapest_active_offer_is_selected (db : Db) (date : Date)
    (out : list SupplierOrderSql) (line : SupplierOrderSql) :
  supplier_orders_sql db date (Some out) →
  line ∈ out →
  ∃ sp s,
    (sp, s) ∈ active_offers (catalog db)
    ∧ sp_sku_id sp = sku_id (so_key line)
    ∧ so_supplier_id line = sp_supplier_id sp
    ∧ so_supplier_code line = s_supplier_code s
    ∧ so_supplier_name line = s_name s
    ∧ so_unit_price line = sp_unit_price sp
    ∧ so_lead_time_days line = sp_lead_time_days sp
    ∧ ∀ sp' s', (sp', s') ∈ active_offers (catalog db) →
        sp_sku_id sp' = sku_id (so_key line) →
        so_unit_price line <= sp_unit_price sp'.
Proof.
  intros Hsql Hline.
  destruct (supplier_orders_sql_elem_of db date out line Hsql Hline)
    as (sorted & nd & rs & Hw & _ & Hrs & Hsku & Hrank & _ & Hrow).
  apply elem_of_ranked_suppliers in Hrs as (sp & s & k & Hk & ->).
  simpl in Hrank, Hsku. subst k.
  destruct Hw as [Hperm Hsorted].
  assert (Reflexive by_unit_price_asc) as Hrefl
    by (intros x; unfold by_unit_price_asc; lia).
  destruct (row_number_from_first (λ sps : SupplierProduct * Supplier, sp_sku_id sps.1)
              by_unit_price_asc [] sorted (sp, s) Hsorted Hk) as [_ Hmin].
  unfold supplier_order_row in Hrow.
  destruct (order_quantity_of _ _ _) as [q|]; [|done].
  injection Hrow as <-. simpl.
  exists sp, s. split; [rewrite Hperm; by apply (row_number_from_sound _ _ _ _ _ Hk)|].
  repeat split; try done.
  intros sp' s' Hin Hsku'. rewrite Hperm in Hin.
  apply (Hmin (sp', s') Hin). simpl. congruence.
Qed.

Lemma bool_filter_pair_unique {X K1 K2} `{EqDecision K1} `{EqDecision K2}
    (g1 : X → K1) (g2 : X → K2) (a1 : K1) (a2 : K2) (l : list X) :
  NoDup ((λ b, (g1 b, g2 b)) <$> l) →
  (length (List.filter (λ b, bool_decide (a1 = g1 b) && bool_decide (a2 = g2 b)) l)
   <= 1)%nat.
Proof.
  induction l as [|x l IH]; csimpl; [lia|]. intros Hnd.
  apply NoDup_cons in Hnd as [Hx Hnd]. specialize (IH Hnd).
  destruct (bool_decide_reflect (a1 = g1 x)) as [->|Hne]; [|done].
  destruct (bool_decide_reflect (a2 = g2 x)) as [->|Hne]; [|done]. simpl.
  assert (List.filter (λ b, bool_decide (g1 x = g1 b) && bool_decide (g2 x = g2 b)) l
          = []) as ->; [|simpl; lia].
  apply bool_filter_nil_existsb. apply not_true_iff_false. intros Hex.
  apply existsb_exists in Hex as (y & Hy & Heq).
  apply andb_true_iff in Heq as [H1 H2]. apply bool_decide_eq_true in H1, H2.
  apply Hx. rewrite H1, H2.
  apply list_elem_of_fmap. exists y. split; [done|]. by apply list_elem_of_In.
Qed.

(** A LEFT JOIN on a key that is unique on the right keeps each row of the
    left once. *)
Lemma left_join_cons {X Y} (on : X → Y → bool) a (l : list X) (r : list Y) :
  left_join on (a :: l) r
  = match List.filter (on a) r with
    | [] => [(a, None)]
    | bs => (λ b, (a, Some b)) <$> bs
    end ++ left_join on l r.
Proof. reflexivity. Qed.

Lemma left_join_fst_unique {X Y} (on : X → Y → bool) (l : list X) (r : list Y) :
  (∀ a, a ∈ l → (length (List.filter (on a) r) <= 1)%nat) →
  fst <$> left_join on l r = l.
Proof.
  induction l as [|a l IH]; intros Hu; [done|].
  rewrite left_join_cons, fmap_app, IH by (intros; apply Hu; by right).
  specialize (Hu a ltac:(left)).
  destruct (List.filter (on a) r) as [|b [|b' F]]; [done|done|simpl in Hu; lia].
Qed.

Lemma cross_join_keys_NoDup {X Y K1 K2} (g1 : X → K1) (g2 : Y → K2)
    (l : list X) (r : list Y) :
  NoDup (g1 <$> l) → NoDup (g2 <$> r) →
  NoDup ((λ ab, (g1 ab.1, g2 ab.2)) <$> cross_join l r).
Proof.
  intros Hl Hr. unfold cross_join. induction l as [|a l IH]; [constructor|].
  csimpl. apply NoDup_cons in Hl as [Ha Hl]. rewrite fmap_app.
  apply NoDup_app. split; [|split; [|by apply IH]].
  - rewrite <- list_fmap_compose.
    change ((λ ab : X * Y, (g1 ab.1, g2 ab.2)) ∘ (λ b, (a, b)))
      with ((λ k, (g1 a, k)) ∘ g2).
    rewrite list_fmap_compose. apply NoDup_fmap_2; [|done]. by intros ?? [= ->].
  - intros [k1 k2] H1 H2.
    apply list_elem_of_fmap in H1 as ([a1 b1] & [= -> ->] & H1).
    apply list_elem_of_fmap in H1 as (b & [= -> ->] & _).
    apply list_elem_of_fmap in H2 as ([a2 b2] & [= Heq1 Heq2] & H2).
    apply list_elem_of_bind in H2 as (a' & H2 & Ha').
    apply list_elem_of_fmap in H2 as (b' & [= -> ->] & _).
    apply Ha. simpl in Heq1. rewrite Heq1. apply list_elem_of_fmap. eauto.
Qed.

(** With unique keys in the three reference tables, safety_stock_combined
    has one row per SKU and warehouse. *)
Lemma safety_stock_combined_keys (cat : Catalog) :
  NoDup (ss_sku_id <$> safety_stock cat) →
  NoDup (w_warehouse_id <$> warehouses cat) →
  NoDup ((λ e, (ssw_sku_id e, ssw_warehouse_id e)) <$> safety_stock_by_warehouse cat) →
  NoDup ((λ c, (ssc_sku_id c, ssc_warehouse_id c)) <$> safety_stock_combined cat).
Proof.
  intros Hss Hw Hssw. unfold safety_stock_combined.
  set (on := λ (ssw' : SafetyStock * Warehouse) (ssw : SafetyStockByWarehouse),
               bool_decide (ss_sku_id ssw'.1 = ssw_sku_id ssw)
               && bool_decide (w_warehouse_id ssw'.2 = ssw_warehouse_id ssw)).
  set (J := left_join on _ _).
  assert (fst <$> J = cross_join (safety_stock cat) (warehouses cat)) as Hfst.
  { apply left_join_fst_unique. intros a _.
    apply (bool_filter_pair_unique ssw_sku_id ssw_warehouse_id). exact Hssw. }
  match goal with
  | |- NoDup (?k <$> (?f <$> J)) =>
      assert (k <$> (f <$> J)
              = (λ ab : SafetyStock * Warehouse, (ss_sku_id ab.1, w_warehouse_id ab.2))
                  <$> (fst <$> J)) as ->
  end.
  { rewrite <- !list_fmap_compose. apply list_fmap_ext. intros i row Hi.
    apply list_elem_of_lookup_2 in Hi.
    destruct row as [[ss w] [e|]]; unfold coalesce; simpl; try done.
    apply elem_of_left_join in Hi as [_ [_ Hon]].
    apply andb_true_iff in Hon as [H1 H2]. apply bool_decide_eq_true in H1, H2.
    simpl in H1, H2. by rewrite H1, H2. }
  rewrite Hfst. by apply cross_join_keys_NoDup.
Qed.

Lemma length_left_join_unique {X Y} (on : X → Y → bool) (l : list X) (r : list Y) :
  (∀ a, a ∈ l → (length (List.filter (on a) r) <= 1)%nat) →
  length (left_join on l r) = length l.
Proof.
  intros Hu. pose proof (f_equal length (left_join_fst_unique on l r Hu)) as H.
  by rewrite length_fmap in H.
Qed.

(** X5.  With sku_id unique in safety_stock, warehouse_id unique in
    warehouses, (sku_id, warehouse_id) unique in safety_stock_by_warehouse
    and (sku_code, warehouse_code) unique in the snapshots of the day,
    net_demand_sql gives one row per aggregated group: as many rows as
    aggregate_sql, no key twice, and the same keys. *)
Theorem one_net_demand_row_per_group (db : Db) (date : Date)
    (agg_out : list AggregatedDemand) (nd_out : list NetDemandSql) :
  NoDup (ss_sku_id <$> safety_stock (catalog db)) →
  NoDup (w_warehouse_id <$> warehouses (catalog db)) →
  NoDup ((λ e, (ssw_sku_id e, ssw_warehouse_id e))
           <$> safety_stock_by_warehouse (catalog db)) →
  NoDup ((λ inv, (inv_sku_code inv, inv_warehouse_code inv))
           <$> inventory_data db date) →
  aggregate_sql db agg_out →
  net_demand_sql db date nd_out →
  length nd_out = length agg_out
  ∧ NoDup (nd_key <$> nd_out)
  ∧ nd_key <$> nd_out ≡ₚ agg_key <$> agg_out.
Proof.
  intros Hss Hw Hssw Hinv [Hagg _] [Hnd _].
  assert (nd_key <$> net_demand_rows db date = fst <$> order_groups db) as Hkeys.
  { unfold net_demand_rows, net_demand_joined. rewrite <- list_fmap_compose.
    set (J := left_join _ (left_join _ _ _) _).
    transitivity ((ao_key ∘ fst) <$> (fst <$> J)).
    { rewrite <- list_fmap_compose. apply list_fmap_ext. by intros i [[ao ss] inv] _. }
    unfold J. rewrite left_join_fst_unique.
    2:{ intros a _.
        apply (bool_filter_pair_unique inv_sku_code inv_warehouse_code). exact Hinv. }
    rewrite list_fmap_compose, left_join_fst_unique.
    2:{ intros a _.
        apply (bool_filter_pair_unique ssc_sku_id ssc_warehouse_id).
        by apply safety_stock_combined_keys. }
    unfold aggregated_orders. rewrite <- list_fmap_compose.
    apply list_fmap_ext. by intros i [k g] _. }
  assert (agg_key <$> aggregate_rows db = fst <$> order_groups db) as Hkeys'.
  { unfold aggregate_rows. rewrite <- list_fmap_compose.
    apply list_fmap_ext. by intros i [k g] _. }
  assert (nd_key <$> nd_out ≡ₚ agg_key <$> agg_out) as Hperm.
  { rewrite <- Hnd, <- Hagg, Hkeys, Hkeys'. done. }
  split; [|split; [|exact Hperm]].
  - apply Permutation_length in Hperm. by rewrite !length_fmap in Hperm.
  - rewrite <- Hnd, Hkeys. apply group_by_keys_NoDup.
Qed.

Ltac nodup_concrete := apply (bool_decide_unpack _); vm_compute; exact I.

Lemma aggregation_conserves_quantities_witness :
  aggregate_sql Scenario.gaps_db
    [Scenario.agg 1 "PROD001" 50 2; Scenario.agg 2 "PROD002" 12 1;
     Scenario.agg 4 "PROD004" 9 1; Scenario.agg 3 "PROD003" 7 1]
  ∧ NoDup (p_sku_id <$> products (catalog Scenario.gaps_db))
  ∧ NoDup (w_warehouse_id <$> warehouses (catalog Scenario.gaps_db))
  ∧ 50 + 12 + 9 + 7
    = sum_bigint (o_quantity <$> List.filter (has_reference (catalog Scenario.gaps_db))
                                   (orders Scenario.gaps_db)).
Proof.
  assert (NoDup (p_sku_id <$> products (catalog Scenario.gaps_db))) as Hp
    by nodup_concrete.
  assert (NoDup (w_warehouse_id <$> warehouses (catalog Scenario.gaps_db))) as Hw
    by nodup_concrete.
  split; [exact aggregate_sql_gaps|]. split; [exact Hp|]. split; [exact Hw|].
  destruct (aggregation_conserves_quantities _ _ aggregate_sql_gaps)
    as (_ & _ & Hsum).
  destruct (Hsum Hp Hw) as [<- _]. reflexivity.
Defined.

Lemma aggregated_rows_are_the_groups_witness :
  aggregate_sql Scenario.gaps_db
    [Scenario.agg 1 "PROD001" 50 2; Scenario.agg 2 "PROD002" 12 1;
     Scenario.agg 4 "PROD004" 9 1; Scenario.agg 3 "PROD003" 7 1]
  ∧ NoDup (agg_key <$> [Scenario.agg 1 "PROD001" 50 2; Scenario.agg 2 "PROD002" 12 1;
                        Scenario.agg 4 "PROD004" 9 1; Scenario.agg 3 "PROD003" 7 1]).
Proof.
  split; [exact aggregate_sql_gaps|].
  exact (proj1 (aggregated_rows_are_the_groups _ _ aggregate_sql_gaps)).
Defined.

Lemma net_demand_rows_match_aggregation_witness :
  aggregate_sql Scenario.gaps_db
    [Scenario.agg 1 "PROD001" 50 2; Scenario.agg 2 "PROD002" 12 1;
     Scenario.agg 4 "PROD004" 9 1; Scenario.agg 3 "PROD003" 7 1]
  ∧ net_demand_sql Scenario.gaps_db Scenario.date
      [Scenario.net_demand_1; Scenario.net_demand_2;
       Scenario.nd 4 "PROD004" 9; Scenario.nd 3 "PROD003" 7]
  ∧ ∃ n, n ∈ [Scenario.net_demand_1; Scenario.net_demand_2;
              Scenario.nd 4 "PROD004" 9; Scenario.nd 3 "PROD003" 7]
         ∧ nd_key n = Scenario.key 1 "PROD001" ∧ aggregated_orders_qty n = 50.
Proof.
  split; [exact aggregate_sql_gaps|]. split; [exact net_demand_sql_gaps|].
  apply (proj1 (net_demand_rows_match_aggregation _ _ _ _
                  aggregate_sql_gaps net_demand_sql_gaps)
           (Scenario.agg 1 "PROD001" 50 2)).
  apply list_elem_of_here.
Defined.

Lemma one_net_demand_row_per_group_witness :
  NoDup (ss_sku_id <$> safety_stock (catalog Scenario.gaps_db))
  ∧ NoDup (w_warehouse_id <$> warehouses (catalog Scenario.gaps_db))
  ∧ NoDup ((λ e, (ssw_sku_id e, ssw_warehouse_id e))
             <$> safety_stock_by_warehouse (catalog Scenario.gaps_db))
  ∧ NoDup ((λ inv, (inv_sku_code inv, inv_warehouse_code inv))
             <$> inventory_data Scenario.gaps_db Scenario.date)
  ∧ aggregate_sql Scenario.gaps_db
      [Scenario.agg 1 "PROD001" 50 2; Scenario.agg 2 "PROD002" 12 1;
       Scenario.agg 4 "PROD004" 9 1; Scenario.agg 3 "PROD003" 7 1]
  ∧ net_demand_sql Scenario.gaps_db Scenario.date
      [Scenario.net_demand_1; Scenario.net_demand_2;
       Scenario.nd 4 "PROD004" 9; Scenario.nd 3 "PROD003" 7]
  ∧ NoDup (nd_key <$> [Scenario.net_demand_1; Scenario.net_demand_2;
                       Scenario.nd 4 "PROD004" 9; Scenario.nd 3 "PROD003" 7]).
Proof.
  assert (NoDup (ss_sku_id <$> safety_stock (catalog Scenario.gaps_db))) as H1
    by nodup_concrete.
  assert (NoDup (w_warehouse_id <$> warehouses (catalog Scenario.gaps_db))) as H2
    by nodup_concrete.
  assert (NoDup ((λ e, (ssw_sku_id e, ssw_warehouse_id e))
                   <$> safety_stock_by_warehouse (catalog Scenario.gaps_db))) as H3
    by nodup_concrete.
  assert (NoDup ((λ inv, (inv_sku_code inv, inv_warehouse_code inv))
                   <$> inventory_data Scenario.gaps_db Scenario.date)) as H4
    by nodup_concrete.
  do 4 (split; [assumption|]).
  split; [exact aggregate_sql_gaps|]. split; [exact net_demand_sql_gaps|].
  exact (proj1 (proj2 (one_net_demand_row_per_group _ _ _ _ H1 H2 H3 H4
                         aggregate_sql_gaps net_demand_sql_gaps))).
Defined.

Lemma cheapest_active_offer_is_selected_witness :
  supplier_orders_sql Scenario.gaps_db Scenario.date (Some [Scenario.line_1])
  ∧ Scenario.line_1 ∈ [Scenario.line_1]
  ∧ so_unit_price Scenario.line_1 <= sp_unit_price (Scenario.offer 1 1 5 10 1000).
Proof.
  assert (Scenario.line_1 ∈ [Scenario.line_1]) as Hin by apply list_elem_of_here.
  split; [exact supplier_orders_sql_gaps|]. split; [exact Hin|].
  destruct (cheapest_active_offer_is_selected _ _ _ _ supplier_orders_sql_gaps Hin)
    as (sp & s & _ & _ & _ & _ & _ & _ & _ & Hmin).
  apply (Hmin _ (Scenario.supplier 1)); [|reflexivity].
  apply list_elem_of_In. vm_compute. auto.
Defined.

(** ** Day numbers *)

Ltac lia_div := Z.to_euclidean_division_equations; lia.

(** The day number of the date of a day number is that day number, and the
    date has a month from 1 to 12 and a day from 1 to 31. *)
Lemma days_from_civil_from_days (z : Z) :
  days_from_civil (civil_from_days z) = z
  ∧ 1 <= month (civil_from_days z) <= 12
  ∧ 1 <= day (civil_from_days z) <= 31.
Proof.
  unfold days_from_civil, civil_from_days. cbn [year month day].
  set (z' := z + 719468).
  set (era := z' / 146097).
  set (doe := z' - era * 146097).
  assert (0 <= doe < 146097) as Hdoe by (unfold doe, era; lia_div).
  set (yoe := (doe - doe / 1460 + doe / 36524 - doe / 146096) / 365).
  set (doy := doe - (365 * yoe + yoe / 4 - yoe / 100)).
  assert (0 <= yoe <= 399 ∧ 0 <= doy <= 365) as [Hyoe Hdoy]
    by (unfold doy, yoe; lia_div).
  set (mp := (5 * doy + 2) / 153).
  assert (0 <= mp <= 11) as Hmp by (unfold mp; lia_div).
  assert (1 <= doy - (153 * mp + 2) / 5 + 1 <= 31) as Hd by (unfold mp; lia_div).
  assert (doy = doe - (365 * yoe + yoe / 4 - yoe / 100)) as Hdoy_def by reflexivity.
  assert (doe = z' - era * 146097) as Hdoe_def by reflexivity.
  clearbody doy yoe doe era.
  destruct (mp <? 10) eqn:E1;
    [apply Z.ltb_lt in E1; destruct (mp + 3 <=? 2) eqn:E2
    |apply Z.ltb_ge in E1; destruct (mp - 9 <=? 2) eqn:E2];
    (apply Z.leb_le in E2 || apply Z.leb_gt in E2); try lia.
  - split; [|lia].
    replace ((mp + 3 + 9) mod 12) with mp by lia_div.
    replace ((yoe + era * 400) / 400) with era by lia_div.
    subst z'. lia_div.
  - split; [|lia].
    replace ((mp - 9 + 9) mod 12) with mp by lia_div.
    replace ((yoe + era * 400 + 1 - 1) / 400) with era by lia_div.
    subst z'. lia_div.
Qed.

(** ** The tasks on a given world *)

Ltac path_neq :=
  let H := fresh "Hpath" in
  intros H;
  first
    [ discriminate H
    | repeat match type of H with
             | context [strftime_dmy ?d] =>
                 generalize dependent (strftime_dmy d); intros
             end;
      first
        [ apply (f_equal String.length) in H;
          rewrite ?string_length_app in H; simpl in H; lia
        | cbv in H; discriminate H
        | cbv in H; congruence ] ].

Ltac lookup_paths :=
  repeat match goal with
         | |- context [<[?i := ?x]> ?m !! ?i] => rewrite (lookup_insert_eq m i x)
         | |- context [<[?i := ?x]> ?m !! ?j] =>
             rewrite (lookup_insert_ne m i j x) by path_neq
         end.

Ltac py_eval := repeat (progress (simpl; lookup_paths)).

(** X6.  Task 7 on an answer of the engine.  The JSON file in HDFS always
    holds the assembled lines.  With rows, the task succeeds, the CSV file in
    HDFS holds the same lines and the number of rows is pushed.  Without rows
    no CSV file is written: when a local CSV file of an earlier run for the
    date is on the disk the task succeeds and uploads that file, with a count
    of 0; when there is none the task fails, and the CSV file in HDFS and the
    XCom store stay as they were. *)
Theorem supplier_order_files_follow_the_answer (ti : string) (date : Date)
    (w : World) (rows : list SupplierOrderSql) :
  let lines := assemble_orders (strftime_iso date) 1 rows in
  let temp_csv :=
    (TEMP_PATH +:+ "/supplier_orders/" +:+ strftime_dmy date)
      +:+ "/supplier_orders.csv" in
  let r := generate_supplier_orders_with_trino ti date (Some rows) w in
  hdfs_supplier_orders_json date r.1 = Some (SupplierOrdersJson lines)
  ∧ (rows ≠ [] →
     r.2 = Some ()
     ∧ hdfs_supplier_orders_csv date r.1 = Some (SupplierOrdersCsv lines)
     ∧ xcom r.1 !! (ti, "supplier_orders_count")
       = Some (PyInt (Z.of_nat (length rows))))
  ∧ (rows = [] → ∀ f, local_files w !! temp_csv = Some f →
     r.2 = Some ()
     ∧ hdfs_supplier_orders_csv date r.1 = Some f
     ∧ xcom r.1 !! (ti, "supplier_orders_count") = Some (PyInt 0))
  ∧ (rows = [] → local_files w !! temp_csv = None →
     r.2 = None
     ∧ hdfs_supplier_orders_csv date r.1 = hdfs_supplier_orders_csv date w
     ∧ xcom r.1 = xcom w).
Proof.
  intros lines temp_csv r.
  assert (length lines = length rows) as Hlen by apply length_assemble_orders.
  unfold hdfs_supplier_orders_json, hdfs_supplier_orders_csv.
  subst r temp_csv. unfold generate_supplier_orders_with_trino. fold lines. py_unfold.
  destruct rows as [|row rows].
  - simpl in lines. subst lines. py_eval.
    destruct (local_files w !! _) as [f|] eqn:Hf; py_eval.
    + repeat split; try done; intros _ f' [= <-]; by py_eval.
    + repeat split; try done.
  - simpl in lines. subst lines. py_eval.
    repeat split; try done. by rewrite length_assemble_orders.
Qed.

Lemma positive_count_le_sum (l : list Z) :
  (∀ x, x ∈ l → 0 <= x) →
  let k := Z.of_nat (length (List.filter (λ x, 0 <? x) l)) in
  0 <= k <= Z.of_nat (length l) ∧ k <= sum_bigint l ∧ (sum_bigint l = 0 ↔ k = 0).
Proof.
  induction l as [|x l IH]; intros Hpos; simpl; [lia|].
  destruct IH as (IH1 & IH2 & IH3); [intros; apply Hpos; by right|].
  pose proof (Hpos x ltac:(left)).
  destruct (Z.ltb_spec 0 x); simpl length; lia.
Qed.

Lemma net_demand_sql_nonneg (db : Db) (date : Date) rows n :
  net_demand_sql db date rows → n ∈ rows → 0 <= net_demand n.
Proof.
  intros [Hperm _] Hn. rewrite <- Hperm in Hn. unfold net_demand_rows in Hn.
  apply list_elem_of_fmap in Hn as ([[ao ss] inv] & -> & _). simpl. lia.
Qed.

(** X7.  Task 6 on a non-empty answer to net_demand_sql succeeds; the JSON
    and CSV files in HDFS hold the rows with the date of the run as
    calculation_date; the pushed net_demand_count, items_with_demand and
    total_net_demand are the number of rows, the number of rows with a
    positive net demand and the sum of the net demands.  items_with_demand is
    at most the count and at most the total, and the total is 0 exactly when
    no row has a positive net demand. *)
Theorem net_demand_task_reports_the_answer (ti : string) (date : Date)
    (w : World) (db : Db) (rows : list NetDemandSql) :
  net_demand_sql db date rows →
  rows ≠ [] →
  let results := (λ r, {| nd_sql := r; calculation_date := strftime_dmy date |}) <$> rows in
  let r := calculate_net_demand_with_trino ti date (Some rows) w in
  let count := Z.of_nat (length rows) in
  let items := Z.of_nat (length (List.filter (λ r, 0 <? net_demand r) rows)) in
  let total := sum_bigint (net_demand <$> rows) in
  r.2 = Some ()
  ∧ hdfs_net_demand_json date r.1 = Some (NetDemandJson results)
  ∧ hdfs_net_demand_csv date r.1 = Some (NetDemandCsv results)
  ∧ xcom r.1 !! (ti, "net_demand_count") = Some (PyInt count)
  ∧ xcom r.1 !! (ti, "items_with_demand") = Some (PyInt items)
  ∧ xcom r.1 !! (ti, "total_net_demand") = Some (PyInt total)
  ∧ 0 <= items <= count
  ∧ items <= total
  ∧ (total = 0 ↔ items = 0).
Proof.
  intros Hsql Hne results r count items total.
  assert (∀ x, x ∈ net_demand <$> rows → 0 <= x) as Hpos.
  { intros x Hx. apply list_elem_of_fmap in Hx as (n & -> & Hn).
    by apply (net_demand_sql_nonneg db date rows). }
  pose proof (positive_count_le_sum _ Hpos) as Hinv. simpl in Hinv.
  rewrite bool_filter_fmap_length, length_fmap in Hinv.
  fold count items total in Hinv.
  assert (sum_bigint ((λ r, net_demand (nd_sql r)) <$> results) = total) as Htotal.
  { unfold results, total. rewrite <- list_fmap_compose. done. }
  assert (Z.of_nat (length (List.filter (λ r, 0 <? net_demand (nd_sql r)) results))
          = items) as Hitems.
  { unfold results, items. by rewrite bool_filter_fmap_length. }
  assert (Z.of_nat (length results) = count) as Hcount.
  { unfold results, count. by rewrite length_fmap. }
  assert (results ≠ []) as Hres.
  { intros Hnil. apply fmap_nil_inv in Hnil. done. }
  unfold hdfs_net_demand_json, hdfs_net_demand_csv.
  subst r. unfold calculate_net_demand_with_trino. py_unfold. fold results.
  rewrite Htotal, Hitems, Hcount.
  clearbody results count items total. clear Hpos Hsql Hne.
  destruct results as [|x results]; [done|].
  py_eval. repeat split; try done; lia.
Qed.

Lemma string_app_assoc (a b c : string) : (a +:+ b) +:+ c = a +:+ (b +:+ c).
Proof.
  induction a as [|x a IH]; [done|]. rewrite !string_app_cons. by rewrite IH.
Qed.

Lemma replace_json_cons (c : ascii) (s : string) :
  c ≠ "."%char →
  str_replace ".json" ".csv" (String c s) = String c (str_replace ".json" ".csv" s).
Proof.
  intros Hc. unfold str_replace.
  change (replace_from ".json" ".csv" 0 (String c s))
    with (if (if ascii_dec "." c then String.prefix "json" s else false)
          then ".csv" +:+ replace_from ".json" ".csv" 4 s
          else String c (replace_from ".json" ".csv" 0 s)).
  destruct (ascii_dec "." c) as [Heq|Hne]; [by destruct Hc|reflexivity].
Qed.

Lemma replace_json_zeros n t :
  str_replace ".json" ".csv" (zeros n +:+ t)
  = zeros n +:+ str_replace ".json" ".csv" t.
Proof.
  induction n as [|n IH]; [done|]. simpl zeros.
  rewrite !string_app_cons, replace_json_cons by discriminate. by rewrite IH.
Qed.

Lemma pretty_N_char_not_dot (x : N) : (x < 10)%N → pretty_N_char x ≠ "."%char.
Proof.
  intros Hx.
  assert (x = 0 ∨ x = 1 ∨ x = 2 ∨ x = 3 ∨ x = 4 ∨ x = 5 ∨ x = 6 ∨ x = 7 ∨ x = 8 ∨ x = 9)%N
    as Hcase by lia.
  destruct Hcase as [->|[->|[->|[->|[->|[->|[->|[->|[->| ->]]]]]]]]]; discriminate.
Qed.

Lemma replace_json_pretty_N_go (x : N) s t :
  str_replace ".json" ".csv" (s +:+ t) = s +:+ str_replace ".json" ".csv" t →
  str_replace ".json" ".csv" (pretty_N_go x s +:+ t)
  = pretty_N_go x s +:+ str_replace ".json" ".csv" t.
Proof.
  revert s. induction (N.lt_wf_0 x) as [x _ IH]; intros s Hs.
  destruct (decide (x = 0%N)) as [->|Hx]; [by rewrite pretty_N_go_0|].
  rewrite pretty_N_go_step by lia. apply IH; [apply N.div_lt; lia|].
  rewrite !string_app_cons, replace_json_cons, Hs; [done|].
  apply pretty_N_char_not_dot. apply N.mod_lt. lia.
Qed.

Lemma replace_json_zfill w (z : Z) t :
  0 < z →
  str_replace ".json" ".csv" (zfill w (pretty z) +:+ t)
  = zfill w (pretty z) +:+ str_replace ".json" ".csv" t.
Proof.
  intros Hz. unfold zfill. rewrite string_app_assoc, replace_json_zeros.
  rewrite pretty_pos by lia. rewrite replace_json_pretty_N_go by done.
  by rewrite string_app_assoc.
Qed.

Lemma replace_json_date (d : Date) t :
  valid_date d →
  str_replace ".json" ".csv" (strftime_dmy d +:+ t)
  = strftime_dmy d +:+ str_replace ".json" ".csv" t.
Proof.
  intros (Hy & Hm & Hd). unfold strftime_dmy.
  rewrite !string_app_assoc.
  rewrite replace_json_zfill by lia.
  rewrite string_app_cons, replace_json_cons by discriminate.
  change ("" +:+ ?x) with x.
  rewrite replace_json_zfill by lia.
  rewrite string_app_cons, replace_json_cons by discriminate.
  change ("" +:+ ?x) with x.
  rewrite replace_json_zfill by lia. reflexivity.
Qed.

(** The CSV that task 2 writes stands beside the JSON it reads. *)
Lemma stock_csv_file (d : Date) :
  valid_date d →
  str_replace ".json" ".csv"
    (RAW_PATH +:+ "/stock/" +:+ strftime_dmy d +:+ "/stock.json")
  = RAW_PATH +:+ "/stock/" +:+ strftime_dmy d +:+ "/stock.csv".
Proof.
  intros Hd.
  change RAW_PATH with "/opt/airflow/data/raw".
  repeat (rewrite string_app_cons, replace_json_cons by discriminate).
  change ("" +:+ ?x) with x.
  repeat (rewrite string_app_cons, replace_json_cons by discriminate).
  change ("" +:+ ?x) with x.
  rewrite replace_json_date by done. reflexivity.
Qed.


(** ** The files a run writes in HDFS *)

Ltac hdfs_frame Hp :=
  simpl;
  rewrite ?lookup_insert_ne
    by (intros <-; apply Hp; repeat first [apply list_elem_of_here | apply list_elem_of_further]);
  reflexivity.

Lemma load_orders_to_hdfs_writes ti date :
  hdfs_writes [HDFS_RAW_PATH +:+ "/orders/" +:+ strftime_dmy date +:+ "/orders.csv"]
    (load_orders_to_hdfs ti date).
Proof.
  intros w p Hp. unfold load_orders_to_hdfs. py_unfold. repeat py_case; hdfs_frame Hp.
Qed.

Lemma load_stock_to_hdfs_writes ti date :
  hdfs_writes [HDFS_RAW_PATH +:+ "/stock/" +:+ strftime_dmy date +:+ "/stock.csv"]
    (load_stock_to_hdfs ti date).
Proof.
  intros w p Hp. unfold load_stock_to_hdfs. py_unfold. repeat py_case; hdfs_frame Hp.
Qed.

Lemma store_snapshots_to_cassandra_writes ti date :
  hdfs_writes [] (store_snapshots_to_cassandra ti date).
Proof.
  intros w p Hp. unfold store_snapshots_to_cassandra.
  set (F := foldr (λ s k, session_execute s;; k) (mret ())).
  assert (∀ l w, (F l w).2 = Some () ∧ hdfs_files (F l w).1 = hdfs_files w) as HF.
  { induction l as [|s l IH]; intros w0; [done|].
    subst F. simpl. unfold mbind at 1, Py_bind at 1.
    unfold session_execute at 1, modify at 1.
    match goal with |- context [foldr _ _ l ?w'] => destruct (IH w') as [E1 E2] end.
    split; [exact E1|exact E2]. }
  clearbody F. py_unfold.
  destruct (local_files w !! _) as [[]|] eqn:Hf; simpl; try done.
  match goal with |- context [F ?l ?w0] =>
    destruct (HF l w0) as [H1 H2]; destruct (F l w0) as [w1 [[]|]] end;
    simpl in *; [|discriminate].
  by rewrite H2.
Qed.

Lemma create_hive_tables_writes ti date :
  hdfs_writes [] (create_hive_tables ti date).
Proof.
  intros w p Hp. unfold create_hive_tables. py_unfold.
  unfold orders_table, stock_table; simpl. repeat py_case; hdfs_frame Hp.
Qed.

Lemma aggregate_orders_with_trino_writes ti date answer :
  hdfs_writes
    [HDFS_PROCESSED_PATH +:+ "/aggregated_orders/" +:+ strftime_dmy date
       +:+ "/aggregated_orders.json";
     HDFS_PROCESSED_PATH +:+ "/aggregated_orders/" +:+ strftime_dmy date
       +:+ "/aggregated_orders.csv"]
    (aggregate_orders_with_trino ti date answer).
Proof.
  intros w p Hp. unfold aggregate_orders_with_trino. py_unfold.
  repeat py_case; hdfs_frame Hp.
Qed.

Lemma calculate_net_demand_with_trino_writes ti date answer :
  hdfs_writes
    [HDFS_PROCESSED_PATH +:+ "/net_demand/" +:+ strftime_dmy date +:+ "/net_demand.json";
     HDFS_PROCESSED_PATH +:+ "/net_demand/" +:+ strftime_dmy date +:+ "/net_demand.csv"]
    (calculate_net_demand_with_trino ti date answer).
Proof.
  intros w p Hp. unfold calculate_net_demand_with_trino. py_unfold.
  repeat py_case; hdfs_frame Hp.
Qed.

Lemma generate_supplier_orders_with_trino_writes ti date answer :
  hdfs_writes
    [HDFS_OUTPUT_PATH +:+ "/supplier_orders/" +:+ strftime_dmy date
       +:+ "/supplier_orders.json";
     HDFS_OUTPUT_PATH +:+ "/supplier_orders/" +:+ strftime_dmy date
       +:+ "/supplier_orders.csv"]
    (generate_supplier_orders_with_trino ti date answer).
Proof.
  intros w p Hp. unfold generate_supplier_orders_with_trino. py_unfold.
  repeat py_case; hdfs_frame Hp.
Qed.

Lemma generate_pipeline_summary_writes ti date :
  hdfs_writes
    [HDFS_LOGS_PATH +:+ "/summaries/summary_" +:+ strftime_dmy date +:+ ".json"]
    (generate_pipeline_summary ti date).
Proof.
  intros w p Hp. unfold generate_pipeline_summary, build_summary, format_2f.
  py_unfold. rewrite lookup_insert_eq. simpl.
  destruct (numeric _); hdfs_frame Hp.
Qed.

Lemma run_task_writes rule upstream paths c w p :
  hdfs_writes paths c → p ∉ paths →
  hdfs_files (run_task rule upstream c w).1 !! p = hdfs_files w !! p.
Proof.
  intros Hc Hp. specialize (Hc w p Hp). unfold run_task.
  destruct rule, upstream; try done; by destruct (c w) as [w' [[]|]].
Qed.

Lemma run_task_upstream_failed upstream c w :
  upstream ≠ success →
  run_task all_success upstream c w = (w, upstream_failed).
Proof. by destruct upstream. Qed.

Lemma run_task_not_upstream_failed_first c w :
  (run_task all_success success c w).2 ≠ upstream_failed.
Proof. unfold run_task. by destruct (c w) as [w' [[]|]]. Qed.

Ltac not_in_paths :=
  rewrite ?not_elem_of_cons; repeat split; try path_neq; apply not_elem_of_nil.

#[local] Hint Resolve load_orders_to_hdfs_writes load_stock_to_hdfs_writes
  store_snapshots_to_cassandra_writes create_hive_tables_writes
  aggregate_orders_with_trino_writes calculate_net_demand_with_trino_writes
  generate_supplier_orders_with_trino_writes generate_pipeline_summary_writes : core.

(** An HDFS path that tasks 1 to 5 and task 8 do not write keeps its file
    through a run in which task 5 does not succeed, and also through a run
    in which task 6 does not succeed when task 6 does not write it. *)
Lemma dag_run_keeps_path (date : Date) (ans : Answers) (w0 : World) (p : string) :
  p ∉ [HDFS_RAW_PATH +:+ "/orders/" +:+ strftime_dmy date +:+ "/orders.csv";
       HDFS_RAW_PATH +:+ "/stock/" +:+ strftime_dmy date +:+ "/stock.csv";
       HDFS_PROCESSED_PATH +:+ "/aggregated_orders/" +:+ strftime_dmy date
         +:+ "/aggregated_orders.json";
       HDFS_PROCESSED_PATH +:+ "/aggregated_orders/" +:+ strftime_dmy date
         +:+ "/aggregated_orders.csv";
       HDFS_LOGS_PATH +:+ "/summaries/summary_" +:+ strftime_dmy date +:+ ".json"] →
  let r := dag_run date ans w0 in
  (aggregate_orders_state r ≠ success →
     calculate_net_demand_state r = upstream_failed
     ∧ generate_supplier_orders_state r = upstream_failed
     ∧ hdfs_files (final r) !! p = hdfs_files w0 !! p)
  ∧ (calculate_net_demand_state r ≠ success →
     p ∉ [HDFS_PROCESSED_PATH +:+ "/net_demand/" +:+ strftime_dmy date
            +:+ "/net_demand.json";
          HDFS_PROCESSED_PATH +:+ "/net_demand/" +:+ strftime_dmy date
            +:+ "/net_demand.csv"] →
     generate_supplier_orders_state r = upstream_failed
     ∧ hdfs_files (final r) !! p = hdfs_files w0 !! p).
Proof.
  intros Hp. rewrite !not_elem_of_cons in Hp.
  destruct Hp as (P1 & P2 & P5j & P5c & P8 & _). unfold dag_run.
  assert (∀ c w paths up rule, hdfs_writes paths c → p ∉ paths →
            hdfs_files (run_task rule up c w).1 !! p = hdfs_files w !! p) as Hrun.
  { intros. by eapply run_task_writes. }
  assert (∀ q, p ≠ q → p ∉ [q]) as N1.
  { intros q Hq. rewrite not_elem_of_cons. split; [done|apply not_elem_of_nil]. }
  assert (∀ q q', p ≠ q → p ≠ q' → p ∉ [q; q']) as N2.
  { intros q q' Hq Hq'. rewrite !not_elem_of_cons. repeat split; try done.
    apply not_elem_of_nil. }
  pose proof (Hrun (load_orders_to_hdfs "load_orders" date) w0 _ success all_success
                (load_orders_to_hdfs_writes _ _) (N1 _ P1)) as H1.
  destruct (run_task all_success success (load_orders_to_hdfs "load_orders" date) w0)
    as [w1 s1].
  pose proof (Hrun (load_stock_to_hdfs "load_stock" date) w1 _ s1 all_success
                (load_stock_to_hdfs_writes _ _) (N1 _ P2)) as H2.
  destruct (run_task all_success s1 (load_stock_to_hdfs "load_stock" date) w1)
    as [w2 s2].
  pose proof (Hrun (store_snapshots_to_cassandra "store_snapshots" date) w2 _ s2
                all_success (store_snapshots_to_cassandra_writes _ _)
                (not_elem_of_nil _)) as H3.
  destruct (run_task all_success s2
              (store_snapshots_to_cassandra "store_snapshots" date) w2) as [w3 s3].
  pose proof (Hrun (create_hive_tables "create_hive_tables" date) w3 _ s3
                all_success (create_hive_tables_writes _ _) (not_elem_of_nil _)) as H4.
  destruct (run_task all_success s3 (create_hive_tables "create_hive_tables" date) w3)
    as [w4 s4].
  pose proof (Hrun (aggregate_orders_with_trino "aggregate_orders" date
                      (aggregate_answer ans)) w4 _ s4
                all_success (aggregate_orders_with_trino_writes _ _ _)
                (N2 _ _ P5j P5c)) as H5.
  destruct (run_task all_success s4
              (aggregate_orders_with_trino "aggregate_orders" date
                 (aggregate_answer ans)) w4) as [w5 s5].
  pose proof (run_task_upstream_failed s5
                (calculate_net_demand_with_trino "calculate_net_demand" date
                   (net_demand_answer ans)) w5) as U6.
  pose proof (λ H, Hrun (calculate_net_demand_with_trino "calculate_net_demand" date
                           (net_demand_answer ans)) w5 _ s5
                     all_success (calculate_net_demand_with_trino_writes _ _ _) H) as H6.
  destruct (run_task all_success s5
              (calculate_net_demand_with_trino "calculate_net_demand" date
                 (net_demand_answer ans)) w5) as [w6 s6].
  pose proof (run_task_upstream_failed s6
                (generate_supplier_orders_with_trino "generate_supplier_orders" date
                   (supplier_orders_answer ans)) w6) as U7.
  destruct (run_task all_success s6
              (generate_supplier_orders_with_trino "generate_supplier_orders" date
                 (supplier_orders_answer ans)) w6) as [w7 s7].
  pose proof (Hrun (generate_pipeline_summary "generate_summary" date) w7 _ s7
                all_done (generate_pipeline_summary_writes _ _) (N1 _ P8)) as H8.
  destruct (run_task all_done s7 (generate_pipeline_summary "generate_summary" date) w7)
    as [w8 s8].
  simpl in *. split.
  - intros Hs5. specialize (U6 Hs5). injection U6 as -> ->.
    specialize (U7 ltac:(done)). injection U7 as -> ->.
    split; [done|]. split; [done|]. by rewrite H8, H5, H4, H3, H2, H1.
  - intros Hs6 Hnd. specialize (U7 Hs6). injection U7 as -> ->.
    split; [done|]. by rewrite H8, (H6 Hnd), H5, H4, H3, H2, H1.
Qed.

(** X9.  When task 5 does not succeed, tasks 6 and 7 are not run
    (upstream_failed) and the net-demand and supplier-order files in HDFS are
    those from before the run; when task 6 does not succeed, task 7 is not
    run and the supplier-order files are those from before the run.  Outputs
    of an earlier run for the date stay in place. *)
Theorem failed_stage_keeps_later_outputs (date : Date) (ans : Answers) (w0 : World) :
  let r := dag_run date ans w0 in
  (aggregate_orders_state r ≠ success →
     calculate_net_demand_state r = upstream_failed
     ∧ generate_supplier_orders_state r = upstream_failed
     ∧ hdfs_net_demand_json date (final r) = hdfs_net_demand_json date w0
     ∧ hdfs_net_demand_csv date (final r) = hdfs_net_demand_csv date w0
     ∧ hdfs_supplier_orders_json date (final r) = hdfs_supplier_orders_json date w0
     ∧ hdfs_supplier_orders_csv date (final r) = hdfs_supplier_orders_csv date w0)
  ∧ (calculate_net_demand_state r ≠ success →
     generate_supplier_orders_state r = upstream_failed
     ∧ hdfs_supplier_orders_json date (final r) = hdfs_supplier_orders_json date w0
     ∧ hdfs_supplier_orders_csv date (final r) = hdfs_supplier_orders_csv date w0).
Proof.
  intros r. subst r.
  unfold hdfs_net_demand_json, hdfs_net_demand_csv, hdfs_supplier_orders_json,
    hdfs_supplier_orders_csv.
  split.
  - intros Hfail.
    repeat split;
      match goal with
      | |- _ = upstream_failed =>
          apply (proj1 (dag_run_keeps_path date ans w0 "" ltac:(not_in_paths)) Hfail)
      | |- hdfs_files _ !! ?p = _ =>
          apply (proj1 (dag_run_keeps_path date ans w0 p ltac:(not_in_paths)) Hfail)
      end.
  - intros Hfail.
    repeat split;
      match goal with
      | |- _ = upstream_failed =>
          apply (proj2 (dag_run_keeps_path date ans w0 "" ltac:(not_in_paths)) Hfail);
          not_in_paths
      | |- hdfs_files _ !! ?p = _ =>
          apply (proj2 (dag_run_keeps_path date ans w0 p ltac:(not_in_paths)) Hfail);
          not_in_paths
      end.
Qed.

Lemma or_0_int (z : Z) : or_0 (Some (PyInt z)) = PyInt z.
Proof. by destruct z. Qed.

(** The inserts of task 3, one after the other in the order of the file. *)
Lemma session_execute_all (l : list InventorySnapshot) (w : World) :
  foldr (λ s k, session_execute s;; k) (mret ()) l w
  = ({| local_files := local_files w;
        hdfs_files := hdfs_files w;
        cassandra_table := foldl (λ t s, cassandra_insert s t) (cassandra_table w) l;
        hive_orders := hive_orders w;
        hive_stock := hive_stock w;
        xcom := xcom w;
        task_logs := task_logs w;
        exception_logs := exception_logs w |}, Some ()).
Proof.
  revert w. induction l as [|s l IH]; intros w; [by destruct w|].
  simpl. unfold mbind at 1, Py_bind at 1. unfold session_execute at 1, modify at 1.
  rewrite IH. reflexivity.
Qed.

Lemma run_task_success rule c w w' :
  c w = (w', Some ()) → run_task rule success c w = (w', success).
Proof. intros H. unfold run_task. rewrite H. by destruct rule. Qed.

Lemma load_orders_to_hdfs_success ti date w f :
  local_files w !! (RAW_PATH +:+ "/orders/" +:+ strftime_dmy date +:+ "/orders.csv")
  = Some f →
  load_orders_to_hdfs ti date w
  = ({| local_files := local_files w;
        hdfs_files :=
          <[HDFS_RAW_PATH +:+ "/orders/" +:+ strftime_dmy date +:+ "/orders.csv" := f]>
            (hdfs_files w);
        cassandra_table := cassandra_table w;
        hive_orders := hive_orders w;
        hive_stock := hive_stock w;
        xcom :=
          <[(ti, "date_str_iso") := PyStr (strftime_iso date)]>
            (<[(ti, "date_str") := PyStr (strftime_dmy date)]>
               (<[(ti, "hdfs_orders_path")
                    := PyStr (HDFS_RAW_PATH +:+ "/orders/" +:+ strftime_dmy date
                                +:+ "/orders.csv")]> (xcom w)));
        task_logs :=
          task_logs w
            ++ [ {| log_task_name := "load_orders_to_hdfs";
                    log_execution_date := strftime_dmy date;
                    log_status := "success";
                    log_details :=
                      [("hdfs_path",
                        PyStr (HDFS_RAW_PATH +:+ "/orders/" +:+ strftime_dmy date
                                 +:+ "/orders.csv"))] |} ];
        exception_logs := exception_logs w |}, Some ()).
Proof.
  intros Hf. unfold load_orders_to_hdfs. py_unfold. rewrite Hf. simpl.
  rewrite Hf. reflexivity.
Qed.

Lemma load_stock_to_hdfs_success ti date w rows :
  valid_date date →
  local_files w !! (RAW_PATH +:+ "/stock/" +:+ strftime_dmy date +:+ "/stock.json")
  = Some (StockJson rows) →
  load_stock_to_hdfs ti date w
  = ({| local_files :=
          <[RAW_PATH +:+ "/stock/" +:+ strftime_dmy date +:+ "/stock.csv"
              := StockCsv rows]> (local_files w);
        hdfs_files :=
          <[HDFS_RAW_PATH +:+ "/stock/" +:+ strftime_dmy date +:+ "/stock.csv"
              := StockCsv rows]> (hdfs_files w);
        cassandra_table := cassandra_table w;
        hive_orders := hive_orders w;
        hive_stock := hive_stock w;
        xcom :=
          <[(ti, "hdfs_stock_path")
              := PyStr (HDFS_RAW_PATH +:+ "/stock/" +:+ strftime_dmy date
                          +:+ "/stock.csv")]> (xcom w);
        task_logs :=
          task_logs w
            ++ [ {| log_task_name := "load_stock_to_hdfs";
                    log_execution_date := strftime_dmy date;
                    log_status := "success";
                    log_details :=
                      [("hdfs_path",
                        PyStr (HDFS_RAW_PATH +:+ "/stock/" +:+ strftime_dmy date
                                 +:+ "/stock.csv"));
                       ("record_count", PyInt (Z.of_nat (length rows)))] |} ];
        exception_logs := exception_logs w |}, Some ()).
Proof.
  intros Hd Hf. unfold load_stock_to_hdfs. rewrite (stock_csv_file date Hd).
  py_unfold. rewrite Hf. simpl. rewrite lookup_insert_eq. reflexivity.
Qed.

(** ** The run up to the Hive tables *)

Lemma store_snapshots_to_cassandra_success ti date w rows :
  local_files w !! (RAW_PATH +:+ "/snapshots/" +:+ strftime_dmy date +:+ "/snapshot.json")
  = Some (SnapshotJson rows) →
  store_snapshots_to_cassandra ti date w
  = ({| local_files := local_files w;
        hdfs_files := hdfs_files w;
        cassandra_table :=
          foldl (λ t s, cassandra_insert s t) (cassandra_table w) rows;
        hive_orders := hive_orders w;
        hive_stock := hive_stock w;
        xcom :=
          <[(ti, "cassandra_inserted_count") := PyInt (Z.of_nat (length rows))]> (xcom w);
        task_logs :=
          task_logs w
            ++ [ {| log_task_name := "store_snapshots_to_cassandra";
                    log_execution_date := strftime_dmy date;
                    log_status := "success";
                    log_details :=
                      [("inserted_count", PyInt (Z.of_nat (length rows)))] |} ];
        exception_logs := exception_logs w |}, Some ()).
Proof.
  intros Hf. unfold store_snapshots_to_cassandra.
  set (F := foldr (λ s k, session_execute s;; k) (mret ())).
  assert (∀ l w, F l w = _) as HF by (intros; apply session_execute_all).
  clearbody F. py_unfold. rewrite Hf. simpl. rewrite HF. reflexivity.
Qed.

Lemma create_hive_tables_success ti date w :
  create_hive_tables ti date w
  = (let orders_count :=
       Z.of_nat (length (match hdfs_files w !! ((HDFS_RAW_PATH +:+ "/orders/"
                                                   +:+ strftime_dmy date)
                                                  +:+ "/orders.csv") with
                         | Some (OrdersCsv rows) => rows
                         | _ => []
                         end)) in
     let stock_count :=
       Z.of_nat (length (match hdfs_files w !! ((HDFS_RAW_PATH +:+ "/stock/"
                                                   +:+ strftime_dmy date)
                                                  +:+ "/stock.csv") with
                         | Some (StockCsv rows) => rows
                         | _ => []
                         end)) in
     {| local_files := local_files w;
        hdfs_files := hdfs_files w;
        cassandra_table := cassandra_table w;
        hive_orders := Some (HDFS_RAW_PATH +:+ "/orders/" +:+ strftime_dmy date);
        hive_stock := Some (HDFS_RAW_PATH +:+ "/stock/" +:+ strftime_dmy date);
        xcom :=
          <[(ti, "date_str_iso") := PyStr (strftime_iso date)]>
            (<[(ti, "date_str") := PyStr (strftime_dmy date)]>
               (<[(ti, "stock_count") := PyInt stock_count]>
                  (<[(ti, "orders_count") := PyInt orders_count]> (xcom w))));
        task_logs :=
          task_logs w
            ++ [ {| log_task_name := "create_hive_tables";
                    log_execution_date := strftime_dmy date;
                    log_status := "success";
                    log_details :=
                      [("orders_count", PyInt orders_count);
                       ("stock_count", PyInt stock_count)] |} ];
        exception_logs := exception_logs w |}, Some ()).
Proof. reflexivity. Qed.

Ltac world_simpl :=
  cbn [local_files hdfs_files cassandra_table hive_orders hive_stock xcom
       task_logs exception_logs].

(** X11.  With the three raw files of a date of Python's datetime on the
    local disk, tasks 1 to 4 succeed whatever HDFS held before, and the
    statements of task 5 see in the Hive tables orders and stock exactly the
    rows of orders.csv and stock.json; the pushed orders_count, stock_count
    and cassandra_inserted_count are the numbers of rows of the three
    files. *)
Theorem ingested_tables_are_the_files_of_the_day (date : Date) (ans : Answers)
    (w0 : World) (o : list OrderLine) (s : list StockEntry)
    (n : list InventorySnapshot) :
  valid_date date →
  local_files w0 !! (RAW_PATH +:+ "/orders/" +:+ strftime_dmy date +:+ "/orders.csv")
  = Some (OrdersCsv o) →
  local_files w0 !! (RAW_PATH +:+ "/stock/" +:+ strftime_dmy date +:+ "/stock.json")
  = Some (StockJson s) →
  local_files w0 !! (RAW_PATH +:+ "/snapshots/" +:+ strftime_dmy date +:+ "/snapshot.json")
  = Some (SnapshotJson n) →
  let r := dag_run date ans w0 in
  load_orders_state r = success
  ∧ load_stock_state r = success
  ∧ store_snapshots_state r = success
  ∧ create_hive_tables_state r = success
  ∧ orders_table (before_aggregate r) = Some o
  ∧ stock_table (before_aggregate r) = Some s
  ∧ xcom (before_aggregate r) !! ("create_hive_tables", "orders_count")
    = Some (PyInt (Z.of_nat (length o)))
  ∧ xcom (before_aggregate r) !! ("create_hive_tables", "stock_count")
    = Some (PyInt (Z.of_nat (length s)))
  ∧ xcom (before_aggregate r) !! ("store_snapshots", "cassandra_inserted_count")
    = Some (PyInt (Z.of_nat (length n))).
Proof.
  intros Hd Ho Hs Hn r. subst r. unfold dag_run.
  erewrite run_task_success
    by (apply load_orders_to_hdfs_success; eassumption).
  cbv iota beta.
  erewrite run_task_success
    by (apply load_stock_to_hdfs_success; [done|simpl; eassumption]).
  cbv iota beta. world_simpl.
  erewrite run_task_success
    by (apply store_snapshots_to_cassandra_success; simpl; lookup_paths; eassumption).
  cbv iota beta. world_simpl.
  erewrite run_task_success by apply create_hive_tables_success.
  cbv iota beta zeta. world_simpl.
  rewrite !string_app_assoc. lookup_paths.
  repeat match goal with
         | |- context [let '(_, _) := ?x in _] => destruct x as [? ?]
         end.
  unfold orders_table, stock_table. simpl.
  rewrite !string_app_assoc. lookup_paths.
  repeat split; reflexivity.
Qed.

Lemma hdfs_writes_weaken (paths paths' : list string) (c : Py unit) :
  paths ⊆ paths' → hdfs_writes paths c → hdfs_writes paths' c.
Proof. intros Hsub Hc w p Hp. apply Hc. intros Hin. apply Hp, Hsub, Hin. Qed.

Ltac in_outputs :=
  intros ? Hin'; unfold hdfs_outputs;
  repeat (apply elem_of_cons in Hin' as [->|Hin']; [set_solver|]);
  by apply elem_of_nil in Hin'.

Lemma run_task_outputs rule upstream date paths c w p :
  hdfs_writes paths c → paths ⊆ hdfs_outputs date → p ∉ hdfs_outputs date →
  hdfs_files (run_task rule upstream c w).1 !! p = hdfs_files w !! p.
Proof.
  intros Hc Hsub Hp. eapply run_task_writes; [exact Hc|]. intros Hin. apply Hp, Hsub, Hin.
Qed.

Lemma dag_run_hdfs_frame (date : Date) (ans : Answers) (w0 : World) (p : string) :
  p ∉ hdfs_outputs date →
  hdfs_files (before_aggregate (dag_run date ans w0)) !! p = hdfs_files w0 !! p
  ∧ hdfs_files (before_net_demand (dag_run date ans w0)) !! p = hdfs_files w0 !! p
  ∧ hdfs_files (before_supplier_orders (dag_run date ans w0)) !! p = hdfs_files w0 !! p
  ∧ hdfs_files (final (dag_run date ans w0)) !! p = hdfs_files w0 !! p.
Proof.
  intros Hp. unfold dag_run.
  repeat match goal with
         | |- context [let '(_, _) := run_task ?rule ?up ?c ?w in _] =>
             let H := fresh "Hw" in
             assert (hdfs_files (run_task rule up c w).1 !! p = hdfs_files w !! p) as H
               by (eapply (run_task_outputs rule up date); [eauto| |exact Hp]; in_outputs);
             destruct (run_task rule up c w) as [? ?]; simpl in H
         end.
  simpl. repeat split; congruence.
Qed.

(** X12.  Apart from the log entries, each task writes in HDFS only its
    own files (tasks 3 and 4 none), and a run only the nine files of
    [hdfs_outputs]. *)
Theorem tasks_write_only_their_outputs (date : Date) :
  (∀ ti, hdfs_writes
           [HDFS_RAW_PATH +:+ "/orders/" +:+ strftime_dmy date +:+ "/orders.csv"]
           (load_orders_to_hdfs ti date))
  ∧ (∀ ti, hdfs_writes
             [HDFS_RAW_PATH +:+ "/stock/" +:+ strftime_dmy date +:+ "/stock.csv"]
             (load_stock_to_hdfs ti date))
  ∧ (∀ ti, hdfs_writes [] (store_snapshots_to_cassandra ti date))
  ∧ (∀ ti, hdfs_writes [] (create_hive_tables ti date))
  ∧ (∀ ti answer,
       hdfs_writes
         [HDFS_PROCESSED_PATH +:+ "/aggregated_orders/" +:+ strftime_dmy date
            +:+ "/aggregated_orders.json";
          HDFS_PROCESSED_PATH +:+ "/aggregated_orders/" +:+ strftime_dmy date
            +:+ "/aggregated_orders.csv"]
         (aggregate_orders_with_trino ti date answer))
  ∧ (∀ ti answer,
       hdfs_writes
         [HDFS_PROCESSED_PATH +:+ "/net_demand/" +:+ strftime_dmy date
            +:+ "/net_demand.json";
          HDFS_PROCESSED_PATH +:+ "/net_demand/" +:+ strftime_dmy date
            +:+ "/net_demand.csv"]
         (calculate_net_demand_with_trino ti date answer))
  ∧ (∀ ti answer,
       hdfs_writes
         [HDFS_OUTPUT_PATH +:+ "/supplier_orders/" +:+ strftime_dmy date
            +:+ "/supplier_orders.json";
          HDFS_OUTPUT_PATH +:+ "/supplier_orders/" +:+ strftime_dmy date
            +:+ "/supplier_orders.csv"]
         (generate_supplier_orders_with_trino ti date answer))
  ∧ (∀ ti, hdfs_writes
             [HDFS_LOGS_PATH +:+ "/summaries/summary_" +:+ strftime_dmy date
                +:+ ".json"]
             (generate_pipeline_summary ti date))
  ∧ (∀ ans w0 p, p ∉ hdfs_outputs date →
       hdfs_files (final (dag_run date ans w0)) !! p = hdfs_files w0 !! p).
Proof.
  repeat split; auto.
  intros ans w0 p Hp. by apply dag_run_hdfs_frame.
Qed.

(** *** Dates in paths *)

Lemma zfill_pretty_length (w : nat) (z : Z) :
  0 < z < 10 ^ Z.of_nat w → String.length (zfill w (pretty z)) = w.
Proof.
  intros Hz. unfold zfill. rewrite pretty_pos by lia.
  destruct (fixed_digits_pretty w (Z.to_N z) "") as (k & _ & Hlen).
  { apply N2Z.inj_lt. rewrite Z2N.id by lia. rewrite N2Z.inj_pow, nat_N_Z.
    change (Z.of_N 10) with 10. lia. }
  rewrite string_length_app, length_zeros. simpl in Hlen. lia.
Qed.

Lemma zfill_pretty_inj (w : nat) (i j : Z) :
  0 < i → 0 < j → zfill w (pretty i) = zfill w (pretty j) → i = j.
Proof.
  intros Hi Hj. unfold zfill. rewrite !pretty_pos by lia. intros Heq.
  apply zeros_app_inj in Heq.
  - rewrite <- !pretty_pos in Heq by lia. by apply (inj pretty) in Heq.
  - intros r. apply pretty_N_go_head. lia.
  - intros r. apply pretty_N_go_head. lia.
Qed.

Lemma string_app_inj_length (a b c d : string) :
  String.length a = String.length c → a +:+ b = c +:+ d → a = c ∧ b = d.
Proof.
  revert c. induction a as [|x a IH]; intros [|y c] Hlen Heq; try done.
  rewrite !string_app_cons in Heq. injection Heq as -> Heq.
  injection Hlen as Hlen. destruct (IH c Hlen Heq) as [-> ->]. done.
Qed.

Lemma strftime_dmy_length (d : Date) :
  valid_date d → String.length (strftime_dmy d) = 10%nat.
Proof.
  intros (Hy & Hm & Hd). unfold strftime_dmy.
  rewrite !string_length_app, !zfill_pretty_length by (simpl; lia). done.
Qed.

Lemma strftime_dmy_inj (d1 d2 : Date) :
  valid_date d1 → valid_date d2 → strftime_dmy d1 = strftime_dmy d2 → d1 = d2.
Proof.
  intros (Hy1 & Hm1 & Hd1) (Hy2 & Hm2 & Hd2). unfold strftime_dmy. intros Heq.
  apply string_app_inj_length in Heq as [Hday Heq];
    [|by rewrite !zfill_pretty_length by (simpl; lia)].
  apply string_app_inj in Heq.
  apply string_app_inj_length in Heq as [Hmonth Heq];
    [|by rewrite !zfill_pretty_length by (simpl; lia)].
  apply string_app_inj in Heq.
  apply zfill_pretty_inj in Hday, Hmonth, Heq; try lia.
  destruct d1, d2; simpl in *; congruence.
Qed.

Lemma dated_path_inj (a a' b s1 s2 : string) :
  String.length s1 = String.length s2 →
  a +:+ a' +:+ s1 +:+ b = a +:+ a' +:+ s2 +:+ b → s1 = s2.
Proof.
  intros Hlen Heq. do 2 apply string_app_inj in Heq.
  by apply string_app_inj_length in Heq as [? _].
Qed.

(** X13.  A run for a date of Python's datetime leaves every data file of
    another such date in HDFS as it was. *)
Theorem run_keeps_files_of_other_dates (date date' : Date) (ans : Answers)
    (w0 : World) (p : string) :
  valid_date date → valid_date date' → date ≠ date' →
  p ∈ hdfs_outputs date' →
  hdfs_files (final (dag_run date ans w0)) !! p = hdfs_files w0 !! p.
Proof.
  intros Hv Hv' Hne Hp. apply dag_run_hdfs_frame. intros Hin.
  pose proof (strftime_dmy_length _ Hv) as Hl.
  pose proof (strftime_dmy_length _ Hv') as Hl'.
  assert (strftime_dmy date ≠ strftime_dmy date') as Hs
    by (intros Heq; by apply Hne, strftime_dmy_inj).
  unfold hdfs_outputs in *.
  generalize dependent (strftime_dmy date). generalize dependent (strftime_dmy date').
  intros s' Hp Hl' s Hin Hl Hs.
  repeat (apply elem_of_cons in Hp as [->|Hp]);
    [..|by apply elem_of_nil in Hp];
    (repeat (apply elem_of_cons in Hin as [Hin|Hin]);
     [..|by apply elem_of_nil in Hin];
     first
       [ apply dated_path_inj in Hin; [congruence|congruence]
       | apply (f_equal String.length) in Hin;
         rewrite ?string_length_app in Hin; simpl in Hin; lia
       | cbv in Hin; congruence ]).
Qed.

(** *** Delivery dates *)

(** X14.  The expected_delivery_date of a line of supplier_orders_sql lies
    lead_time_days days after the date of the run, counted in days of the
    calendar, and is a date with a month from 1 to 12 and a day from 1 to
    31. *)
Theorem delivery_date_is_lead_time_later (db : Db) (date : Date)
    (out : list SupplierOrderSql) (line : SupplierOrderSql) :
  supplier_orders_sql db date (Some out) → line ∈ out →
  days_from_civil (expected_delivery_date line)
  = days_from_civil date + so_lead_time_days line
  ∧ 1 <= month (expected_delivery_date line) <= 12
  ∧ 1 <= day (expected_delivery_date line) <= 31.
Proof.
  intros Hsql Hline.
  destruct (supplier_orders_sql_elem_of db date out line Hsql Hline)
    as (sorted & nd & rs & _ & _ & _ & _ & _ & _ & Hrow).
  unfold supplier_order_row in Hrow.
  destruct (order_quantity_of _ _ _) as [q|]; simpl in Hrow; [|done].
  injection Hrow as <-. simpl. unfold date_add_days.
  apply days_from_civil_from_days.
Qed.

(** ** The run in which every task succeeds *)

Lemma aggregate_orders_with_trino_success ti date w rows :
  rows ≠ [] →
  aggregate_orders_with_trino ti date (Some rows) w
  = ({| local_files :=
          <[(TEMP_PATH +:+ "/aggregated_orders/" +:+ strftime_dmy date)
              +:+ "/aggregated_orders.csv" := AggregatedCsv rows]>
            (<[(TEMP_PATH +:+ "/aggregated_orders/" +:+ strftime_dmy date)
                 +:+ "/aggregated_orders.json" := AggregatedJson rows]>
               (local_files w));
        hdfs_files :=
          <[HDFS_PROCESSED_PATH +:+ "/aggregated_orders/" +:+ strftime_dmy date
              +:+ "/aggregated_orders.csv" := AggregatedCsv rows]>
            (<[HDFS_PROCESSED_PATH +:+ "/aggregated_orders/" +:+ strftime_dmy date
                 +:+ "/aggregated_orders.json" := AggregatedJson rows]>
               (hdfs_files w));
        cassandra_table := cassandra_table w;
        hive_orders := hive_orders w;
        hive_stock := hive_stock w;
        xcom :=
          <[(ti, "aggregated_orders_count") := PyInt (Z.of_nat (length rows))]>
            (<[(ti, "aggregated_orders_file")
                 := PyStr (HDFS_PROCESSED_PATH +:+ "/aggregated_orders/"
                             +:+ strftime_dmy date +:+ "/aggregated_orders.json")]>
               (xcom w));
        task_logs :=
          task_logs w
            ++ [ {| log_task_name := "aggregate_orders_with_trino";
                    log_execution_date := strftime_dmy date;
                    log_status := "success";
                    log_details :=
                      [("aggregated_count", PyInt (Z.of_nat (length rows)));
                       ("hdfs_json_path",
                        PyStr (HDFS_PROCESSED_PATH +:+ "/aggregated_orders/"
                                 +:+ strftime_dmy date +:+ "/aggregated_orders.json"));
                       ("hdfs_csv_path",
                        PyStr (HDFS_PROCESSED_PATH +:+ "/aggregated_orders/"
                                 +:+ strftime_dmy date +:+ "/aggregated_orders.csv"))] |} ];
        exception_logs := exception_logs w |}, Some ()).
Proof.
  intros Hne. destruct rows as [|r rows]; [done|].
  unfold aggregate_orders_with_trino. py_unfold. py_eval. reflexivity.
Qed.

Lemma calculate_net_demand_with_trino_success ti date w rows :
  rows ≠ [] →
  let results :=
    (λ r, {| nd_sql := r; calculation_date := strftime_dmy date |}) <$> rows in
  calculate_net_demand_with_trino ti date (Some rows) w
  = ({| local_files :=
          <[(TEMP_PATH +:+ "/net_demand/" +:+ strftime_dmy date)
              +:+ "/net_demand.csv" := NetDemandCsv results]>
            (<[(TEMP_PATH +:+ "/net_demand/" +:+ strftime_dmy date)
                 +:+ "/net_demand.json" := NetDemandJson results]>
               (local_files w));
        hdfs_files :=
          <[HDFS_PROCESSED_PATH +:+ "/net_demand/" +:+ strftime_dmy date
              +:+ "/net_demand.csv" := NetDemandCsv results]>
            (<[HDFS_PROCESSED_PATH +:+ "/net_demand/" +:+ strftime_dmy date
                 +:+ "/net_demand.json" := NetDemandJson results]>
               (hdfs_files w));
        cassandra_table := cassandra_table w;
        hive_orders := hive_orders w;
        hive_stock := hive_stock w;
        xcom :=
          <[(ti, "items_with_demand")
              := PyInt (Z.of_nat (length (List.filter (λ r, 0 <? net_demand (nd_sql r))
                                            results)))]>
            (<[(ti, "total_net_demand")
                 := PyInt (sum_bigint ((λ r, net_demand (nd_sql r)) <$> results))]>
               (<[(ti, "net_demand_count") := PyInt (Z.of_nat (length results))]>
                  (<[(ti, "net_demand_file")
                       := PyStr (HDFS_PROCESSED_PATH +:+ "/net_demand/"
                                   +:+ strftime_dmy date +:+ "/net_demand.json")]>
                     (xcom w))));
        task_logs :=
          task_logs w
            ++ [ {| log_task_name := "calculate_net_demand_with_trino";
                    log_execution_date := strftime_dmy date;
                    log_status := "success";
                    log_details :=
                      [("total_combinations", PyInt (Z.of_nat (length results)));
                       ("items_with_demand",
                        PyInt (Z.of_nat (length (List.filter
                                                   (λ r, 0 <? net_demand (nd_sql r))
                                                   results))));
                       ("total_net_demand",
                        PyInt (sum_bigint ((λ r, net_demand (nd_sql r)) <$> results)));
                       ("hdfs_json_path",
                        PyStr (HDFS_PROCESSED_PATH +:+ "/net_demand/"
                                 +:+ strftime_dmy date +:+ "/net_demand.json"));
                       ("hdfs_csv_path",
                        PyStr (HDFS_PROCESSED_PATH +:+ "/net_demand/"
                                 +:+ strftime_dmy date +:+ "/net_demand.csv"))] |} ];
        exception_logs := exception_logs w |}, Some ()).
Proof.
  intros Hne results.
  assert (results ≠ []) as Hres.
  { intros Hnil. apply fmap_nil_inv in Hnil. done. }
  unfold calculate_net_demand_with_trino. py_unfold. fold results.
  clearbody results. destruct results as [|x results]; [done|].
  py_eval. reflexivity.
Qed.

Lemma generate_supplier_orders_with_trino_success ti date w rows :
  rows ≠ [] →
  let lines := assemble_orders (strftime_iso date) 1 rows in
  generate_supplier_orders_with_trino ti date (Some rows) w
  = ({| local_files :=
          <[(TEMP_PATH +:+ "/supplier_orders/" +:+ strftime_dmy date)
              +:+ "/supplier_orders.csv" := SupplierOrdersCsv lines]>
            (<[(TEMP_PATH +:+ "/supplier_orders/" +:+ strftime_dmy date)
                 +:+ "/supplier_orders.json" := SupplierOrdersJson lines]>
               (local_files w));
        hdfs_files :=
          <[HDFS_OUTPUT_PATH +:+ "/supplier_orders/" +:+ strftime_dmy date
              +:+ "/supplier_orders.csv" := SupplierOrdersCsv lines]>
            (<[HDFS_OUTPUT_PATH +:+ "/supplier_orders/" +:+ strftime_dmy date
                 +:+ "/supplier_orders.json" := SupplierOrdersJson lines]>
               (hdfs_files w));
        cassandra_table := cassandra_table w;
        hive_orders := hive_orders w;
        hive_stock := hive_stock w;
        xcom :=
          <[(ti, "total_procurement_cost") := sum_total_cost lines]>
            (<[(ti, "supplier_orders_count") := PyInt (Z.of_nat (length lines))]>
               (<[(ti, "supplier_orders_file")
                    := PyStr (HDFS_OUTPUT_PATH +:+ "/supplier_orders/"
                                +:+ strftime_dmy date +:+ "/supplier_orders.json")]>
                  (xcom w)));
        task_logs :=
          task_logs w
            ++ [ {| log_task_name := "generate_supplier_orders_with_trino";
                    log_execution_date := strftime_dmy date;
                    log_status := "success";
                    log_details :=
                      [("orders_generated", PyInt (Z.of_nat (length lines)));
                       ("total_cost", sum_total_cost lines);
                       ("hdfs_json_path",
                        PyStr (HDFS_OUTPUT_PATH +:+ "/supplier_orders/"
                                 +:+ strftime_dmy date +:+ "/supplier_orders.json"));
                       ("hdfs_csv_path",
                        PyStr (HDFS_OUTPUT_PATH +:+ "/supplier_orders/"
                                 +:+ strftime_dmy date +:+ "/supplier_orders.csv"))] |} ];
        exception_logs := exception_logs w |}, Some ()).
Proof.
  intros Hne lines.
  assert (lines ≠ []) as Hres.
  { subst lines. by destruct rows. }
  unfold generate_supplier_orders_with_trino. py_unfold. fold lines.
  clearbody lines. destruct lines as [|x lines]; [done|].
  py_eval. reflexivity.
Qed.

Lemma numeric_or_0_sum_total_cost (l : list SupplierOrderLine) :
  numeric (or_0 (Some (sum_total_cost l))) = true.
Proof.
  destruct l as [|x l]; [reflexivity|]. simpl.
  by destruct (foldl _ _ _).
Qed.

Lemma generate_pipeline_summary_success ti date w :
  numeric (sm_total_cost (summary_of (strftime_dmy date) (xcom w))) = true →
  generate_pipeline_summary ti date w
  = ({| local_files :=
          <[TEMP_PATH +:+ "/pipeline_summary" +:+ "/summary_" +:+ strftime_dmy date
              +:+ ".json" := SummaryJson (summary_of (strftime_dmy date) (xcom w))]>
            (local_files w);
        hdfs_files :=
          <[HDFS_LOGS_PATH +:+ "/summaries/summary_" +:+ strftime_dmy date +:+ ".json"
              := SummaryJson (summary_of (strftime_dmy date) (xcom w))]> (hdfs_files w);
        cassandra_table := cassandra_table w;
        hive_orders := hive_orders w;
        hive_stock := hive_stock w;
        xcom := xcom w;
        task_logs := task_logs w;
        exception_logs := exception_logs w |}, Some ()).
Proof.
  intros Hnum. unfold generate_pipeline_summary, build_summary, format_2f.
  py_unfold. rewrite lookup_insert_eq. simpl.
  unfold summary_of in Hnum. simpl in Hnum. rewrite Hnum. reflexivity.
Qed.

Ltac key_neq := let H := fresh in intros H; discriminate H.

Ltac lookup_keys :=
  repeat match goal with
         | |- context [<[?i := ?x]> ?m !! ?i] => rewrite (lookup_insert_eq m i x)
         | |- context [<[?i := ?x]> ?m !! ?j] =>
             rewrite (lookup_insert_ne m i j x) by key_neq
         end.

(** X15.  A run for a date of Python's datetime with the three raw files
    on the local disk and a non-empty answer to each of the three statements:
    the eight tasks succeed, the six result files in HDFS hold the answers
    (net-demand rows with the calculation date, order lines as assembled),
    and the summary reports the numbers of rows of the three raw files and
    of the three answers, the number of rows with a positive net demand, the
    sum of the net demands and the total cost. *)
Theorem successful_run_reports_its_counts (date : Date) (ans : Answers) (w0 : World)
    (o : list OrderLine) (s : list StockEntry) (n : list InventorySnapshot)
    (agg : list AggregatedDemand) (nd : list NetDemandSql)
    (so : list SupplierOrderSql) :
  valid_date date →
  local_files w0 !! (RAW_PATH +:+ "/orders/" +:+ strftime_dmy date +:+ "/orders.csv")
  = Some (OrdersCsv o) →
  local_files w0 !! (RAW_PATH +:+ "/stock/" +:+ strftime_dmy date +:+ "/stock.json")
  = Some (StockJson s) →
  local_files w0 !! (RAW_PATH +:+ "/snapshots/" +:+ strftime_dmy date +:+ "/snapshot.json")
  = Some (SnapshotJson n) →
  aggregate_answer ans = Some agg → agg ≠ [] →
  net_demand_answer ans = Some nd → nd ≠ [] →
  supplier_orders_answer ans = Some so → so ≠ [] →
  let r := dag_run date ans w0 in
  let results :=
    (λ x, {| nd_sql := x; calculation_date := strftime_dmy date |}) <$> nd in
  let lines := assemble_orders (strftime_iso date) 1 so in
  (load_orders_state r = success ∧ load_stock_state r = success
   ∧ store_snapshots_state r = success ∧ create_hive_tables_state r = success
   ∧ aggregate_orders_state r = success ∧ calculate_net_demand_state r = success
   ∧ generate_supplier_orders_state r = success ∧ generate_summary_state r = success)
  ∧ hdfs_aggregated_json date (final r) = Some (AggregatedJson agg)
  ∧ hdfs_aggregated_csv date (final r) = Some (AggregatedCsv agg)
  ∧ hdfs_net_demand_json date (final r) = Some (NetDemandJson results)
  ∧ hdfs_net_demand_csv date (final r) = Some (NetDemandCsv results)
  ∧ hdfs_supplier_orders_json date (final r) = Some (SupplierOrdersJson lines)
  ∧ hdfs_supplier_orders_csv date (final r) = Some (SupplierOrdersCsv lines)
  ∧ hdfs_summary date (final r)
    = Some (SummaryJson
              {| sm_execution_date := strftime_dmy date;
                 sm_status := "completed";
                 sm_orders_count := PyInt (Z.of_nat (length o));
                 sm_stock_count := PyInt (Z.of_nat (length s));
                 sm_snapshots_inserted := PyInt (Z.of_nat (length n));
                 sm_aggregation_combinations := PyInt (Z.of_nat (length agg));
                 sm_net_demand_combinations := PyInt (Z.of_nat (length nd));
                 sm_items_with_demand :=
                   PyInt (Z.of_nat (length (List.filter (λ x, 0 <? net_demand x) nd)));
                 sm_total_quantity := PyInt (sum_bigint (net_demand <$> nd));
                 sm_orders_generated := PyInt (Z.of_nat (length so));
                 sm_total_cost := or_0 (Some (sum_total_cost lines)) |}).
Proof.
  intros Hd Ho Hs Hn Hagg Hagg0 Hnd Hnd0 Hso Hso0 r results lines.
  assert (sum_bigint ((λ r, net_demand (nd_sql r)) <$> results)
          = sum_bigint (net_demand <$> nd)) as Htotal.
  { unfold results. rewrite <- list_fmap_compose. done. }
  assert (length (List.filter (λ r, 0 <? net_demand (nd_sql r)) results)
          = length (List.filter (λ x, 0 <? net_demand x) nd)) as Hitems.
  { unfold results. by rewrite bool_filter_fmap_length. }
  assert (length results = length nd) as Hcount.
  { unfold results. by rewrite length_fmap. }
  assert (length lines = length so) as Hlines.
  { unfold lines. apply length_assemble_orders. }
  pose proof (λ w, calculate_net_demand_with_trino_success "calculate_net_demand" date
                     w nd Hnd0) as H6.
  cbv zeta in H6. fold results in H6.
  pose proof (λ w, generate_supplier_orders_with_trino_success
                     "generate_supplier_orders" date w so Hso0) as H7.
  cbv zeta in H7. fold lines in H7.
  clearbody results lines.
  subst r. unfold dag_run. rewrite Hagg, Hnd, Hso.
  erewrite run_task_success
    by (apply load_orders_to_hdfs_success; eassumption).
  cbv iota beta.
  erewrite run_task_success
    by (apply load_stock_to_hdfs_success; [done|simpl; eassumption]).
  cbv iota beta. world_simpl.
  erewrite run_task_success
    by (apply store_snapshots_to_cassandra_success; simpl; lookup_paths; eassumption).
  cbv iota beta. world_simpl.
  erewrite run_task_success by apply create_hive_tables_success.
  cbv iota beta zeta. world_simpl.
  rewrite !string_app_assoc. lookup_paths.
  erewrite run_task_success
    by (by apply aggregate_orders_with_trino_success).
  cbv iota beta. world_simpl.
  erewrite run_task_success by (by apply H6).
  cbv iota beta. world_simpl.
  erewrite run_task_success by (by apply H7).
  cbv iota beta. world_simpl.
  rewrite run_task_all_done, generate_pipeline_summary_success
    by (unfold summary_of; cbn [sm_total_cost]; world_simpl; lookup_keys;
        apply numeric_or_0_sum_total_cost).
  unfold hdfs_aggregated_json, hdfs_aggregated_csv, hdfs_net_demand_json,
    hdfs_net_demand_csv, hdfs_supplier_orders_json, hdfs_supplier_orders_csv,
    hdfs_summary, summary_of.
  cbn [fst snd final load_orders_state load_stock_state store_snapshots_state
       create_hive_tables_state aggregate_orders_state calculate_net_demand_state
       generate_supplier_orders_state generate_summary_state].
  world_simpl.
  clear H6 H7.
  repeat split; try reflexivity.
  1-6: match goal with
       | |- context [<[_ := SummaryJson ?v]> _] => generalize v; intros ?
       end; lookup_paths; reflexivity.
  rewrite lookup_insert_eq.
  match goal with |- context [or_0 (?X !! _)] => set (x := X) end.
  repeat match goal with
         | |- context [or_0 (x !! ?k)] =>
             let H := fresh in
             eassert (x !! k = _) as H by (subst x; lookup_keys; reflexivity);
             rewrite H; clear H
         end.
  rewrite !or_0_int, Htotal, Hitems, Hcount, Hlines. reflexivity.
Qed.

(** ** The XCom store and the logs *)

Lemma generate_pipeline_summary_xcom ti date w :
  xcom (generate_pipeline_summary ti date w).1 = xcom w.
Proof.
  unfold generate_pipeline_summary, build_summary, format_2f. py_unfold.
  rewrite lookup_insert_eq. simpl. by destruct (numeric _).
Qed.

Lemma run_task_xcom_other rule upstream ti c w k :
  xcom_discipline ti c → k.1 ≠ ti →
  xcom (run_task rule upstream c w).1 !! k = xcom w !! k.
Proof. intros Hc Hk. by apply (run_task_xcom rule upstream ti c w Hc). Qed.

#[local] Hint Resolve load_orders_to_hdfs_xcom load_stock_to_hdfs_xcom
  store_snapshots_to_cassandra_xcom create_hive_tables_xcom
  aggregate_orders_with_trino_xcom calculate_net_demand_with_trino_xcom
  generate_supplier_orders_with_trino_xcom : core.

Lemma dag_run_xcom_frame (date : Date) (ans : Answers) (w0 : World)
    (k : string * string) :
  k.1 ∉ pushing_tasks →
  xcom (final (dag_run date ans w0)) !! k = xcom w0 !! k.
Proof.
  intros Hk. unfold pushing_tasks in Hk. rewrite !not_elem_of_cons in Hk.
  destruct Hk as (K1 & K2 & K3 & K4 & K5 & K6 & K7 & _).
  unfold dag_run.
  repeat match goal with
         | |- context [let '(_, _) := run_task all_success ?up ?c ?w in _] =>
             let H := fresh "Hw" in
             assert (xcom (run_task all_success up c w).1 !! k = xcom w !! k) as H
               by (eapply run_task_xcom_other; [eauto|done]);
             destruct (run_task all_success up c w) as [? ?]; simpl in H
         end.
  match goal with
  | |- context [run_task all_done ?up ?c ?w] =>
      pose proof (f_equal fst (run_task_all_done up c w)) as H8;
      destruct (run_task all_done up c w) as [? ?]
  end.
  simpl in *. subst. rewrite generate_pipeline_summary_xcom. congruence.
Qed.

(** X16.  Each of the tasks 1 to 7 changes the XCom store under the keys
    of its own task id only and leaves it as it was when it fails; task 8
    pushes nothing; a run leaves the entries of every other task id as they
    were. *)
Theorem tasks_push_only_their_own_xcom (date : Date) :
  (∀ ti, xcom_discipline ti (load_orders_to_hdfs ti date))
  ∧ (∀ ti, xcom_discipline ti (load_stock_to_hdfs ti date))
  ∧ (∀ ti, xcom_discipline ti (store_snapshots_to_cassandra ti date))
  ∧ (∀ ti, xcom_discipline ti (create_hive_tables ti date))
  ∧ (∀ ti answer, xcom_discipline ti (aggregate_orders_with_trino ti date answer))
  ∧ (∀ ti answer, xcom_discipline ti (calculate_net_demand_with_trino ti date answer))
  ∧ (∀ ti answer,
       xcom_discipline ti (generate_supplier_orders_with_trino ti date answer))
  ∧ (∀ ti w, xcom (generate_pipeline_summary ti date w).1 = xcom w)
  ∧ (∀ ans w0 k, k.1 ∉ pushing_tasks →
       xcom (final (dag_run date ans w0)) !! k = xcom w0 !! k).
Proof.
  split_and!; auto.
  - intros ti w. apply generate_pipeline_summary_xcom.
  - intros ans w0 k Hk. by apply dag_run_xcom_frame.
Qed.

(** *** Instances *)

Lemma valid_date_scenario : valid_date Scenario.date.
Proof. unfold valid_date. simpl. lia. Qed.

Lemma gaps_world_orders :
  local_files Scenario.gaps_world
    !! (RAW_PATH +:+ "/orders/" +:+ strftime_dmy Scenario.date +:+ "/orders.csv")
  = Some (OrdersCsv Scenario.gaps_orders).
Proof. vm_compute. reflexivity. Qed.

Lemma gaps_world_stock :
  local_files Scenario.gaps_world
    !! (RAW_PATH +:+ "/stock/" +:+ strftime_dmy Scenario.date +:+ "/stock.json")
  = Some (StockJson []).
Proof. vm_compute. reflexivity. Qed.

Lemma gaps_world_snapshots :
  local_files Scenario.gaps_world
    !! (RAW_PATH +:+ "/snapshots/" +:+ strftime_dmy Scenario.date +:+ "/snapshot.json")
  = Some (SnapshotJson Scenario.snapshots).
Proof. vm_compute. reflexivity. Qed.

Lemma delivery_date_is_lead_time_later_witness :
  supplier_orders_sql Scenario.gaps_db Scenario.date (Some [Scenario.line_1])
  ∧ Scenario.line_1 ∈ [Scenario.line_1]
  ∧ days_from_civil (expected_delivery_date Scenario.line_1)
    = days_from_civil Scenario.date + so_lead_time_days Scenario.line_1.
Proof.
  assert (Scenario.line_1 ∈ [Scenario.line_1]) as Hin by apply list_elem_of_here.
  split; [exact supplier_orders_sql_gaps|]. split; [exact Hin|].
  exact (proj1 (delivery_date_is_lead_time_later _ _ _ _
                  supplier_orders_sql_gaps Hin)).
Defined.

Lemma net_demand_task_reports_the_answer_witness :
  net_demand_sql Scenario.gaps_db Scenario.date
    [Scenario.net_demand_1; Scenario.net_demand_2;
     Scenario.nd 4 "PROD004" 9; Scenario.nd 3 "PROD003" 7]
  ∧ (calculate_net_demand_with_trino "calculate_net_demand" Scenario.date
       (Some [Scenario.net_demand_1; Scenario.net_demand_2;
              Scenario.nd 4 "PROD004" 9; Scenario.nd 3 "PROD003" 7])
       Scenario.gaps_world).2 = Some ().
Proof.
  split; [exact net_demand_sql_gaps|].
  exact (proj1 (net_demand_task_reports_the_answer "calculate_net_demand"
                  Scenario.date Scenario.gaps_world Scenario.gaps_db _
                  net_demand_sql_gaps ltac:(discriminate))).
Defined.


Lemma ingested_tables_are_the_files_of_the_day_witness :
  valid_date Scenario.date
  ∧ orders_table
      (before_aggregate
         (dag_run Scenario.date Scenario.gaps_answers Scenario.gaps_world))
    = Some Scenario.gaps_orders.
Proof.
  split; [exact valid_date_scenario|].
  exact (proj1 (proj2 (proj2 (proj2 (proj2
           (ingested_tables_are_the_files_of_the_day Scenario.date
              Scenario.gaps_answers Scenario.gaps_world _ _ _
              valid_date_scenario gaps_world_orders gaps_world_stock
              gaps_world_snapshots)))))).
Defined.

Lemma run_keeps_files_of_other_dates_witness :
  valid_date Scenario.date
  ∧ valid_date {| year := 2026; month := 1; day := 16 |}
  ∧ hdfs_supplier_orders_csv {| year := 2026; month := 1; day := 16 |}
      (final (dag_run Scenario.date Scenario.gaps_answers Scenario.gaps_world))
    = hdfs_supplier_orders_csv {| year := 2026; month := 1; day := 16 |}
        Scenario.gaps_world.
Proof.
  assert (valid_date {| year := 2026; month := 1; day := 16 |}) as Hv
    by (unfold valid_date; simpl; lia).
  split; [exact valid_date_scenario|]. split; [exact Hv|].
  apply (run_keeps_files_of_other_dates Scenario.date
           {| year := 2026; month := 1; day := 16 |} Scenario.gaps_answers
           Scenario.gaps_world _ valid_date_scenario Hv ltac:(discriminate)).
  unfold hdfs_outputs. do 7 apply list_elem_of_further. apply list_elem_of_here.
Defined.

Lemma successful_run_reports_its_counts_witness :
  valid_date Scenario.date
  ∧ aggregate_answer Scenario.gaps_answers
    = Some [Scenario.agg 1 "PROD001" 50 2; Scenario.agg 2 "PROD002" 12 1;
            Scenario.agg 4 "PROD004" 9 1; Scenario.agg 3 "PROD003" 7 1]
  ∧ hdfs_aggregated_csv Scenario.date
      (final (dag_run Scenario.date Scenario.gaps_answers Scenario.gaps_world))
    = Some (AggregatedCsv
              [Scenario.agg 1 "PROD001" 50 2; Scenario.agg 2 "PROD002" 12 1;
               Scenario.agg 4 "PROD004" 9 1; Scenario.agg 3 "PROD003" 7 1]).
Proof.
  split; [exact valid_date_scenario|]. split; [reflexivity|].
  exact (proj1 (proj2 (proj2
           (successful_run_reports_its_counts Scenario.date Scenario.gaps_answers
              Scenario.gaps_world _ _ _ _ _ _
              valid_date_scenario gaps_world_orders gaps_world_stock
              gaps_world_snapshots
              eq_refl ltac:(discriminate) eq_refl ltac:(discriminate)
              eq_refl ltac:(discriminate))))).
Defined.

(** ** The run with its retries, on an HDFS that may not answer *)

(** When every upload is accepted the callables are those of the sections
    above, and with no retry the run is [dag_run]. *)
Lemma tasks_on_answering (ti : string) (date : Date) :
  load_orders_to_hdfs_on answering ti date = load_orders_to_hdfs ti date
  ∧ load_stock_to_hdfs_on answering ti date = load_stock_to_hdfs ti date
  ∧ store_snapshots_to_cassandra_on answering ti date
    = store_snapshots_to_cassandra ti date
  ∧ create_hive_tables_on answering ti date = create_hive_tables ti date
  ∧ (∀ a, aggregate_orders_with_trino_on answering ti date a
          = aggregate_orders_with_trino ti date a)
  ∧ (∀ a, calculate_net_demand_with_trino_on answering ti date a
          = calculate_net_demand_with_trino ti date a)
  ∧ (∀ a, generate_supplier_orders_with_trino_on answering ti date a
          = generate_supplier_orders_with_trino ti date a)
  ∧ generate_pipeline_summary_on answering ti date = generate_pipeline_summary ti date.
Proof. repeat split. Qed.

Lemma dag_run_in_single_attempt (date : Date) (ans : Answers) (w0 : World) :
  dag_run_in 0 (λ _ _, answering) date ans w0 = dag_run date ans w0.
Proof. reflexivity. Qed.

Ltac on_unfold :=
  unfold load_file_to, log_task_execution_to, log_exception_to;
  repeat match goal with
         | |- context [accepts_log ?h] => destruct (accepts_log h)
         | |- context [accepts ?h ?d] => destruct (accepts h d)
         end.

Lemma load_orders_to_hdfs_on_xcom h ti date :
  xcom_discipline ti (load_orders_to_hdfs_on h ti date).
Proof.
  intros w. unfold load_orders_to_hdfs_on. on_unfold; py_unfold;
    repeat py_case; xcom_frame.
Qed.

Lemma load_stock_to_hdfs_on_xcom h ti date :
  xcom_discipline ti (load_stock_to_hdfs_on h ti date).
Proof.
  intros w. unfold load_stock_to_hdfs_on. on_unfold; py_unfold;
    repeat py_case; xcom_frame.
Qed.

Lemma store_snapshots_to_cassandra_on_xcom h ti date :
  xcom_discipline ti (store_snapshots_to_cassandra_on h ti date).
Proof.
  intros w. unfold store_snapshots_to_cassandra_on.
  set (F := foldr (λ s k, session_execute s;; k) (mret ())).
  assert (∀ l w, F l w = _) as HF by (intros; apply session_execute_all).
  clearbody F. on_unfold; py_unfold;
    (destruct (local_files w !! _) as [[]|] eqn:Hf; simpl; try xcom_frame);
    rewrite HF; simpl; xcom_frame.
Qed.

Lemma create_hive_tables_on_xcom h ti date :
  xcom_discipline ti (create_hive_tables_on h ti date).
Proof.
  intros w. unfold create_hive_tables_on. on_unfold; py_unfold;
    unfold orders_table, stock_table; simpl; repeat py_case; xcom_frame.
Qed.

Lemma aggregate_orders_with_trino_on_xcom h ti date answer :
  xcom_discipline ti (aggregate_orders_with_trino_on h ti date answer).
Proof.
  intros w. unfold aggregate_orders_with_trino_on. on_unfold; py_unfold;
    repeat py_case; xcom_frame.
Qed.

Lemma calculate_net_demand_with_trino_on_xcom h ti date answer :
  xcom_discipline ti (calculate_net_demand_with_trino_on h ti date answer).
Proof.
  intros w. unfold calculate_net_demand_with_trino_on. on_unfold; py_unfold;
    repeat py_case; xcom_frame.
Qed.

Lemma generate_supplier_orders_with_trino_on_xcom h ti date answer :
  xcom_discipline ti (generate_supplier_orders_with_trino_on h ti date answer).
Proof.
  intros w. unfold generate_supplier_orders_with_trino_on. on_unfold; py_unfold;
    repeat py_case; xcom_frame.
Qed.

Lemma load_orders_to_hdfs_on_writes h ti date :
  hdfs_writes [HDFS_RAW_PATH +:+ "/orders/" +:+ strftime_dmy date +:+ "/orders.csv"]
    (load_orders_to_hdfs_on h ti date).
Proof.
  intros w p Hp. unfold load_orders_to_hdfs_on. on_unfold; py_unfold;
    repeat py_case; hdfs_frame Hp.
Qed.

Lemma load_stock_to_hdfs_on_writes h ti date :
  hdfs_writes [HDFS_RAW_PATH +:+ "/stock/" +:+ strftime_dmy date +:+ "/stock.csv"]
    (load_stock_to_hdfs_on h ti date).
Proof.
  intros w p Hp. unfold load_stock_to_hdfs_on. on_unfold; py_unfold;
    repeat py_case; hdfs_frame Hp.
Qed.

Lemma store_snapshots_to_cassandra_on_writes h ti date :
  hdfs_writes [] (store_snapshots_to_cassandra_on h ti date).
Proof.
  intros w p Hp. unfold store_snapshots_to_cassandra_on.
  set (F := foldr (λ s k, session_execute s;; k) (mret ())).
  assert (∀ l w, F l w = _) as HF by (intros; apply session_execute_all).
  clearbody F. on_unfold; py_unfold;
    (destruct (local_files w !! _) as [[]|] eqn:Hf; simpl; try done);
    rewrite HF; done.
Qed.

Lemma create_hive_tables_on_writes h ti date :
  hdfs_writes [] (create_hive_tables_on h ti date).
Proof.
  intros w p Hp. unfold create_hive_tables_on. on_unfold; py_unfold;
    unfold orders_table, stock_table; simpl; repeat py_case; hdfs_frame Hp.
Qed.

Lemma aggregate_orders_with_trino_on_writes h ti date answer :
  hdfs_writes
    [HDFS_PROCESSED_PATH +:+ "/aggregated_orders/" +:+ strftime_dmy date
       +:+ "/aggregated_orders.json";
     HDFS_PROCESSED_PATH +:+ "/aggregated_orders/" +:+ strftime_dmy date
       +:+ "/aggregated_orders.csv"]
    (aggregate_orders_with_trino_on h ti date answer).
Proof.
  intros w p Hp. unfold aggregate_orders_with_trino_on. on_unfold; py_unfold;
    repeat py_case; hdfs_frame Hp.
Qed.

Lemma calculate_net_demand_with_trino_on_writes h ti date answer :
  hdfs_writes
    [HDFS_PROCESSED_PATH +:+ "/net_demand/" +:+ strftime_dmy date +:+ "/net_demand.json";
     HDFS_PROCESSED_PATH +:+ "/net_demand/" +:+ strftime_dmy date +:+ "/net_demand.csv"]
    (calculate_net_demand_with_trino_on h ti date answer).
Proof.
  intros w p Hp. unfold calculate_net_demand_with_trino_on. on_unfold; py_unfold;
    repeat py_case; hdfs_frame Hp.
Qed.

Lemma generate_supplier_orders_with_trino_on_writes h ti date answer :
  hdfs_writes
    [HDFS_OUTPUT_PATH +:+ "/supplier_orders/" +:+ strftime_dmy date
       +:+ "/supplier_orders.json";
     HDFS_OUTPUT_PATH +:+ "/supplier_orders/" +:+ strftime_dmy date
       +:+ "/supplier_orders.csv"]
    (generate_supplier_orders_with_trino_on h ti date answer).
Proof.
  intros w p Hp. unfold generate_supplier_orders_with_trino_on. on_unfold; py_unfold;
    repeat py_case; hdfs_frame Hp.
Qed.

Lemma generate_pipeline_summary_on_writes h ti date :
  hdfs_writes
    [HDFS_LOGS_PATH +:+ "/summaries/summary_" +:+ strftime_dmy date +:+ ".json"]
    (generate_pipeline_summary_on h ti date).
Proof.
  intros w p Hp. unfold generate_pipeline_summary_on, build_summary, format_2f.
  on_unfold; py_unfold; rewrite ?lookup_insert_eq; simpl;
    try destruct (numeric _); hdfs_frame Hp.
Qed.

(** *** Attempts *)

Lemma attempts_state n k c w :
  (attempts n k c w).2 = success ∨ (attempts n k c w).2 = failed.
Proof.
  revert k w. induction n as [|n IH]; intros k w; simpl;
    destruct (c k w) as [w' [[]|]]; simpl; auto.
Qed.

Lemma attempts_xcom n k ti c w :
  (∀ j, xcom_discipline ti (c j)) →
  (∀ key, key.1 ≠ ti → xcom (attempts n k c w).1 !! key = xcom w !! key)
  ∧ ((attempts n k c w).2 ≠ success → xcom (attempts n k c w).1 = xcom w).
Proof.
  intros Hc. revert k w. induction n as [|n IH]; intros k w; simpl;
    destruct (Hc k w) as [Hframe Hquiet];
    destruct (c k w) as [w' [[]|]]; simpl in *.
  - split; [exact Hframe|done].
  - split; [exact Hframe|auto].
  - split; [exact Hframe|done].
  - destruct (IH (S k) w') as [IH1 IH2]. split.
    + intros key Hkey. rewrite IH1 by done. by apply Hframe.
    + intros Hne. rewrite IH2 by done. by apply Hquiet.
Qed.

Lemma attempts_writes n k paths c w p :
  (∀ j, hdfs_writes paths (c j)) → p ∉ paths →
  hdfs_files (attempts n k c w).1 !! p = hdfs_files w !! p.
Proof.
  intros Hc Hp. revert k w. induction n as [|n IH]; intros k w; simpl;
    pose proof (Hc k w p Hp) as Hw;
    destruct (c k w) as [w' [[]|]]; simpl in *; try done.
  by rewrite IH.
Qed.

Lemma run_task_in_xcom n rule upstream ti c w :
  (∀ j, xcom_discipline ti (c j)) →
  (∀ key, key.1 ≠ ti → xcom (run_task_in n rule upstream c w).1 !! key = xcom w !! key)
  ∧ ((run_task_in n rule upstream c w).2 ≠ success →
     xcom (run_task_in n rule upstream c w).1 = xcom w).
Proof.
  intros Hc. unfold run_task_in.
  destruct rule, upstream; simpl; try done; by apply (attempts_xcom n 0 ti).
Qed.

Lemma run_task_in_writes n rule upstream paths c w p :
  (∀ j, hdfs_writes paths (c j)) → p ∉ paths →
  hdfs_files (run_task_in n rule upstream c w).1 !! p = hdfs_files w !! p.
Proof.
  intros Hc Hp. unfold run_task_in.
  destruct rule, upstream; simpl; try done; by apply (attempts_writes n 0 paths).
Qed.

Lemma run_task_in_upstream_failed n upstream c w :
  upstream ≠ success →
  run_task_in n all_success upstream c w = (w, upstream_failed).
Proof. by destruct upstream. Qed.

(** *** Task 8 in an environment *)

Lemma generate_pipeline_summary_on_spec h ti date w :
  let s := summary_of (strftime_dmy date) (xcom w) in
  let r := generate_pipeline_summary_on h ti date w in
  xcom r.1 = xcom w
  ∧ task_logs r.1 = task_logs w
  ∧ cassandra_table r.1 = cassandra_table w
  ∧ hive_orders r.1 = hive_orders w
  ∧ hive_stock r.1 = hive_stock w
  ∧ (r.2 = Some () ↔
       accepts h (summary_path date) = true ∧ numeric (sm_total_cost s) = true)
  ∧ hdfs_files r.1
    = (if accepts h (summary_path date)
       then <[summary_path date := SummaryJson s]> (hdfs_files w)
       else hdfs_files w)
  ∧ exception_logs r.1
    = exception_logs w
        ++ (if r.2 is Some _ then []
            else if accepts_log h
                 then [ {| log_task_name := "generate_pipeline_summary";
                           log_execution_date := strftime_dmy date;
                           log_status := "exception";
                           log_details := [("stage", PyStr "summary_generation")] |} ]
                 else []).
Proof.
  intros s r. subst r s. unfold summary_path.
  unfold generate_pipeline_summary_on, build_summary, format_2f, summary_of.
  unfold load_file_to, log_task_execution_to, log_exception_to.
  destruct (accepts_log h), (accepts h _); py_unfold; rewrite ?lookup_insert_eq; simpl;
    try destruct (numeric _); simpl; rewrite ?app_nil_r;
    split_and!; try done; try (split; [done|tauto]);
    try (split; [discriminate|intros [? ?]; discriminate]).
Qed.

Lemma attempts_invariant (P : World → Prop) n k c w :
  (∀ j w, P w → P (c j w).1) → P w → P (attempts n k c w).1.
Proof.
  intros Hc. revert k w. induction n as [|n IH]; intros k w Hw; simpl;
    pose proof (Hc k w Hw) as Hw';
    destruct (c k w) as [w' [[]|]]; simpl in *; auto.
Qed.

Lemma run_task_in_invariant (P : World → Prop) n rule upstream c w :
  (∀ j w, P w → P (c j w).1) → P w → P (run_task_in n rule upstream c w).1.
Proof.
  intros Hc Hw. unfold run_task_in.
  destruct rule, upstream; simpl; try done; by apply attempts_invariant.
Qed.

Lemma xcom_discipline_total_cost ti c w :
  xcom_discipline ti c → ti ≠ "generate_supplier_orders" →
  total_cost_numeric w → total_cost_numeric (c w).1.
Proof.
  intros Hc Hti Hw. unfold total_cost_numeric.
  destruct (Hc w) as [Hframe _]. by rewrite Hframe.
Qed.

Lemma generate_supplier_orders_with_trino_on_total_cost h date answer w :
  total_cost_numeric w →
  total_cost_numeric
    (generate_supplier_orders_with_trino_on h "generate_supplier_orders" date
       answer w).1.
Proof.
  unfold total_cost_numeric. intros Hw.
  unfold generate_supplier_orders_with_trino_on. on_unfold; py_unfold;
    repeat py_case; simpl; rewrite ?lookup_insert_eq; try exact Hw;
    try reflexivity; by destruct (foldl _ _ _).
Qed.

Lemma total_cost_numeric_empty w : xcom w = ∅ → total_cost_numeric w.
Proof. unfold total_cost_numeric. intros ->. by rewrite lookup_empty. Qed.

(** The attempts of task 8 on a world whose total cost is a number: the
    first attempt whose upload is accepted succeeds. *)
Lemma summary_attempts n k (env : nat → Hdfs) date w :
  total_cost_numeric w →
  let r := attempts n k (λ j, generate_pipeline_summary_on (env j) "generate_summary"
                                date) w in
  xcom r.1 = xcom w
  ∧ task_logs r.1 = task_logs w
  ∧ cassandra_table r.1 = cassandra_table w
  ∧ hive_orders r.1 = hive_orders w
  ∧ hive_stock r.1 = hive_stock w
  ∧ (r.2 = success ↔
       ∃ j, (k ≤ j ≤ k + n)%nat ∧ accepts (env j) (summary_path date) = true)
  ∧ (r.2 = success →
       hdfs_files r.1
       = <[summary_path date := SummaryJson (summary_of (strftime_dmy date) (xcom w))]>
           (hdfs_files w))
  ∧ (r.2 ≠ success → hdfs_files r.1 = hdfs_files w).
Proof.
  intros Hnum. revert k w Hnum. induction n as [|n IH]; intros k w Hnum; simpl.
  - pose proof (generate_pipeline_summary_on_spec (env k) "generate_summary" date w)
      as (Hx & Ht & Hc & Ho & Hs & Hok & Hh & _). cbv zeta in *.
    unfold total_cost_numeric in Hnum. unfold summary_of in Hok. simpl in Hok.
    rewrite Hnum in Hok.
    destruct (generate_pipeline_summary_on _ _ _ _) as [w' [[]|]]; simpl in *.
    + destruct (proj1 Hok eq_refl) as [Hacc _]. rewrite Hacc in Hh.
      split_and!; try done.
      split; [|by intros]. intros _. exists k. split; [lia|done].
    + assert (accepts (env k) (summary_path date) = false) as Hacc.
      { destruct (accepts (env k) (summary_path date)) eqn:E; [|done].
        discriminate (proj2 Hok (conj eq_refl eq_refl)). }
      rewrite Hacc in Hh. split_and!; try done.
      split; [done|]. intros (j & Hj & Hj'). assert (j = k) as -> by lia. congruence.
  - pose proof (generate_pipeline_summary_on_spec (env k) "generate_summary" date w)
      as (Hx & Ht & Hc & Ho & Hs & Hok & Hh & _). cbv zeta in *.
    unfold total_cost_numeric in Hnum. unfold summary_of in Hok. simpl in Hok.
    rewrite Hnum in Hok.
    destruct (generate_pipeline_summary_on _ _ _ _) as [w' [[]|]]; simpl in *.
    + destruct (proj1 Hok eq_refl) as [Hacc _]. rewrite Hacc in Hh.
      split_and!; try done.
      split; [|by intros]. intros _. exists k. split; [lia|done].
    + assert (accepts (env k) (summary_path date) = false) as Hacc.
      { destruct (accepts (env k) (summary_path date)) eqn:E; [|done].
        discriminate (proj2 Hok (conj eq_refl eq_refl)). }
      rewrite Hacc in Hh.
      assert (total_cost_numeric w') as Hnum'
        by (unfold total_cost_numeric; by rewrite Hx).
      destruct (IH (S k) w' Hnum') as (Ix & It & Ic & Io & Is & Iok & Ih & Ih').
      rewrite Hx in *. rewrite Hh in *.
      split_and!; try congruence; [|exact Ih|exact Ih'].
      rewrite Iok. split.
      * intros (j & Hj & Hj'). exists j. split; [lia|done].
      * intros (j & Hj & Hj'). exists j. split; [|done].
        destruct (decide (j = k)) as [->|]; [congruence|lia].
Qed.

Lemma run_task_in_all_done n upstream c w :
  run_task_in n all_done upstream c w = attempts n 0 c w.
Proof. by destruct upstream. Qed.

Ltac on_total_cost Lx :=
  let j := fresh in let ww := fresh in let Hww := fresh in
  intros j ww Hww; cbv beta;
  first [ apply generate_supplier_orders_with_trino_on_total_cost; exact Hww
        | eapply xcom_discipline_total_cost; [apply Lx|discriminate|exact Hww] ].

(** One of the tasks 1 to 7 of a run, registered as [ti], with its lemmas
    [Lx] and [Lw]: what it leaves of the XCom store ([F], [Q]), of the file
    at [p] ([P]) and of the total cost ([N]). *)
Ltac run_next_in ti Lx Lw p F Q P N w s :=
  match goal with
  | |- context [let '(_, _) := run_task_in ?n all_success ?up ?c ?w0 in _] =>
      pose proof (run_task_in_xcom n all_success up ti c w0
                    ltac:(intros; cbv beta; apply Lx)) as [F Q];
      pose proof (run_task_in_writes n all_success up _ c w0 p
                    ltac:(intros; cbv beta; apply Lw) ltac:(not_in_paths)) as P;
      pose proof (run_task_in_invariant total_cost_numeric n all_success up c w0
                    ltac:(on_total_cost Lx)) as N;
      destruct (run_task_in n all_success up c w0) as [w s];
      cbn [fst snd] in F, Q, P, N
  end.

(** C10 as amended.  The summary task is triggered whatever the states of
    the upstream tasks: it is never upstream_failed.  In a run that starts
    with an empty XCom store it succeeds exactly when HDFS accepts the upload
    of the summary file in one of its three attempts.  When it succeeds the
    summary of the date is in HDFS with status completed, and every metric
    whose producing task did not succeed is 0; when it does not succeed the
    run leaves the summary file of the date as it found it.  In the run
    without order lines every upload is accepted, task 7 is upstream_failed,
    no supplier-order file of the date exists and the summary reads
    completed. *)
Theorem summary_completed_whatever_happened (env : Env) (date : Date)
    (ans : Answers) (w0 : World) :
  xcom w0 = ∅ →
  let r := pipeline_run env date ans w0 in
  generate_summary_state r ≠ upstream_failed
  ∧ (generate_summary_state r = success ↔
       ∃ k, (k ≤ default_retries)%nat
            ∧ accepts (env "generate_summary" k) (summary_path date) = true)
  ∧ (generate_summary_state r = success →
       ∃ s, hdfs_summary date (final r) = Some (SummaryJson s)
            ∧ sm_status s = "completed"
            ∧ (create_hive_tables_state r ≠ success →
               sm_orders_count s = PyInt 0 ∧ sm_stock_count s = PyInt 0)
            ∧ (store_snapshots_state r ≠ success → sm_snapshots_inserted s = PyInt 0)
            ∧ (aggregate_orders_state r ≠ success →
               sm_aggregation_combinations s = PyInt 0)
            ∧ (calculate_net_demand_state r ≠ success →
               sm_net_demand_combinations s = PyInt 0
               ∧ sm_items_with_demand s = PyInt 0
               ∧ sm_total_quantity s = PyInt 0)
            ∧ (generate_supplier_orders_state r ≠ success →
               sm_orders_generated s = PyInt 0 ∧ sm_total_cost s = PyInt 0))
  ∧ (generate_summary_state r ≠ success →
       hdfs_summary date (final r) = hdfs_summary date w0)
  ∧ (let r0 := pipeline_run (λ _ _, answering) Scenario.date Scenario.empty_answers
                 Scenario.empty_world in
     generate_supplier_orders_state r0 = upstream_failed
     ∧ hdfs_supplier_orders_json Scenario.date (final r0) = None
     ∧ hdfs_supplier_orders_csv Scenario.date (final r0) = None
     ∧ ∃ s, hdfs_summary Scenario.date (final r0) = Some (SummaryJson s)
            ∧ sm_status s = "completed").
Proof.
  intros Hx. cbv zeta.
  assert (total_cost_numeric w0) as N0 by (by apply total_cost_numeric_empty).
  split; [|split; [|split; [|split]]].
  5:{ split; [by vm_compute|]. split; [by vm_compute|]. split; [by vm_compute|].
      eexists. split; [vm_compute; reflexivity|reflexivity]. }
  all: unfold pipeline_run, dag_run_in, hdfs_summary, summary_path.
  all: run_next_in "load_orders" load_orders_to_hdfs_on_xcom load_orders_to_hdfs_on_writes
      (HDFS_LOGS_PATH +:+ "/summaries/summary_" +:+ strftime_dmy date +:+ ".json")
      F1 Q1 P1 N1 w1 s1;
    run_next_in "load_stock" load_stock_to_hdfs_on_xcom load_stock_to_hdfs_on_writes
      (HDFS_LOGS_PATH +:+ "/summaries/summary_" +:+ strftime_dmy date +:+ ".json")
      F2 Q2 P2 N2 w2 s2;
    run_next_in "store_snapshots" store_snapshots_to_cassandra_on_xcom store_snapshots_to_cassandra_on_writes
      (HDFS_LOGS_PATH +:+ "/summaries/summary_" +:+ strftime_dmy date +:+ ".json")
      F3 Q3 P3 N3 w3 s3;
    run_next_in "create_hive_tables" create_hive_tables_on_xcom create_hive_tables_on_writes
      (HDFS_LOGS_PATH +:+ "/summaries/summary_" +:+ strftime_dmy date +:+ ".json")
      F4 Q4 P4 N4 w4 s4;
    run_next_in "aggregate_orders" aggregate_orders_with_trino_on_xcom aggregate_orders_with_trino_on_writes
      (HDFS_LOGS_PATH +:+ "/summaries/summary_" +:+ strftime_dmy date +:+ ".json")
      F5 Q5 P5 N5 w5 s5;
    run_next_in "calculate_net_demand" calculate_net_demand_with_trino_on_xcom calculate_net_demand_with_trino_on_writes
      (HDFS_LOGS_PATH +:+ "/summaries/summary_" +:+ strftime_dmy date +:+ ".json")
      F6 Q6 P6 N6 w6 s6;
    run_next_in "generate_supplier_orders" generate_supplier_orders_with_trino_on_xcom generate_supplier_orders_with_trino_on_writes
      (HDFS_LOGS_PATH +:+ "/summaries/summary_" +:+ strftime_dmy date +:+ ".json")
      F7 Q7 P7 N7 w7 s7.
  all: rewrite run_task_in_all_done.
  all: assert (total_cost_numeric w7) as N
         by (apply N7, N6, N5, N4, N3, N2, N1, N0).
  all: pose proof (summary_attempts default_retries 0 (env "generate_summary") date w7 N)
         as (Ix & _ & _ & _ & _ & Iok & Ih & Ih'); cbv zeta in *;
       unfold summary_path in *.
  all: pose proof (attempts_state default_retries 0
                     (λ k, generate_pipeline_summary_on (env "generate_summary" k)
                             "generate_summary" date) w7) as Hst.
  all: destruct (attempts default_retries 0 _ w7) as [w8 s8]; cbn [fst snd final
         load_orders_state load_stock_state store_snapshots_state
         create_hive_tables_state aggregate_orders_state calculate_net_demand_state
         generate_supplier_orders_state generate_summary_state] in *.
  - by destruct Hst as [-> | ->].
  - rewrite Iok. split; intros (k & Hk & Hacc); exists k; (split; [lia|done]).
  - intros Hs8. rewrite (Ih Hs8), lookup_insert_eq.
    eexists. split; [reflexivity|]. split; [done|].
    unfold summary_of; simpl.
    split; [|split; [|split; [|split]]]; intros Hne; repeat split.
    all: repeat first
           [ rewrite F7 by done | rewrite F6 by done | rewrite F5 by done
           | rewrite F4 by done | rewrite F3 by done | rewrite F2 by done
           | rewrite F1 by done
           | rewrite (Q3 Hne) | rewrite (Q4 Hne) | rewrite (Q5 Hne)
           | rewrite (Q6 Hne) | rewrite (Q7 Hne) ].
    all: rewrite Hx, lookup_empty; done.
  - intros Hs8. rewrite (Ih' Hs8). congruence.
Qed.

Lemma summary_completed_whatever_happened_witness :
  xcom Scenario.empty_world = ∅
  ∧ generate_summary_state
      (pipeline_run (λ _ _, answering) Scenario.date Scenario.empty_answers
         Scenario.empty_world)
    = success.
Proof.
  split; [reflexivity|].
  apply (proj2 (proj1 (proj2 (summary_completed_whatever_happened (λ _ _, answering)
                                Scenario.date Scenario.empty_answers
                                Scenario.empty_world eq_refl)))).
  exists 0%nat. split; [unfold default_retries; lia|reflexivity].
Defined.

(** C10 as stated fails.  When HDFS accepts no upload, the run for the
    orders of the scenario ends with task 1 failed after its three attempts
    and the summary task failed as well: no summary is produced, and no log
    file either. *)
Lemma summary_not_produced_when_hdfs_is_silent :
  let r := pipeline_run (λ _ _, silent) Scenario.date Scenario.gaps_answers
             Scenario.gaps_world in
  load_orders_state r = failed
  ∧ generate_supplier_orders_state r = upstream_failed
  ∧ generate_summary_state r = failed
  ∧ hdfs_summary Scenario.date (final r) = None
  ∧ hdfs_files (final r) = ∅
  ∧ task_logs (final r) = []
  ∧ exception_logs (final r) = [].
Proof. cbv zeta. split_and!; vm_compute; reflexivity. Qed.

(** *** The run without orders.csv *)

Lemma load_orders_to_hdfs_on_missing h ti date w :
  local_files w !! (RAW_PATH +:+ "/orders/" +:+ strftime_dmy date +:+ "/orders.csv")
  = None →
  let r := load_orders_to_hdfs_on h ti date w in
  r.2 = None
  ∧ local_files r.1 = local_files w
  ∧ hdfs_files r.1 = hdfs_files w
  ∧ cassandra_table r.1 = cassandra_table w
  ∧ hive_orders r.1 = hive_orders w
  ∧ hive_stock r.1 = hive_stock w
  ∧ xcom r.1 = xcom w
  ∧ task_logs r.1 = task_logs w
  ∧ exception_logs r.1
    = exception_logs w ++ (if accepts_log h then [orders_exception date] else []).
Proof.
  intros Hmissing. cbv zeta. unfold load_orders_to_hdfs_on.
  unfold load_file_to, log_task_execution_to, log_exception_to.
  destruct (accepts_log h); py_unfold; rewrite Hmissing; simpl;
    rewrite ?app_nil_r; done.
Qed.

Lemma load_orders_attempts_missing n k (env : nat → Hdfs) ti date w :
  local_files w !! (RAW_PATH +:+ "/orders/" +:+ strftime_dmy date +:+ "/orders.csv")
  = None →
  let r := attempts n k (λ j, load_orders_to_hdfs_on (env j) ti date) w in
  r.2 = failed
  ∧ local_files r.1 = local_files w
  ∧ hdfs_files r.1 = hdfs_files w
  ∧ cassandra_table r.1 = cassandra_table w
  ∧ hive_orders r.1 = hive_orders w
  ∧ hive_stock r.1 = hive_stock w
  ∧ xcom r.1 = xcom w
  ∧ task_logs r.1 = task_logs w
  ∧ exception_logs r.1
    = exception_logs w
        ++ (j ← seq k (S n); if accepts_log (env j) then [orders_exception date] else []).
Proof.
  revert k w. induction n as [|n IH]; intros k w Hmissing; simpl.
  - destruct (load_orders_to_hdfs_on_missing (env k) ti date w Hmissing)
      as (E & H1 & H2 & H3 & H4 & H5 & H6 & H7 & H8). cbv zeta in *.
    destruct (load_orders_to_hdfs_on _ _ _ _) as [w' [[]|]]; simpl in *;
      [discriminate|]. rewrite app_nil_r. done.
  - destruct (load_orders_to_hdfs_on_missing (env k) ti date w Hmissing)
      as (E & H1 & H2 & H3 & H4 & H5 & H6 & H7 & H8). cbv zeta in *.
    destruct (load_orders_to_hdfs_on _ _ _ _) as [w' [[]|]]; simpl in *;
      [discriminate|].
    destruct (IH (S k) w') as (I0 & I1 & I2 & I3 & I4 & I5 & I6 & I7 & I8);
      [by rewrite H1|].
    simpl in I8. rewrite I8, H8, <- app_assoc.
    split_and!; try congruence.
Qed.

Lemma summary_attempts_keeps n k (env : nat → Hdfs) date w :
  let r := attempts n k (λ j, generate_pipeline_summary_on (env j) "generate_summary"
                                date) w in
  xcom r.1 = xcom w
  ∧ task_logs r.1 = task_logs w
  ∧ cassandra_table r.1 = cassandra_table w
  ∧ hive_orders r.1 = hive_orders w
  ∧ hive_stock r.1 = hive_stock w.
Proof.
  revert k w. induction n as [|n IH]; intros k w; simpl;
    pose proof (generate_pipeline_summary_on_spec (env k) "generate_summary" date w)
      as (Hx & Ht & Hc & Ho & Hs & _); cbv zeta in *;
    destruct (generate_pipeline_summary_on _ _ _ _) as [w' [[]|]]; simpl in *;
    try done.
  destruct (IH (S k) w') as (Ix & It & Ic & Io & Is). split_and!; congruence.
Qed.

Lemma attempts_first_success n k c w w' :
  c k w = (w', Some ()) → attempts n k c w = (w', success).
Proof. intros H. destruct n; simpl; by rewrite H. Qed.

(** X10.  A run whose orders.csv of the date is missing, the world being
    changed by the tasks only: task 1 fails after its three attempts (retries
    is 2), each attempt leaving one exception entry when the upload of its
    log file is accepted; the tasks 2 to 7 are upstream_failed; the
    Cassandra table, the Hive tables, the XCom store, the task log and every
    HDFS file other than the summary of the date are unchanged.  The summary
    task is not upstream_failed; when HDFS accepts the upload of the summary
    in its first attempt and the total cost found in the XCom store is a
    number, it succeeds, writes the summary of the XCom store the run started
    with, and logs nothing. *)
Theorem run_without_orders_file (env : Env) (date : Date) (ans : Answers)
    (w0 : World) :
  local_files w0 !! (RAW_PATH +:+ "/orders/" +:+ strftime_dmy date +:+ "/orders.csv")
  = None →
  let r := pipeline_run env date ans w0 in
  load_orders_state r = failed
  ∧ load_stock_state r = upstream_failed
  ∧ store_snapshots_state r = upstream_failed
  ∧ create_hive_tables_state r = upstream_failed
  ∧ aggregate_orders_state r = upstream_failed
  ∧ calculate_net_demand_state r = upstream_failed
  ∧ generate_supplier_orders_state r = upstream_failed
  ∧ generate_summary_state r ≠ upstream_failed
  ∧ cassandra_table (final r) = cassandra_table w0
  ∧ hive_orders (final r) = hive_orders w0
  ∧ hive_stock (final r) = hive_stock w0
  ∧ xcom (final r) = xcom w0
  ∧ task_logs (final r) = task_logs w0
  ∧ (∀ p, p ≠ summary_path date → hdfs_files (final r) !! p = hdfs_files w0 !! p)
  ∧ exception_logs (before_aggregate r)
    = exception_logs w0
        ++ (k ← seq 0 (S default_retries);
            if accepts_log (env "load_orders" k) then [orders_exception date] else [])
  ∧ (accepts (env "generate_summary" 0%nat) (summary_path date) = true →
     numeric (sm_total_cost (summary_of (strftime_dmy date) (xcom w0))) = true →
     generate_summary_state r = success
     ∧ hdfs_files (final r)
       = <[summary_path date := SummaryJson (summary_of (strftime_dmy date) (xcom w0))]>
           (hdfs_files w0)
     ∧ exception_logs (final r) = exception_logs (before_aggregate r)).
Proof.
  intros Hmissing. cbv zeta. unfold pipeline_run, dag_run_in.
  cbn [run_task_in].
  destruct (load_orders_attempts_missing default_retries 0 (env "load_orders")
              "load_orders" date w0 Hmissing)
    as (E & H1 & H2 & H3 & H4 & H5 & H6 & H7 & H8). cbv zeta in *.
  destruct (attempts default_retries 0 _ w0) as [w1 s1]. simpl in E. subst s1.
  cbn [run_task_in fst snd] in *.
  pose proof (summary_attempts_keeps default_retries 0 (env "generate_summary") date w1)
    as (Ix & It & Ic & Io & Is). cbv zeta in Ix, It, Ic, Io, Is.
  pose proof (attempts_state default_retries 0
                (λ k, generate_pipeline_summary_on (env "generate_summary" k)
                        "generate_summary" date) w1) as Hst.
  pose proof (λ p Hp, attempts_writes default_retries 0 [summary_path date]
                (λ k, generate_pipeline_summary_on (env "generate_summary" k)
                        "generate_summary" date) w1 p
                (λ j, generate_pipeline_summary_on_writes _ _ _) Hp) as Hw.
  pose proof (generate_pipeline_summary_on_spec (env "generate_summary" 0%nat)
                "generate_summary" date w1) as (_ & _ & _ & _ & _ & Hok & Hh & He).
  cbv zeta in Hok, Hh, He.
  pose proof (attempts_first_success default_retries 0
                (λ k, generate_pipeline_summary_on (env "generate_summary" k)
                        "generate_summary" date) w1) as Hfirst.
  cbv beta in Hfirst.
  destruct (attempts default_retries 0 _ w1) as [w8 s8].
  cbn [fst snd final before_aggregate load_orders_state load_stock_state
       store_snapshots_state create_hive_tables_state aggregate_orders_state
       calculate_net_demand_state generate_supplier_orders_state
       generate_summary_state] in *.
  split_and!; try done; try congruence.
  - by destruct Hst as [-> | ->].
  - intros p Hp. rewrite Hw; [by rewrite H2|].
    rewrite not_elem_of_cons. split; [done|apply not_elem_of_nil].
  - intros Hacc Hnum. rewrite H6 in *.
    destruct (generate_pipeline_summary_on _ _ _ w1) as [w' [[]|]] eqn:Hrun;
      cbn [fst snd] in *.
    + specialize (Hfirst w' eq_refl). injection Hfirst as <- <-.
      rewrite Hacc in Hh. rewrite app_nil_r in He.
      split; [done|]. split; [by rewrite Hh, H2|done].
    + discriminate (proj2 Hok (conj Hacc Hnum)).
Qed.

Lemma run_without_orders_file_witness :
  local_files bare_world
    !! (RAW_PATH +:+ "/orders/" +:+ strftime_dmy Scenario.date +:+ "/orders.csv")
  = None
  ∧ exception_logs
      (before_aggregate
         (pipeline_run (λ _ _, answering) Scenario.date Scenario.gaps_answers
            bare_world))
    = [orders_exception Scenario.date; orders_exception Scenario.date;
       orders_exception Scenario.date].
Proof.
  split; [reflexivity|].
  pose proof (run_without_orders_file (λ _ _, answering) Scenario.date
                Scenario.gaps_answers bare_world eq_refl) as H.
  cbv zeta in H.
  destruct H as (_ & _ & _ & _ & _ & _ & _ & _ & _ & _ & _ & _ & _ & _ & H & _).
  etrans; [exact H|reflexivity].
Defined.

(** *** The log entries of the tasks *)

Ltac log_frame :=
  split; [reflexivity|first [reflexivity|eexists; split_and!; reflexivity]].

Ltac log_cases h :=
  unfold logs_its_outcome, load_file_to, log_task_execution_to, log_exception_to;
  destruct (accepts_log h).

(** X17.  A call of one of the tasks 1 to 7 leaves at most one log entry,
    under its name: on success an entry of status success in the task log
    and none in the exception log, on failure an entry in the exception log
    and none in the task log, and the entry is there exactly when the upload
    of the log file is accepted.  Task 8 writes no task entry; it succeeds
    exactly when HDFS accepts the upload of the summary and the total cost it
    pulled is a number, and then logs nothing; when it fails it leaves one
    exception entry under its name if the upload of the log file is accepted,
    none otherwise. *)
Theorem tasks_log_their_outcome (h : Hdfs) (date : Date) :
  (∀ ti, logs_its_outcome h "load_orders_to_hdfs" (load_orders_to_hdfs_on h ti date))
  ∧ (∀ ti, logs_its_outcome h "load_stock_to_hdfs" (load_stock_to_hdfs_on h ti date))
  ∧ (∀ ti, logs_its_outcome h "store_snapshots_to_cassandra"
             (store_snapshots_to_cassandra_on h ti date))
  ∧ (∀ ti, logs_its_outcome h "create_hive_tables" (create_hive_tables_on h ti date))
  ∧ (∀ ti answer, logs_its_outcome h "aggregate_orders_with_trino"
                    (aggregate_orders_with_trino_on h ti date answer))
  ∧ (∀ ti answer, logs_its_outcome h "calculate_net_demand_with_trino"
                    (calculate_net_demand_with_trino_on h ti date answer))
  ∧ (∀ ti answer, logs_its_outcome h "generate_supplier_orders_with_trino"
                    (generate_supplier_orders_with_trino_on h ti date answer))
  ∧ (∀ ti w,
       let r := generate_pipeline_summary_on h ti date w in
       (r.2 = Some () ↔
          accepts h (summary_path date) = true
          ∧ numeric (sm_total_cost (summary_of (strftime_dmy date) (xcom w))) = true)
       ∧ task_logs r.1 = task_logs w
       ∧ (r.2 = Some () → exception_logs r.1 = exception_logs w)
       ∧ (r.2 = None →
          if accepts_log h
          then ∃ e, exception_logs r.1 = exception_logs w ++ [e]
                    ∧ log_task_name e = "generate_pipeline_summary"
                    ∧ log_status e = "exception"
          else exception_logs r.1 = exception_logs w)).
Proof.
  split_and!.
  - intros ti w. unfold load_orders_to_hdfs_on.
    log_cases h; destruct (accepts h _); py_unfold; repeat py_case; log_frame.
  - intros ti w. unfold load_stock_to_hdfs_on.
    log_cases h; destruct (accepts h _); py_unfold; repeat py_case; log_frame.
  - intros ti w. unfold store_snapshots_to_cassandra_on.
    set (F := foldr (λ s k, session_execute s;; k) (mret ())).
    assert (∀ l w, F l w = _) as HF by (intros; apply session_execute_all).
    clearbody F. log_cases h; py_unfold;
      (destruct (local_files w !! _) as [[]|] eqn:Hf; simpl; try log_frame);
      rewrite HF; simpl; log_frame.
  - intros ti w. unfold create_hive_tables_on.
    log_cases h; py_unfold; unfold orders_table, stock_table; simpl; log_frame.
  - intros ti answer w. unfold aggregate_orders_with_trino_on.
    log_cases h; destruct (accepts h _), (accepts h _); py_unfold;
      repeat py_case; log_frame.
  - intros ti answer w. unfold calculate_net_demand_with_trino_on.
    log_cases h; destruct (accepts h _), (accepts h _); py_unfold;
      repeat py_case; log_frame.
  - intros ti answer w. unfold generate_supplier_orders_with_trino_on.
    log_cases h; destruct (accepts h _), (accepts h _); py_unfold;
      repeat py_case; log_frame.
  - intros ti w.
    pose proof (generate_pipeline_summary_on_spec h ti date w)
      as (_ & Ht & _ & _ & _ & Hok & _ & He). cbv zeta in *.
    destruct (generate_pipeline_summary_on h ti date w) as [w' [[]|]]; simpl in *.
    + rewrite app_nil_r in He. split_and!; try done.
    + split_and!; try done. intros _.
      destruct (accepts_log h); [|by rewrite He, app_nil_r].
      eexists. split_and!; [exact He| |]; done.
Qed.
